(** * ESP32 RTSP microphone for BirdNET-Go: a shallow embedding of the firmware

    The development follows [esp32_rtsp_mic_birdnetgo.ino] (capture,
    conditioning, RTSP/RTP, supervisors) and the web module (the HTTP
    setters and actions).  The sketch keeps all of its state in free global
    variables; here they are gathered in nested records, grouped as the
    sketch groups them in its comments, and every function of the sketch
    becomes a function from state to state.

    - C [float] is IEEE-754 binary32, computed with the Standard Library's
      executable [SpecFloat] at precision 24, so roundings are those of
      the device.
    - Fixed-width integers are [Z] with the wrap-around written out.
    - [millis()], sensor readings, socket reads and the results of socket
      writes are inputs of the functions that consume them.
    - The flash key/value store ([Preferences], namespace [audio]) is a
      finite map from key to typed value.
    - Serial output is not part of the state, and neither are the lines
      the sketch prints through [simplePrintln].  The log ring of the web
      module is modelled on its own, with the line [httpSet] pushes to it.
    - A call that can end in [ESP.restart()] before it returns has a
      result of type [Call]: it returns, or the device restarts from the
      state reached. *)

From Stdlib Require Import ZArith QArith Qround Qabs Bool List Ascii String SpecFloat Lia.
From stdpp Require Import base option list gmap strings pretty.

Open Scope Z_scope.

(** ** Single-precision floats *)

Module F32.

Definition prec : Z := 24.
Definition emax : Z := 128.

Definition float := spec_float.

(** [(float)z] for an integer [z]: round to nearest, ties to even. *)
Definition of_Z (z : Z) : float := binary_normalize prec emax z 0 false.

(** The literal [n/d] (such as [0.7f] = 7/10), correctly rounded. *)
Definition of_ratio (n d : positive) : float :=
  let '(mz, ez, lz) := SFdiv_core_binary prec emax (Zpos n) 0 (Zpos d) 0 in
  binary_round_aux prec emax false mz ez lz.

Definition neg_ratio (n d : positive) : float := SFopp (of_ratio n d).

Definition add : float -> float -> float := SFadd prec emax.
Definition sub : float -> float -> float := SFsub prec emax.
Definition mul : float -> float -> float := SFmul prec emax.
Definition div : float -> float -> float := SFdiv prec emax.
Definition opp : float -> float := SFopp.
Definition fabsf : float -> float := SFabs.

Definition ltb : float -> float -> bool := SFltb.
Definition leb : float -> float -> bool := SFleb.
Definition gtb (x y : float) : bool := SFltb y x.
Definition geb (x y : float) : bool := SFleb y x.

Definition isnan (x : float) : bool :=
  match x with S754_nan => true | _ => false end.
Definition isinf (x : float) : bool :=
  match x with S754_infinity _ => true | _ => false end.

(** Conversion to an integer type truncates toward zero.  C leaves the
    conversion of NaN and of infinities undefined; they are sent to 0
    here and no statement below relies on that. *)
Definition trunc (x : float) : Z :=
  match x with
  | S754_finite s m e =>
      let a := match e with
               | Zneg p => Z.shiftr (Zpos m) (Zpos p)
               | _ => Z.shiftl (Zpos m) e
               end in
      if s then - a else a
  | _ => 0
  end.

(** The exact rational value of a finite float, for comparisons with
    real arithmetic. *)
Definition exact (x : float) : Q :=
  match x with
  | S754_finite s m e =>
      let q := match e with
               | Zneg p => Qmake (Zpos m) (2 ^ p)
               | _ => inject_Z (Zpos m * 2 ^ e)
               end in
      if s then Qopp q else q
  | _ => 0%Q
  end.

Definition zero : float := S754_zero false.

End F32.

Abbreviation f32 := F32.float.

Declare Scope f32_scope.
Delimit Scope f32_scope with f32.
Infix "+" := F32.add : f32_scope.
Infix "-" := F32.sub : f32_scope.
Infix "*" := F32.mul : f32_scope.
Infix "/" := F32.div : f32_scope.
Infix "<?" := F32.ltb : f32_scope.
Infix "<=?" := F32.leb : f32_scope.
Infix ">?" := F32.gtb : f32_scope.
Infix ">=?" := F32.geb : f32_scope.

(** ** Fixed-width integers *)

Definition u8 (z : Z) : Z := z mod 2 ^ 8.
Definition u16 (z : Z) : Z := z mod 2 ^ 16.
Definition u32 (z : Z) : Z := z mod 2 ^ 32.

(** Reinterpretation of the low 16 / 32 bits as a signed value. *)
Definition i16 (z : Z) : Z :=
  let w := z mod 2 ^ 16 in if w <? 2 ^ 15 then w else w - 2 ^ 16.
Definition i32 (z : Z) : Z :=
  let w := z mod 2 ^ 32 in if w <? 2 ^ 31 then w else w - 2 ^ 32.

(** ** Data of the sketch *)

(** [wifi_power_t] of the ESP32 Arduino core: the discrete levels the
    radio supports. *)
Inductive wifi_power_t :=
| WIFI_POWER_19_5dBm | WIFI_POWER_19dBm | WIFI_POWER_18_5dBm
| WIFI_POWER_17dBm | WIFI_POWER_15dBm | WIFI_POWER_13dBm
| WIFI_POWER_11dBm | WIFI_POWER_8_5dBm | WIFI_POWER_7dBm
| WIFI_POWER_5dBm | WIFI_POWER_2dBm | WIFI_POWER_MINUS_1dBm.

Global Instance wifi_power_eq_dec : EqDecision wifi_power_t.
Proof. solve_decision. Defined.

(** A value stored under a key of the [Preferences] namespace. *)
Inductive PrefVal :=
| PUInt (v : Z) | PUShort (v : Z) | PUChar (v : Z)
| PFloat (v : f32) | PBool (v : bool) | PString (v : string).

(** [struct Biquad]: coefficients and delay line of the high-pass. *)
Record Biquad := MkBiquad {
  b0 : f32; b1 : f32; b2 : f32; a1 : f32; a2 : f32;
  x1 : f32; x2 : f32; y1 : f32; y2 : f32
}.

(** The client socket as the sketch sees it: whether it is connected,
    the bytes received and not yet read, the bytes it has sent. *)
Record WiFiClient := MkClient {
  connected : bool;
  rxPending : list Z;
  txSent : list Z
}.

(** The RTSP session, its parse buffer and its counters. *)
Record Session := MkSession {
  rtspSessionId : string;
  isStreaming : bool;
  rtpSequence : Z;
  rtpTimestamp : Z;
  rtpSSRC : Z;
  lastRTSPActivity : Z;
  rtspParseBuffer : list Z;
  rtspParseBufferPos : Z;
  audioPacketsSent : Z;
  lastStatsReset : Z;
  rtspServerEnabled : bool;
  lastRtspClientConnectMs : Z;
  lastRtspPlayMs : Z;
  rtspConnectCount : Z;
  rtspPlayCount : Z
}.

(** Audio parameters, metering and the high-pass filter. *)
Record Audio := MkAudio {
  currentSampleRate : Z;
  currentGainFactor : f32;
  currentBufferSize : Z;
  i2sShiftBits : Z;
  i2s_16bit_buffer : list Z;
  lastPeakAbs16 : Z;
  audioClipCount : Z;
  audioClippedLastBlock : bool;
  peakHoldAbs16 : Z;
  peakHoldUntilMs : Z;
  highpassEnabled : bool;
  highpassCutoffHz : Z;
  hpf : Biquad;
  hpfConfigSampleRate : Z;
  hpfConfigCutoff : Z
}.

(** Diagnostics, auto-recovery, scheduled reset and thresholds. *)
Record Diag := MkDiag {
  maxPacketRate : Z;
  minPacketRate : Z;
  autoRecoveryEnabled : bool;
  autoThresholdEnabled : bool;
  scheduledFactoryReset : bool;
  scheduledRebootAt : Z;
  bootTime : Z;
  lastI2SReset : Z;
  scheduledResetEnabled : bool;
  resetIntervalHours : Z;
  minAcceptableRate : Z;
  performanceCheckInterval : Z
}.

(** Temperature monitoring and the thermal latch. *)
Record Thermal := MkThermal {
  maxTemperature : f32;
  lastTemperatureC : f32;
  lastTemperatureValid : bool;
  overheatProtectionEnabled : bool;
  overheatShutdownC : f32;
  overheatLockoutActive : bool;
  overheatTripTemp : f32;
  overheatTriggeredAt : Z;
  overheatLastReason : string;
  overheatLastTimestamp : string;
  overheatSensorFault : bool;
  overheatLatched : bool
}.

(** Wi-Fi transmit power and CPU clock. *)
Record Power := MkPower {
  wifiTxPowerDbm : f32;
  currentWifiPowerLevel : wifi_power_t;
  cpuFrequencyMhz : Z
}.

(** What lies outside the sketch: flash, listening socket, client socket, radio, clock, driver. *)
Record Hw := MkHw {
  audioPrefs : gmap string PrefVal;
  rtspServer : bool;
  rtspClient : WiFiClient;
  radioTxPower : list wifi_power_t;
  cpuMhz : Z;
  i2sInstalls : list (Z * Z);
  espRestarts : nat
}.

Record State := MkState {
  session : Session;
  audio : Audio;
  diag : Diag;
  thermal : Thermal;
  power : Power;
  hw : Hw
}.

Definition upd_session (f : Session -> Session) (st : State) : State :=
  {| session := f (session st); audio := audio st; diag := diag st; thermal := thermal st; power := power st; hw := hw st |}.
Definition upd_audio (f : Audio -> Audio) (st : State) : State :=
  {| session := session st; audio := f (audio st); diag := diag st; thermal := thermal st; power := power st; hw := hw st |}.
Definition upd_diag (f : Diag -> Diag) (st : State) : State :=
  {| session := session st; audio := audio st; diag := f (diag st); thermal := thermal st; power := power st; hw := hw st |}.
Definition upd_thermal (f : Thermal -> Thermal) (st : State) : State :=
  {| session := session st; audio := audio st; diag := diag st; thermal := f (thermal st); power := power st; hw := hw st |}.
Definition upd_power (f : Power -> Power) (st : State) : State :=
  {| session := session st; audio := audio st; diag := diag st; thermal := thermal st; power := f (power st); hw := hw st |}.
Definition upd_hw (f : Hw -> Hw) (st : State) : State :=
  {| session := session st; audio := audio st; diag := diag st; thermal := thermal st; power := power st; hw := f (hw st) |}.

Definition set_rtspSessionId (v : string) : State -> State :=
  upd_session (fun r => {| rtspSessionId := v; isStreaming := isStreaming r; rtpSequence := rtpSequence r; rtpTimestamp := rtpTimestamp r; rtpSSRC := rtpSSRC r; lastRTSPActivity := lastRTSPActivity r; rtspParseBuffer := rtspParseBuffer r; rtspParseBufferPos := rtspParseBufferPos r; audioPacketsSent := audioPacketsSent r; lastStatsReset := lastStatsReset r; rtspServerEnabled := rtspServerEnabled r; lastRtspClientConnectMs := lastRtspClientConnectMs r; lastRtspPlayMs := lastRtspPlayMs r; rtspConnectCount := rtspConnectCount r; rtspPlayCount := rtspPlayCount r |}).
Definition set_isStreaming (v : bool) : State -> State :=
  upd_session (fun r => {| rtspSessionId := rtspSessionId r; isStreaming := v; rtpSequence := rtpSequence r; rtpTimestamp := rtpTimestamp r; rtpSSRC := rtpSSRC r; lastRTSPActivity := lastRTSPActivity r; rtspParseBuffer := rtspParseBuffer r; rtspParseBufferPos := rtspParseBufferPos r; audioPacketsSent := audioPacketsSent r; lastStatsReset := lastStatsReset r; rtspServerEnabled := rtspServerEnabled r; lastRtspClientConnectMs := lastRtspClientConnectMs r; lastRtspPlayMs := lastRtspPlayMs r; rtspConnectCount := rtspConnectCount r; rtspPlayCount := rtspPlayCount r |}).
Definition set_rtpSequence (v : Z) : State -> State :=
  upd_session (fun r => {| rtspSessionId := rtspSessionId r; isStreaming := isStreaming r; rtpSequence := v; rtpTimestamp := rtpTimestamp r; rtpSSRC := rtpSSRC r; lastRTSPActivity := lastRTSPActivity r; rtspParseBuffer := rtspParseBuffer r; rtspParseBufferPos := rtspParseBufferPos r; audioPacketsSent := audioPacketsSent r; lastStatsReset := lastStatsReset r; rtspServerEnabled := rtspServerEnabled r; lastRtspClientConnectMs := lastRtspClientConnectMs r; lastRtspPlayMs := lastRtspPlayMs r; rtspConnectCount := rtspConnectCount r; rtspPlayCount := rtspPlayCount r |}).
Definition set_rtpTimestamp (v : Z) : State -> State :=
  upd_session (fun r => {| rtspSessionId := rtspSessionId r; isStreaming := isStreaming r; rtpSequence := rtpSequence r; rtpTimestamp := v; rtpSSRC := rtpSSRC r; lastRTSPActivity := lastRTSPActivity r; rtspParseBuffer := rtspParseBuffer r; rtspParseBufferPos := rtspParseBufferPos r; audioPacketsSent := audioPacketsSent r; lastStatsReset := lastStatsReset r; rtspServerEnabled := rtspServerEnabled r; lastRtspClientConnectMs := lastRtspClientConnectMs r; lastRtspPlayMs := lastRtspPlayMs r; rtspConnectCount := rtspConnectCount r; rtspPlayCount := rtspPlayCount r |}).
Definition set_rtpSSRC (v : Z) : State -> State :=
  upd_session (fun r => {| rtspSessionId := rtspSessionId r; isStreaming := isStreaming r; rtpSequence := rtpSequence r; rtpTimestamp := rtpTimestamp r; rtpSSRC := v; lastRTSPActivity := lastRTSPActivity r; rtspParseBuffer := rtspParseBuffer r; rtspParseBufferPos := rtspParseBufferPos r; audioPacketsSent := audioPacketsSent r; lastStatsReset := lastStatsReset r; rtspServerEnabled := rtspServerEnabled r; lastRtspClientConnectMs := lastRtspClientConnectMs r; lastRtspPlayMs := lastRtspPlayMs r; rtspConnectCount := rtspConnectCount r; rtspPlayCount := rtspPlayCount r |}).
Definition set_lastRTSPActivity (v : Z) : State -> State :=
  upd_session (fun r => {| rtspSessionId := rtspSessionId r; isStreaming := isStreaming r; rtpSequence := rtpSequence r; rtpTimestamp := rtpTimestamp r; rtpSSRC := rtpSSRC r; lastRTSPActivity := v; rtspParseBuffer := rtspParseBuffer r; rtspParseBufferPos := rtspParseBufferPos r; audioPacketsSent := audioPacketsSent r; lastStatsReset := lastStatsReset r; rtspServerEnabled := rtspServerEnabled r; lastRtspClientConnectMs := lastRtspClientConnectMs r; lastRtspPlayMs := lastRtspPlayMs r; rtspConnectCount := rtspConnectCount r; rtspPlayCount := rtspPlayCount r |}).
Definition set_rtspParseBuffer (v : list Z) : State -> State :=
  upd_session (fun r => {| rtspSessionId := rtspSessionId r; isStreaming := isStreaming r; rtpSequence := rtpSequence r; rtpTimestamp := rtpTimestamp r; rtpSSRC := rtpSSRC r; lastRTSPActivity := lastRTSPActivity r; rtspParseBuffer := v; rtspParseBufferPos := rtspParseBufferPos r; audioPacketsSent := audioPacketsSent r; lastStatsReset := lastStatsReset r; rtspServerEnabled := rtspServerEnabled r; lastRtspClientConnectMs := lastRtspClientConnectMs r; lastRtspPlayMs := lastRtspPlayMs r; rtspConnectCount := rtspConnectCount r; rtspPlayCount := rtspPlayCount r |}).
Definition set_rtspParseBufferPos (v : Z) : State -> State :=
  upd_session (fun r => {| rtspSessionId := rtspSessionId r; isStreaming := isStreaming r; rtpSequence := rtpSequence r; rtpTimestamp := rtpTimestamp r; rtpSSRC := rtpSSRC r; lastRTSPActivity := lastRTSPActivity r; rtspParseBuffer := rtspParseBuffer r; rtspParseBufferPos := v; audioPacketsSent := audioPacketsSent r; lastStatsReset := lastStatsReset r; rtspServerEnabled := rtspServerEnabled r; lastRtspClientConnectMs := lastRtspClientConnectMs r; lastRtspPlayMs := lastRtspPlayMs r; rtspConnectCount := rtspConnectCount r; rtspPlayCount := rtspPlayCount r |}).
Definition set_audioPacketsSent (v : Z) : State -> State :=
  upd_session (fun r => {| rtspSessionId := rtspSessionId r; isStreaming := isStreaming r; rtpSequence := rtpSequence r; rtpTimestamp := rtpTimestamp r; rtpSSRC := rtpSSRC r; lastRTSPActivity := lastRTSPActivity r; rtspParseBuffer := rtspParseBuffer r; rtspParseBufferPos := rtspParseBufferPos r; audioPacketsSent := v; lastStatsReset := lastStatsReset r; rtspServerEnabled := rtspServerEnabled r; lastRtspClientConnectMs := lastRtspClientConnectMs r; lastRtspPlayMs := lastRtspPlayMs r; rtspConnectCount := rtspConnectCount r; rtspPlayCount := rtspPlayCount r |}).
Definition set_lastStatsReset (v : Z) : State -> State :=
  upd_session (fun r => {| rtspSessionId := rtspSessionId r; isStreaming := isStreaming r; rtpSequence := rtpSequence r; rtpTimestamp := rtpTimestamp r; rtpSSRC := rtpSSRC r; lastRTSPActivity := lastRTSPActivity r; rtspParseBuffer := rtspParseBuffer r; rtspParseBufferPos := rtspParseBufferPos r; audioPacketsSent := audioPacketsSent r; lastStatsReset := v; rtspServerEnabled := rtspServerEnabled r; lastRtspClientConnectMs := lastRtspClientConnectMs r; lastRtspPlayMs := lastRtspPlayMs r; rtspConnectCount := rtspConnectCount r; rtspPlayCount := rtspPlayCount r |}).
Definition set_rtspServerEnabled (v : bool) : State -> State :=
  upd_session (fun r => {| rtspSessionId := rtspSessionId r; isStreaming := isStreaming r; rtpSequence := rtpSequence r; rtpTimestamp := rtpTimestamp r; rtpSSRC := rtpSSRC r; lastRTSPActivity := lastRTSPActivity r; rtspParseBuffer := rtspParseBuffer r; rtspParseBufferPos := rtspParseBufferPos r; audioPacketsSent := audioPacketsSent r; lastStatsReset := lastStatsReset r; rtspServerEnabled := v; lastRtspClientConnectMs := lastRtspClientConnectMs r; lastRtspPlayMs := lastRtspPlayMs r; rtspConnectCount := rtspConnectCount r; rtspPlayCount := rtspPlayCount r |}).
Definition set_lastRtspClientConnectMs (v : Z) : State -> State :=
  upd_session (fun r => {| rtspSessionId := rtspSessionId r; isStreaming := isStreaming r; rtpSequence := rtpSequence r; rtpTimestamp := rtpTimestamp r; rtpSSRC := rtpSSRC r; lastRTSPActivity := lastRTSPActivity r; rtspParseBuffer := rtspParseBuffer r; rtspParseBufferPos := rtspParseBufferPos r; audioPacketsSent := audioPacketsSent r; lastStatsReset := lastStatsReset r; rtspServerEnabled := rtspServerEnabled r; lastRtspClientConnectMs := v; lastRtspPlayMs := lastRtspPlayMs r; rtspConnectCount := rtspConnectCount r; rtspPlayCount := rtspPlayCount r |}).
Definition set_lastRtspPlayMs (v : Z) : State -> State :=
  upd_session (fun r => {| rtspSessionId := rtspSessionId r; isStreaming := isStreaming r; rtpSequence := rtpSequence r; rtpTimestamp := rtpTimestamp r; rtpSSRC := rtpSSRC r; lastRTSPActivity := lastRTSPActivity r; rtspParseBuffer := rtspParseBuffer r; rtspParseBufferPos := rtspParseBufferPos r; audioPacketsSent := audioPacketsSent r; lastStatsReset := lastStatsReset r; rtspServerEnabled := rtspServerEnabled r; lastRtspClientConnectMs := lastRtspClientConnectMs r; lastRtspPlayMs := v; rtspConnectCount := rtspConnectCount r; rtspPlayCount := rtspPlayCount r |}).
Definition set_rtspConnectCount (v : Z) : State -> State :=
  upd_session (fun r => {| rtspSessionId := rtspSessionId r; isStreaming := isStreaming r; rtpSequence := rtpSequence r; rtpTimestamp := rtpTimestamp r; rtpSSRC := rtpSSRC r; lastRTSPActivity := lastRTSPActivity r; rtspParseBuffer := rtspParseBuffer r; rtspParseBufferPos := rtspParseBufferPos r; audioPacketsSent := audioPacketsSent r; lastStatsReset := lastStatsReset r; rtspServerEnabled := rtspServerEnabled r; lastRtspClientConnectMs := lastRtspClientConnectMs r; lastRtspPlayMs := lastRtspPlayMs r; rtspConnectCount := v; rtspPlayCount := rtspPlayCount r |}).
Definition set_rtspPlayCount (v : Z) : State -> State :=
  upd_session (fun r => {| rtspSessionId := rtspSessionId r; isStreaming := isStreaming r; rtpSequence := rtpSequence r; rtpTimestamp := rtpTimestamp r; rtpSSRC := rtpSSRC r; lastRTSPActivity := lastRTSPActivity r; rtspParseBuffer := rtspParseBuffer r; rtspParseBufferPos := rtspParseBufferPos r; audioPacketsSent := audioPacketsSent r; lastStatsReset := lastStatsReset r; rtspServerEnabled := rtspServerEnabled r; lastRtspClientConnectMs := lastRtspClientConnectMs r; lastRtspPlayMs := lastRtspPlayMs r; rtspConnectCount := rtspConnectCount r; rtspPlayCount := v |}).
Definition set_currentSampleRate (v : Z) : State -> State :=
  upd_audio (fun r => {| currentSampleRate := v; currentGainFactor := currentGainFactor r; currentBufferSize := currentBufferSize r; i2sShiftBits := i2sShiftBits r; i2s_16bit_buffer := i2s_16bit_buffer r; lastPeakAbs16 := lastPeakAbs16 r; audioClipCount := audioClipCount r; audioClippedLastBlock := audioClippedLastBlock r; peakHoldAbs16 := peakHoldAbs16 r; peakHoldUntilMs := peakHoldUntilMs r; highpassEnabled := highpassEnabled r; highpassCutoffHz := highpassCutoffHz r; hpf := hpf r; hpfConfigSampleRate := hpfConfigSampleRate r; hpfConfigCutoff := hpfConfigCutoff r |}).
Definition set_currentGainFactor (v : f32) : State -> State :=
  upd_audio (fun r => {| currentSampleRate := currentSampleRate r; currentGainFactor := v; currentBufferSize := currentBufferSize r; i2sShiftBits := i2sShiftBits r; i2s_16bit_buffer := i2s_16bit_buffer r; lastPeakAbs16 := lastPeakAbs16 r; audioClipCount := audioClipCount r; audioClippedLastBlock := audioClippedLastBlock r; peakHoldAbs16 := peakHoldAbs16 r; peakHoldUntilMs := peakHoldUntilMs r; highpassEnabled := highpassEnabled r; highpassCutoffHz := highpassCutoffHz r; hpf := hpf r; hpfConfigSampleRate := hpfConfigSampleRate r; hpfConfigCutoff := hpfConfigCutoff r |}).
Definition set_currentBufferSize (v : Z) : State -> State :=
  upd_audio (fun r => {| currentSampleRate := currentSampleRate r; currentGainFactor := currentGainFactor r; currentBufferSize := v; i2sShiftBits := i2sShiftBits r; i2s_16bit_buffer := i2s_16bit_buffer r; lastPeakAbs16 := lastPeakAbs16 r; audioClipCount := audioClipCount r; audioClippedLastBlock := audioClippedLastBlock r; peakHoldAbs16 := peakHoldAbs16 r; peakHoldUntilMs := peakHoldUntilMs r; highpassEnabled := highpassEnabled r; highpassCutoffHz := highpassCutoffHz r; hpf := hpf r; hpfConfigSampleRate := hpfConfigSampleRate r; hpfConfigCutoff := hpfConfigCutoff r |}).
Definition set_i2sShiftBits (v : Z) : State -> State :=
  upd_audio (fun r => {| currentSampleRate := currentSampleRate r; currentGainFactor := currentGainFactor r; currentBufferSize := currentBufferSize r; i2sShiftBits := v; i2s_16bit_buffer := i2s_16bit_buffer r; lastPeakAbs16 := lastPeakAbs16 r; audioClipCount := audioClipCount r; audioClippedLastBlock := audioClippedLastBlock r; peakHoldAbs16 := peakHoldAbs16 r; peakHoldUntilMs := peakHoldUntilMs r; highpassEnabled := highpassEnabled r; highpassCutoffHz := highpassCutoffHz r; hpf := hpf r; hpfConfigSampleRate := hpfConfigSampleRate r; hpfConfigCutoff := hpfConfigCutoff r |}).
Definition set_i2s_16bit_buffer (v : list Z) : State -> State :=
  upd_audio (fun r => {| currentSampleRate := currentSampleRate r; currentGainFactor := currentGainFactor r; currentBufferSize := currentBufferSize r; i2sShiftBits := i2sShiftBits r; i2s_16bit_buffer := v; lastPeakAbs16 := lastPeakAbs16 r; audioClipCount := audioClipCount r; audioClippedLastBlock := audioClippedLastBlock r; peakHoldAbs16 := peakHoldAbs16 r; peakHoldUntilMs := peakHoldUntilMs r; highpassEnabled := highpassEnabled r; highpassCutoffHz := highpassCutoffHz r; hpf := hpf r; hpfConfigSampleRate := hpfConfigSampleRate r; hpfConfigCutoff := hpfConfigCutoff r |}).
Definition set_lastPeakAbs16 (v : Z) : State -> State :=
  upd_audio (fun r => {| currentSampleRate := currentSampleRate r; currentGainFactor := currentGainFactor r; currentBufferSize := currentBufferSize r; i2sShiftBits := i2sShiftBits r; i2s_16bit_buffer := i2s_16bit_buffer r; lastPeakAbs16 := v; audioClipCount := audioClipCount r; audioClippedLastBlock := audioClippedLastBlock r; peakHoldAbs16 := peakHoldAbs16 r; peakHoldUntilMs := peakHoldUntilMs r; highpassEnabled := highpassEnabled r; highpassCutoffHz := highpassCutoffHz r; hpf := hpf r; hpfConfigSampleRate := hpfConfigSampleRate r; hpfConfigCutoff := hpfConfigCutoff r |}).
Definition set_audioClipCount (v : Z) : State -> State :=
  upd_audio (fun r => {| currentSampleRate := currentSampleRate r; currentGainFactor := currentGainFactor r; currentBufferSize := currentBufferSize r; i2sShiftBits := i2sShiftBits r; i2s_16bit_buffer := i2s_16bit_buffer r; lastPeakAbs16 := lastPeakAbs16 r; audioClipCount := v; audioClippedLastBlock := audioClippedLastBlock r; peakHoldAbs16 := peakHoldAbs16 r; peakHoldUntilMs := peakHoldUntilMs r; highpassEnabled := highpassEnabled r; highpassCutoffHz := highpassCutoffHz r; hpf := hpf r; hpfConfigSampleRate := hpfConfigSampleRate r; hpfConfigCutoff := hpfConfigCutoff r |}).
Definition set_audioClippedLastBlock (v : bool) : State -> State :=
  upd_audio (fun r => {| currentSampleRate := currentSampleRate r; currentGainFactor := currentGainFactor r; currentBufferSize := currentBufferSize r; i2sShiftBits := i2sShiftBits r; i2s_16bit_buffer := i2s_16bit_buffer r; lastPeakAbs16 := lastPeakAbs16 r; audioClipCount := audioClipCount r; audioClippedLastBlock := v; peakHoldAbs16 := peakHoldAbs16 r; peakHoldUntilMs := peakHoldUntilMs r; highpassEnabled := highpassEnabled r; highpassCutoffHz := highpassCutoffHz r; hpf := hpf r; hpfConfigSampleRate := hpfConfigSampleRate r; hpfConfigCutoff := hpfConfigCutoff r |}).
Definition set_peakHoldAbs16 (v : Z) : State -> State :=
  upd_audio (fun r => {| currentSampleRate := currentSampleRate r; currentGainFactor := currentGainFactor r; currentBufferSize := currentBufferSize r; i2sShiftBits := i2sShiftBits r; i2s_16bit_buffer := i2s_16bit_buffer r; lastPeakAbs16 := lastPeakAbs16 r; audioClipCount := audioClipCount r; audioClippedLastBlock := audioClippedLastBlock r; peakHoldAbs16 := v; peakHoldUntilMs := peakHoldUntilMs r; highpassEnabled := highpassEnabled r; highpassCutoffHz := highpassCutoffHz r; hpf := hpf r; hpfConfigSampleRate := hpfConfigSampleRate r; hpfConfigCutoff := hpfConfigCutoff r |}).
Definition set_peakHoldUntilMs (v : Z) : State -> State :=
  upd_audio (fun r => {| currentSampleRate := currentSampleRate r; currentGainFactor := currentGainFactor r; currentBufferSize := currentBufferSize r; i2sShiftBits := i2sShiftBits r; i2s_16bit_buffer := i2s_16bit_buffer r; lastPeakAbs16 := lastPeakAbs16 r; audioClipCount := audioClipCount r; audioClippedLastBlock := audioClippedLastBlock r; peakHoldAbs16 := peakHoldAbs16 r; peakHoldUntilMs := v; highpassEnabled := highpassEnabled r; highpassCutoffHz := highpassCutoffHz r; hpf := hpf r; hpfConfigSampleRate := hpfConfigSampleRate r; hpfConfigCutoff := hpfConfigCutoff r |}).
Definition set_highpassEnabled (v : bool) : State -> State :=
  upd_audio (fun r => {| currentSampleRate := currentSampleRate r; currentGainFactor := currentGainFactor r; currentBufferSize := currentBufferSize r; i2sShiftBits := i2sShiftBits r; i2s_16bit_buffer := i2s_16bit_buffer r; lastPeakAbs16 := lastPeakAbs16 r; audioClipCount := audioClipCount r; audioClippedLastBlock := audioClippedLastBlock r; peakHoldAbs16 := peakHoldAbs16 r; peakHoldUntilMs := peakHoldUntilMs r; highpassEnabled := v; highpassCutoffHz := highpassCutoffHz r; hpf := hpf r; hpfConfigSampleRate := hpfConfigSampleRate r; hpfConfigCutoff := hpfConfigCutoff r |}).
Definition set_highpassCutoffHz (v : Z) : State -> State :=
  upd_audio (fun r => {| currentSampleRate := currentSampleRate r; currentGainFactor := currentGainFactor r; currentBufferSize := currentBufferSize r; i2sShiftBits := i2sShiftBits r; i2s_16bit_buffer := i2s_16bit_buffer r; lastPeakAbs16 := lastPeakAbs16 r; audioClipCount := audioClipCount r; audioClippedLastBlock := audioClippedLastBlock r; peakHoldAbs16 := peakHoldAbs16 r; peakHoldUntilMs := peakHoldUntilMs r; highpassEnabled := highpassEnabled r; highpassCutoffHz := v; hpf := hpf r; hpfConfigSampleRate := hpfConfigSampleRate r; hpfConfigCutoff := hpfConfigCutoff r |}).
Definition set_hpf (v : Biquad) : State -> State :=
  upd_audio (fun r => {| currentSampleRate := currentSampleRate r; currentGainFactor := currentGainFactor r; currentBufferSize := currentBufferSize r; i2sShiftBits := i2sShiftBits r; i2s_16bit_buffer := i2s_16bit_buffer r; lastPeakAbs16 := lastPeakAbs16 r; audioClipCount := audioClipCount r; audioClippedLastBlock := audioClippedLastBlock r; peakHoldAbs16 := peakHoldAbs16 r; peakHoldUntilMs := peakHoldUntilMs r; highpassEnabled := highpassEnabled r; highpassCutoffHz := highpassCutoffHz r; hpf := v; hpfConfigSampleRate := hpfConfigSampleRate r; hpfConfigCutoff := hpfConfigCutoff r |}).
Definition set_hpfConfigSampleRate (v : Z) : State -> State :=
  upd_audio (fun r => {| currentSampleRate := currentSampleRate r; currentGainFactor := currentGainFactor r; currentBufferSize := currentBufferSize r; i2sShiftBits := i2sShiftBits r; i2s_16bit_buffer := i2s_16bit_buffer r; lastPeakAbs16 := lastPeakAbs16 r; audioClipCount := audioClipCount r; audioClippedLastBlock := audioClippedLastBlock r; peakHoldAbs16 := peakHoldAbs16 r; peakHoldUntilMs := peakHoldUntilMs r; highpassEnabled := highpassEnabled r; highpassCutoffHz := highpassCutoffHz r; hpf := hpf r; hpfConfigSampleRate := v; hpfConfigCutoff := hpfConfigCutoff r |}).
Definition set_hpfConfigCutoff (v : Z) : State -> State :=
  upd_audio (fun r => {| currentSampleRate := currentSampleRate r; currentGainFactor := currentGainFactor r; currentBufferSize := currentBufferSize r; i2sShiftBits := i2sShiftBits r; i2s_16bit_buffer := i2s_16bit_buffer r; lastPeakAbs16 := lastPeakAbs16 r; audioClipCount := audioClipCount r; audioClippedLastBlock := audioClippedLastBlock r; peakHoldAbs16 := peakHoldAbs16 r; peakHoldUntilMs := peakHoldUntilMs r; highpassEnabled := highpassEnabled r; highpassCutoffHz := highpassCutoffHz r; hpf := hpf r; hpfConfigSampleRate := hpfConfigSampleRate r; hpfConfigCutoff := v |}).
Definition set_maxPacketRate (v : Z) : State -> State :=
  upd_diag (fun r => {| maxPacketRate := v; minPacketRate := minPacketRate r; autoRecoveryEnabled := autoRecoveryEnabled r; autoThresholdEnabled := autoThresholdEnabled r; scheduledFactoryReset := scheduledFactoryReset r; scheduledRebootAt := scheduledRebootAt r; bootTime := bootTime r; lastI2SReset := lastI2SReset r; scheduledResetEnabled := scheduledResetEnabled r; resetIntervalHours := resetIntervalHours r; minAcceptableRate := minAcceptableRate r; performanceCheckInterval := performanceCheckInterval r |}).
Definition set_minPacketRate (v : Z) : State -> State :=
  upd_diag (fun r => {| maxPacketRate := maxPacketRate r; minPacketRate := v; autoRecoveryEnabled := autoRecoveryEnabled r; autoThresholdEnabled := autoThresholdEnabled r; scheduledFactoryReset := scheduledFactoryReset r; scheduledRebootAt := scheduledRebootAt r; bootTime := bootTime r; lastI2SReset := lastI2SReset r; scheduledResetEnabled := scheduledResetEnabled r; resetIntervalHours := resetIntervalHours r; minAcceptableRate := minAcceptableRate r; performanceCheckInterval := performanceCheckInterval r |}).
Definition set_autoRecoveryEnabled (v : bool) : State -> State :=
  upd_diag (fun r => {| maxPacketRate := maxPacketRate r; minPacketRate := minPacketRate r; autoRecoveryEnabled := v; autoThresholdEnabled := autoThresholdEnabled r; scheduledFactoryReset := scheduledFactoryReset r; scheduledRebootAt := scheduledRebootAt r; bootTime := bootTime r; lastI2SReset := lastI2SReset r; scheduledResetEnabled := scheduledResetEnabled r; resetIntervalHours := resetIntervalHours r; minAcceptableRate := minAcceptableRate r; performanceCheckInterval := performanceCheckInterval r |}).
Definition set_autoThresholdEnabled (v : bool) : State -> State :=
  upd_diag (fun r => {| maxPacketRate := maxPacketRate r; minPacketRate := minPacketRate r; autoRecoveryEnabled := autoRecoveryEnabled r; autoThresholdEnabled := v; scheduledFactoryReset := scheduledFactoryReset r; scheduledRebootAt := scheduledRebootAt r; bootTime := bootTime r; lastI2SReset := lastI2SReset r; scheduledResetEnabled := scheduledResetEnabled r; resetIntervalHours := resetIntervalHours r; minAcceptableRate := minAcceptableRate r; performanceCheckInterval := performanceCheckInterval r |}).
Definition set_scheduledFactoryReset (v : bool) : State -> State :=
  upd_diag (fun r => {| maxPacketRate := maxPacketRate r; minPacketRate := minPacketRate r; autoRecoveryEnabled := autoRecoveryEnabled r; autoThresholdEnabled := autoThresholdEnabled r; scheduledFactoryReset := v; scheduledRebootAt := scheduledRebootAt r; bootTime := bootTime r; lastI2SReset := lastI2SReset r; scheduledResetEnabled := scheduledResetEnabled r; resetIntervalHours := resetIntervalHours r; minAcceptableRate := minAcceptableRate r; performanceCheckInterval := performanceCheckInterval r |}).
Definition set_scheduledRebootAt (v : Z) : State -> State :=
  upd_diag (fun r => {| maxPacketRate := maxPacketRate r; minPacketRate := minPacketRate r; autoRecoveryEnabled := autoRecoveryEnabled r; autoThresholdEnabled := autoThresholdEnabled r; scheduledFactoryReset := scheduledFactoryReset r; scheduledRebootAt := v; bootTime := bootTime r; lastI2SReset := lastI2SReset r; scheduledResetEnabled := scheduledResetEnabled r; resetIntervalHours := resetIntervalHours r; minAcceptableRate := minAcceptableRate r; performanceCheckInterval := performanceCheckInterval r |}).
Definition set_bootTime (v : Z) : State -> State :=
  upd_diag (fun r => {| maxPacketRate := maxPacketRate r; minPacketRate := minPacketRate r; autoRecoveryEnabled := autoRecoveryEnabled r; autoThresholdEnabled := autoThresholdEnabled r; scheduledFactoryReset := scheduledFactoryReset r; scheduledRebootAt := scheduledRebootAt r; bootTime := v; lastI2SReset := lastI2SReset r; scheduledResetEnabled := scheduledResetEnabled r; resetIntervalHours := resetIntervalHours r; minAcceptableRate := minAcceptableRate r; performanceCheckInterval := performanceCheckInterval r |}).
Definition set_lastI2SReset (v : Z) : State -> State :=
  upd_diag (fun r => {| maxPacketRate := maxPacketRate r; minPacketRate := minPacketRate r; autoRecoveryEnabled := autoRecoveryEnabled r; autoThresholdEnabled := autoThresholdEnabled r; scheduledFactoryReset := scheduledFactoryReset r; scheduledRebootAt := scheduledRebootAt r; bootTime := bootTime r; lastI2SReset := v; scheduledResetEnabled := scheduledResetEnabled r; resetIntervalHours := resetIntervalHours r; minAcceptableRate := minAcceptableRate r; performanceCheckInterval := performanceCheckInterval r |}).
Definition set_scheduledResetEnabled (v : bool) : State -> State :=
  upd_diag (fun r => {| maxPacketRate := maxPacketRate r; minPacketRate := minPacketRate r; autoRecoveryEnabled := autoRecoveryEnabled r; autoThresholdEnabled := autoThresholdEnabled r; scheduledFactoryReset := scheduledFactoryReset r; scheduledRebootAt := scheduledRebootAt r; bootTime := bootTime r; lastI2SReset := lastI2SReset r; scheduledResetEnabled := v; resetIntervalHours := resetIntervalHours r; minAcceptableRate := minAcceptableRate r; performanceCheckInterval := performanceCheckInterval r |}).
Definition set_resetIntervalHours (v : Z) : State -> State :=
  upd_diag (fun r => {| maxPacketRate := maxPacketRate r; minPacketRate := minPacketRate r; autoRecoveryEnabled := autoRecoveryEnabled r; autoThresholdEnabled := autoThresholdEnabled r; scheduledFactoryReset := scheduledFactoryReset r; scheduledRebootAt := scheduledRebootAt r; bootTime := bootTime r; lastI2SReset := lastI2SReset r; scheduledResetEnabled := scheduledResetEnabled r; resetIntervalHours := v; minAcceptableRate := minAcceptableRate r; performanceCheckInterval := performanceCheckInterval r |}).
Definition set_minAcceptableRate (v : Z) : State -> State :=
  upd_diag (fun r => {| maxPacketRate := maxPacketRate r; minPacketRate := minPacketRate r; autoRecoveryEnabled := autoRecoveryEnabled r; autoThresholdEnabled := autoThresholdEnabled r; scheduledFactoryReset := scheduledFactoryReset r; scheduledRebootAt := scheduledRebootAt r; bootTime := bootTime r; lastI2SReset := lastI2SReset r; scheduledResetEnabled := scheduledResetEnabled r; resetIntervalHours := resetIntervalHours r; minAcceptableRate := v; performanceCheckInterval := performanceCheckInterval r |}).
Definition set_performanceCheckInterval (v : Z) : State -> State :=
  upd_diag (fun r => {| maxPacketRate := maxPacketRate r; minPacketRate := minPacketRate r; autoRecoveryEnabled := autoRecoveryEnabled r; autoThresholdEnabled := autoThresholdEnabled r; scheduledFactoryReset := scheduledFactoryReset r; scheduledRebootAt := scheduledRebootAt r; bootTime := bootTime r; lastI2SReset := lastI2SReset r; scheduledResetEnabled := scheduledResetEnabled r; resetIntervalHours := resetIntervalHours r; minAcceptableRate := minAcceptableRate r; performanceCheckInterval := v |}).
Definition set_maxTemperature (v : f32) : State -> State :=
  upd_thermal (fun r => {| maxTemperature := v; lastTemperatureC := lastTemperatureC r; lastTemperatureValid := lastTemperatureValid r; overheatProtectionEnabled := overheatProtectionEnabled r; overheatShutdownC := overheatShutdownC r; overheatLockoutActive := overheatLockoutActive r; overheatTripTemp := overheatTripTemp r; overheatTriggeredAt := overheatTriggeredAt r; overheatLastReason := overheatLastReason r; overheatLastTimestamp := overheatLastTimestamp r; overheatSensorFault := overheatSensorFault r; overheatLatched := overheatLatched r |}).
Definition set_lastTemperatureC (v : f32) : State -> State :=
  upd_thermal (fun r => {| maxTemperature := maxTemperature r; lastTemperatureC := v; lastTemperatureValid := lastTemperatureValid r; overheatProtectionEnabled := overheatProtectionEnabled r; overheatShutdownC := overheatShutdownC r; overheatLockoutActive := overheatLockoutActive r; overheatTripTemp := overheatTripTemp r; overheatTriggeredAt := overheatTriggeredAt r; overheatLastReason := overheatLastReason r; overheatLastTimestamp := overheatLastTimestamp r; overheatSensorFault := overheatSensorFault r; overheatLatched := overheatLatched r |}).
Definition set_lastTemperatureValid (v : bool) : State -> State :=
  upd_thermal (fun r => {| maxTemperature := maxTemperature r; lastTemperatureC := lastTemperatureC r; lastTemperatureValid := v; overheatProtectionEnabled := overheatProtectionEnabled r; overheatShutdownC := overheatShutdownC r; overheatLockoutActive := overheatLockoutActive r; overheatTripTemp := overheatTripTemp r; overheatTriggeredAt := overheatTriggeredAt r; overheatLastReason := overheatLastReason r; overheatLastTimestamp := overheatLastTimestamp r; overheatSensorFault := overheatSensorFault r; overheatLatched := overheatLatched r |}).
Definition set_overheatProtectionEnabled (v : bool) : State -> State :=
  upd_thermal (fun r => {| maxTemperature := maxTemperature r; lastTemperatureC := lastTemperatureC r; lastTemperatureValid := lastTemperatureValid r; overheatProtectionEnabled := v; overheatShutdownC := overheatShutdownC r; overheatLockoutActive := overheatLockoutActive r; overheatTripTemp := overheatTripTemp r; overheatTriggeredAt := overheatTriggeredAt r; overheatLastReason := overheatLastReason r; overheatLastTimestamp := overheatLastTimestamp r; overheatSensorFault := overheatSensorFault r; overheatLatched := overheatLatched r |}).
Definition set_overheatShutdownC (v : f32) : State -> State :=
  upd_thermal (fun r => {| maxTemperature := maxTemperature r; lastTemperatureC := lastTemperatureC r; lastTemperatureValid := lastTemperatureValid r; overheatProtectionEnabled := overheatProtectionEnabled r; overheatShutdownC := v; overheatLockoutActive := overheatLockoutActive r; overheatTripTemp := overheatTripTemp r; overheatTriggeredAt := overheatTriggeredAt r; overheatLastReason := overheatLastReason r; overheatLastTimestamp := overheatLastTimestamp r; overheatSensorFault := overheatSensorFault r; overheatLatched := overheatLatched r |}).
Definition set_overheatLockoutActive (v : bool) : State -> State :=
  upd_thermal (fun r => {| maxTemperature := maxTemperature r; lastTemperatureC := lastTemperatureC r; lastTemperatureValid := lastTemperatureValid r; overheatProtectionEnabled := overheatProtectionEnabled r; overheatShutdownC := overheatShutdownC r; overheatLockoutActive := v; overheatTripTemp := overheatTripTemp r; overheatTriggeredAt := overheatTriggeredAt r; overheatLastReason := overheatLastReason r; overheatLastTimestamp := overheatLastTimestamp r; overheatSensorFault := overheatSensorFault r; overheatLatched := overheatLatched r |}).
Definition set_overheatTripTemp (v : f32) : State -> State :=
  upd_thermal (fun r => {| maxTemperature := maxTemperature r; lastTemperatureC := lastTemperatureC r; lastTemperatureValid := lastTemperatureValid r; overheatProtectionEnabled := overheatProtectionEnabled r; overheatShutdownC := overheatShutdownC r; overheatLockoutActive := overheatLockoutActive r; overheatTripTemp := v; overheatTriggeredAt := overheatTriggeredAt r; overheatLastReason := overheatLastReason r; overheatLastTimestamp := overheatLastTimestamp r; overheatSensorFault := overheatSensorFault r; overheatLatched := overheatLatched r |}).
Definition set_overheatTriggeredAt (v : Z) : State -> State :=
  upd_thermal (fun r => {| maxTemperature := maxTemperature r; lastTemperatureC := lastTemperatureC r; lastTemperatureValid := lastTemperatureValid r; overheatProtectionEnabled := overheatProtectionEnabled r; overheatShutdownC := overheatShutdownC r; overheatLockoutActive := overheatLockoutActive r; overheatTripTemp := overheatTripTemp r; overheatTriggeredAt := v; overheatLastReason := overheatLastReason r; overheatLastTimestamp := overheatLastTimestamp r; overheatSensorFault := overheatSensorFault r; overheatLatched := overheatLatched r |}).
Definition set_overheatLastReason (v : string) : State -> State :=
  upd_thermal (fun r => {| maxTemperature := maxTemperature r; lastTemperatureC := lastTemperatureC r; lastTemperatureValid := lastTemperatureValid r; overheatProtectionEnabled := overheatProtectionEnabled r; overheatShutdownC := overheatShutdownC r; overheatLockoutActive := overheatLockoutActive r; overheatTripTemp := overheatTripTemp r; overheatTriggeredAt := overheatTriggeredAt r; overheatLastReason := v; overheatLastTimestamp := overheatLastTimestamp r; overheatSensorFault := overheatSensorFault r; overheatLatched := overheatLatched r |}).
Definition set_overheatLastTimestamp (v : string) : State -> State :=
  upd_thermal (fun r => {| maxTemperature := maxTemperature r; lastTemperatureC := lastTemperatureC r; lastTemperatureValid := lastTemperatureValid r; overheatProtectionEnabled := overheatProtectionEnabled r; overheatShutdownC := overheatShutdownC r; overheatLockoutActive := overheatLockoutActive r; overheatTripTemp := overheatTripTemp r; overheatTriggeredAt := overheatTriggeredAt r; overheatLastReason := overheatLastReason r; overheatLastTimestamp := v; overheatSensorFault := overheatSensorFault r; overheatLatched := overheatLatched r |}).
Definition set_overheatSensorFault (v : bool) : State -> State :=
  upd_thermal (fun r => {| maxTemperature := maxTemperature r; lastTemperatureC := lastTemperatureC r; lastTemperatureValid := lastTemperatureValid r; overheatProtectionEnabled := overheatProtectionEnabled r; overheatShutdownC := overheatShutdownC r; overheatLockoutActive := overheatLockoutActive r; overheatTripTemp := overheatTripTemp r; overheatTriggeredAt := overheatTriggeredAt r; overheatLastReason := overheatLastReason r; overheatLastTimestamp := overheatLastTimestamp r; overheatSensorFault := v; overheatLatched := overheatLatched r |}).
Definition set_overheatLatched (v : bool) : State -> State :=
  upd_thermal (fun r => {| maxTemperature := maxTemperature r; lastTemperatureC := lastTemperatureC r; lastTemperatureValid := lastTemperatureValid r; overheatProtectionEnabled := overheatProtectionEnabled r; overheatShutdownC := overheatShutdownC r; overheatLockoutActive := overheatLockoutActive r; overheatTripTemp := overheatTripTemp r; overheatTriggeredAt := overheatTriggeredAt r; overheatLastReason := overheatLastReason r; overheatLastTimestamp := overheatLastTimestamp r; overheatSensorFault := overheatSensorFault r; overheatLatched := v |}).
Definition set_wifiTxPowerDbm (v : f32) : State -> State :=
  upd_power (fun r => {| wifiTxPowerDbm := v; currentWifiPowerLevel := currentWifiPowerLevel r; cpuFrequencyMhz := cpuFrequencyMhz r |}).
Definition set_currentWifiPowerLevel (v : wifi_power_t) : State -> State :=
  upd_power (fun r => {| wifiTxPowerDbm := wifiTxPowerDbm r; currentWifiPowerLevel := v; cpuFrequencyMhz := cpuFrequencyMhz r |}).
Definition set_cpuFrequencyMhz (v : Z) : State -> State :=
  upd_power (fun r => {| wifiTxPowerDbm := wifiTxPowerDbm r; currentWifiPowerLevel := currentWifiPowerLevel r; cpuFrequencyMhz := v |}).
Definition set_audioPrefs (v : gmap string PrefVal) : State -> State :=
  upd_hw (fun r => {| audioPrefs := v; rtspServer := rtspServer r; rtspClient := rtspClient r; radioTxPower := radioTxPower r; cpuMhz := cpuMhz r; i2sInstalls := i2sInstalls r; espRestarts := espRestarts r |}).
Definition set_rtspServer (v : bool) : State -> State :=
  upd_hw (fun r => {| audioPrefs := audioPrefs r; rtspServer := v; rtspClient := rtspClient r; radioTxPower := radioTxPower r; cpuMhz := cpuMhz r; i2sInstalls := i2sInstalls r; espRestarts := espRestarts r |}).
Definition set_rtspClient (v : WiFiClient) : State -> State :=
  upd_hw (fun r => {| audioPrefs := audioPrefs r; rtspServer := rtspServer r; rtspClient := v; radioTxPower := radioTxPower r; cpuMhz := cpuMhz r; i2sInstalls := i2sInstalls r; espRestarts := espRestarts r |}).
Definition set_radioTxPower (v : list wifi_power_t) : State -> State :=
  upd_hw (fun r => {| audioPrefs := audioPrefs r; rtspServer := rtspServer r; rtspClient := rtspClient r; radioTxPower := v; cpuMhz := cpuMhz r; i2sInstalls := i2sInstalls r; espRestarts := espRestarts r |}).
Definition set_cpuMhz (v : Z) : State -> State :=
  upd_hw (fun r => {| audioPrefs := audioPrefs r; rtspServer := rtspServer r; rtspClient := rtspClient r; radioTxPower := radioTxPower r; cpuMhz := v; i2sInstalls := i2sInstalls r; espRestarts := espRestarts r |}).
Definition set_i2sInstalls (v : list (Z * Z)) : State -> State :=
  upd_hw (fun r => {| audioPrefs := audioPrefs r; rtspServer := rtspServer r; rtspClient := rtspClient r; radioTxPower := radioTxPower r; cpuMhz := cpuMhz r; i2sInstalls := v; espRestarts := espRestarts r |}).
Definition set_espRestarts (v : nat) : State -> State :=
  upd_hw (fun r => {| audioPrefs := audioPrefs r; rtspServer := rtspServer r; rtspClient := rtspClient r; radioTxPower := radioTxPower r; cpuMhz := cpuMhz r; i2sInstalls := i2sInstalls r; espRestarts := v |}).

Coercion session : State >-> Session.
Coercion audio : State >-> Audio.
Coercion diag : State >-> Diag.
Coercion thermal : State >-> Thermal.
Coercion power : State >-> Power.
Coercion hw : State >-> Hw.

(** ** The platform

    Functions of the C library and of the Arduino core that the sketch
    calls and that are not part of its sources. *)
Class Platform := {
  (** [atol], behind [String::toInt] *)
  atol : string -> Z;
  (** [atof] narrowed to [float], behind [String::toFloat] *)
  atof : string -> f32;
  (** [String(float, decimals)] *)
  String_float : f32 -> Z -> string;
  cosf : f32 -> f32;
  sinf : f32 -> f32
}.

(** [String(n)] for an unsigned integer. *)
Definition String_uint (n : Z) : string := pretty (Z.to_N n).

(** ** Defaults of the sketch *)

Definition DEFAULT_SAMPLE_RATE : Z := 48000.
Definition DEFAULT_GAIN_FACTOR : f32 := F32.of_ratio 12 10.
Definition DEFAULT_BUFFER_SIZE : Z := 1024.
Definition DEFAULT_WIFI_TX_DBM : f32 := F32.of_ratio 195 10.
Definition DEFAULT_HPF_ENABLED : bool := true.
Definition DEFAULT_HPF_CUTOFF_HZ : Z := 500.
Definition DEFAULT_OVERHEAT_PROTECTION : bool := true.
Definition DEFAULT_OVERHEAT_LIMIT_C : Z := 80.
Definition OVERHEAT_MIN_LIMIT_C : Z := 30.
Definition OVERHEAT_MAX_LIMIT_C : Z := 95.
Definition OVERHEAT_LIMIT_STEP_C : Z := 5.
Definition I2S_DMA_BUF_COUNT : Z := 8.

(** [sizeof(rtspParseBuffer)] *)
Definition RTSP_PARSE_BUFFER_SIZE : Z := 1024.

(** ** Wi-Fi transmit power *)

Definition wifiPowerLevelToDbm (lvl : wifi_power_t) : f32 :=
  match lvl with
  | WIFI_POWER_19_5dBm => F32.of_ratio 195 10
  | WIFI_POWER_19dBm => F32.of_Z 19
  | WIFI_POWER_18_5dBm => F32.of_ratio 185 10
  | WIFI_POWER_17dBm => F32.of_Z 17
  | WIFI_POWER_15dBm => F32.of_Z 15
  | WIFI_POWER_13dBm => F32.of_Z 13
  | WIFI_POWER_11dBm => F32.of_Z 11
  | WIFI_POWER_8_5dBm => F32.of_ratio 85 10
  | WIFI_POWER_7dBm => F32.of_Z 7
  | WIFI_POWER_5dBm => F32.of_Z 5
  | WIFI_POWER_2dBm => F32.of_Z 2
  | WIFI_POWER_MINUS_1dBm => F32.of_Z (-1)
  end.

Definition pickWifiPowerLevel (dbm : f32) : wifi_power_t :=
  if (dbm <=? F32.of_Z (-1))%f32 then WIFI_POWER_MINUS_1dBm
  else if (dbm <=? F32.of_Z 2)%f32 then WIFI_POWER_2dBm
  else if (dbm <=? F32.of_Z 5)%f32 then WIFI_POWER_5dBm
  else if (dbm <=? F32.of_Z 7)%f32 then WIFI_POWER_7dBm
  else if (dbm <=? F32.of_ratio 85 10)%f32 then WIFI_POWER_8_5dBm
  else if (dbm <=? F32.of_Z 11)%f32 then WIFI_POWER_11dBm
  else if (dbm <=? F32.of_Z 13)%f32 then WIFI_POWER_13dBm
  else if (dbm <=? F32.of_Z 15)%f32 then WIFI_POWER_15dBm
  else if (dbm <=? F32.of_Z 17)%f32 then WIFI_POWER_17dBm
  else if (dbm <=? F32.of_ratio 185 10)%f32 then WIFI_POWER_18_5dBm
  else if (dbm <=? F32.of_Z 19)%f32 then WIFI_POWER_19dBm
  else WIFI_POWER_19_5dBm.

(** [applyWifiTxPower]: [WiFi.setTxPower] is called, and recorded at the
    head of [radioTxPower], only when the level changes. *)
Definition applyWifiTxPower (st : State) : State :=
  let desired := pickWifiPowerLevel (wifiTxPowerDbm st) in
  if bool_decide (desired <> currentWifiPowerLevel st) then
    let st := set_radioTxPower (desired :: radioTxPower st) st in
    set_currentWifiPowerLevel desired st
  else st.

(** [snapWifiTxDbm] of the web module: the table and the scan for the
    entry with the least [fabsf(dbm - step)]; a later entry replaces the
    best one only when strictly closer. *)
Definition wifiTxSteps : list f32 :=
  [F32.of_Z (-1); F32.of_Z 2; F32.of_Z 5; F32.of_Z 7; F32.of_ratio 85 10;
   F32.of_Z 11; F32.of_Z 13; F32.of_Z 15; F32.of_Z 17; F32.of_ratio 185 10;
   F32.of_Z 19; F32.of_ratio 195 10].

Fixpoint snapLoop (dbm : f32) (steps : list f32) (best bestd : f32) : f32 :=
  match steps with
  | [] => best
  | s :: rest =>
      let d := F32.fabsf (dbm - s)%f32 in
      if (d <? bestd)%f32 then snapLoop dbm rest s d
      else snapLoop dbm rest best bestd
  end.

Definition snapWifiTxDbm (dbm : f32) : f32 :=
  match wifiTxSteps with
  | [] => dbm
  | s0 :: rest => snapLoop dbm rest s0 (F32.fabsf (dbm - s0)%f32)
  end.

(** ** Preferences (flash key/value store) *)

Definition getUInt (k : string) (d : Z) (m : gmap string PrefVal) : Z :=
  match m !! k with Some (PUInt v) => v | _ => d end.
Definition getUShort (k : string) (d : Z) (m : gmap string PrefVal) : Z :=
  match m !! k with Some (PUShort v) => v | _ => d end.
Definition getUChar (k : string) (d : Z) (m : gmap string PrefVal) : Z :=
  match m !! k with Some (PUChar v) => v | _ => d end.
Definition getFloat (k : string) (d : f32) (m : gmap string PrefVal) : f32 :=
  match m !! k with Some (PFloat v) => v | _ => d end.
Definition getBool (k : string) (d : bool) (m : gmap string PrefVal) : bool :=
  match m !! k with Some (PBool v) => v | _ => d end.
Definition getString (k : string) (d : string) (m : gmap string PrefVal) : string :=
  match m !! k with Some (PString v) => v | _ => d end.

Definition putPref (k : string) (v : PrefVal) (st : State) : State :=
  set_audioPrefs (<[k := v]> (audioPrefs st)) st.

Section Firmware.

Context {P : Platform}.

(** ** High-pass filter *)

Definition Biquad_reset (q : Biquad) : Biquad :=
  {| b0 := b0 q; b1 := b1 q; b2 := b2 q; a1 := a1 q; a2 := a2 q;
     x1 := F32.zero; x2 := F32.zero; y1 := F32.zero; y2 := F32.zero |}.

Definition Biquad_process (q : Biquad) (x : f32) : Biquad * f32 :=
  let y := (b0 q * x + b1 q * x1 q + b2 q * x2 q - a1 q * y1 q - a2 q * y2 q)%f32 in
  ({| b0 := b0 q; b1 := b1 q; b2 := b2 q; a1 := a1 q; a2 := a2 q;
      x1 := x; x2 := x1 q; y1 := y; y2 := y1 q |}, y).

Definition pi_f : f32 := F32.of_ratio 314159265358979323846 100000000000000000000.

Definition updateHighpassCoeffs (st : State) : State :=
  if negb (highpassEnabled st) then
    let st := set_hpf (Biquad_reset (hpf st)) st in
    let st := set_hpfConfigSampleRate (currentSampleRate st) st in
    set_hpfConfigCutoff (highpassCutoffHz st) st
  else
    let fs := F32.of_Z (currentSampleRate st) in
    let fc := F32.of_Z (highpassCutoffHz st) in
    let fc := if (fc <? F32.of_Z 10)%f32 then F32.of_Z 10 else fc in
    let fc := if (fc >? fs * F32.of_ratio 45 100)%f32
              then (fs * F32.of_ratio 45 100)%f32 else fc in
    let w0 := (F32.of_Z 2 * pi_f * (fc / fs))%f32 in
    let cosw0 := cosf w0 in
    let sinw0 := sinf w0 in
    let Q := F32.of_ratio 70710678 100000000 in
    let alpha := (sinw0 / (F32.of_Z 2 * Q))%f32 in
    let c_b0 := ((F32.of_Z 1 + cosw0) * F32.of_ratio 1 2)%f32 in
    let c_b1 := F32.opp (F32.of_Z 1 + cosw0)%f32 in
    let c_b2 := ((F32.of_Z 1 + cosw0) * F32.of_ratio 1 2)%f32 in
    let c_a0 := (F32.of_Z 1 + alpha)%f32 in
    let c_a1 := (F32.of_Z (-2) * cosw0)%f32 in
    let c_a2 := (F32.of_Z 1 - alpha)%f32 in
    let q := {| b0 := (c_b0 / c_a0)%f32; b1 := (c_b1 / c_a0)%f32;
                b2 := (c_b2 / c_a0)%f32; a1 := (c_a1 / c_a0)%f32;
                a2 := (c_a2 / c_a0)%f32;
                x1 := x1 (hpf st); x2 := x2 (hpf st);
                y1 := y1 (hpf st); y2 := y2 (hpf st) |} in
    let st := set_hpf (Biquad_reset q) st in
    let st := set_hpfConfigSampleRate (currentSampleRate st) st in
    set_hpfConfigCutoff (u16 (F32.trunc fc)) st.

(** The test [streamAudio] makes before each block. *)
Definition hpfStale (st : State) : bool :=
  highpassEnabled st &&
  (negb (hpfConfigSampleRate st =? currentSampleRate st)
   || negb (hpfConfigCutoff st =? highpassCutoffHz st)).

(** ** Uptime text *)

Definition formatUptime (seconds : Z) : string :=
  let days := seconds / 86400 in
  let seconds := seconds mod 86400 in
  let hours := seconds / 3600 in
  let seconds := seconds mod 3600 in
  let minutes := seconds / 60 in
  let seconds := seconds mod 60 in
  let result := EmptyString in
  let result := if 0 <? days then result +:+ String_uint days +:+ "d " else result in
  let result := if (0 <? hours) || (0 <? days)
                then result +:+ String_uint hours +:+ "h " else result in
  let result := if (0 <? minutes) || (0 <? hours) || (0 <? days)
                then result +:+ String_uint minutes +:+ "m " else result in
  result +:+ String_uint seconds +:+ "s".

(** ** Thermal protection *)

Definition isTemperatureValid (temp : f32) : bool :=
  if F32.isnan temp || F32.isinf temp then false
  else if (temp <? F32.of_Z (-20))%f32 || (temp >? F32.of_Z 130)%f32 then false
  else true.

Definition persistOverheatNote (st : State) : State :=
  let st := putPref "ohReason" (PString (overheatLastReason st)) st in
  let st := putPref "ohStamp" (PString (overheatLastTimestamp st)) st in
  let st := putPref "ohTripC" (PFloat (overheatTripTemp st)) st in
  putPref "ohLatched" (PBool (overheatLatched st)) st.

Definition recordOverheatTrip (now : Z) (temp : f32) (st : State) : State :=
  let uptimeSeconds := u32 (now - bootTime st) / 1000 in
  let st := set_overheatTripTemp temp st in
  let st := set_overheatTriggeredAt now st in
  let st := set_overheatLastTimestamp (formatUptime uptimeSeconds) st in
  let st := set_overheatLastReason
              ("Thermal shutdown: " +:+ String_float temp 1 +:+ " C reached (limit "
               +:+ String_float (overheatShutdownC st) 1
               +:+ " C). Stream disabled; acknowledge in UI.") st in
  let st := set_overheatLatched true st in
  persistOverheatNote st.

(** The conversion of a [WiFiClient] to [bool], as in [if (rtspClient && ...)]:
    the ESP32 core defines it as [connected()]. *)
Definition client_bool (c : WiFiClient) : bool := connected c.

(** [rtspClient.stop()] *)
Definition client_stop (c : WiFiClient) : WiFiClient :=
  {| connected := false; rxPending := []; txSent := txSent c |}.

(** [checkTemperature]; [temp] is what [temperatureRead()] returns and
    [now] what [millis()] returns. *)
Definition checkTemperature (now : Z) (temp : f32) (st : State) : State :=
  let tempValid := isTemperatureValid temp in
  if negb tempValid then
    let st := set_lastTemperatureValid false st in
    if negb (overheatSensorFault st) then
      let st := set_overheatSensorFault true st in
      let st := set_overheatLastReason
                  "Thermal protection disabled: temperature sensor unavailable." st in
      let st := set_overheatLastTimestamp EmptyString st in
      let st := set_overheatTripTemp F32.zero st in
      let st := set_overheatTriggeredAt 0 st in
      persistOverheatNote st
    else st
  else
    let st := set_lastTemperatureC temp st in
    let st := set_lastTemperatureValid true st in
    let st :=
      if overheatSensorFault st then
        let st := set_overheatSensorFault false st in
        let st := set_overheatLastReason
                    "Thermal protection restored: temperature sensor reading valid." st in
        let st := set_overheatLastTimestamp
                    (formatUptime (u32 (now - bootTime st) / 1000)) st in
        persistOverheatNote st
      else st in
    let st := if (temp >? maxTemperature st)%f32 then set_maxTemperature temp st else st in
    let protectionActive := overheatProtectionEnabled st && negb (overheatSensorFault st) in
    if protectionActive then
      if negb (overheatLockoutActive st) && (temp >=? overheatShutdownC st)%f32 then
        let st := set_overheatLockoutActive true st in
        let st := recordOverheatTrip now temp st in
        let st := if client_bool (rtspClient st) && connected (rtspClient st)
                  then set_rtspClient (client_stop (rtspClient st)) st else st in
        let st := if isStreaming st then set_isStreaming false st else st in
        let st := set_rtspServerEnabled false st in
        set_rtspServer false st
      else if overheatLockoutActive st
              && (temp <=? overheatShutdownC st - F32.of_Z OVERHEAT_LIMIT_STEP_C)%f32 then
        set_overheatLockoutActive false st
      else st
    else
      set_overheatLockoutActive false st.

(** ** Settings: threshold, load, save, defaults *)

Definition computeRecommendedMinRate (st : State) : Z :=
  let buf := Z.max 1 (currentBufferSize st) in
  let expectedPktPerSec := (F32.of_Z (currentSampleRate st) / F32.of_Z buf)%f32 in
  let rec := u32 (F32.trunc (expectedPktPerSec * F32.of_ratio 7 10 + F32.of_ratio 1 2)%f32) in
  if rec <? 5 then 5 else rec.

(** Clamp to the limits and round down to a multiple of the step, as
    [loadAudioSettings] does to the stored limit. *)
Definition quantizeOverheatLimit (ohLimit : Z) : Z :=
  let ohLimit := if ohLimit <? OVERHEAT_MIN_LIMIT_C then OVERHEAT_MIN_LIMIT_C else ohLimit in
  let ohLimit := if OVERHEAT_MAX_LIMIT_C <? ohLimit then OVERHEAT_MAX_LIMIT_C else ohLimit in
  OVERHEAT_MIN_LIMIT_C
  + ((ohLimit - OVERHEAT_MIN_LIMIT_C) / OVERHEAT_LIMIT_STEP_C) * OVERHEAT_LIMIT_STEP_C.

Definition loadAudioSettings (st : State) : State :=
  let p := audioPrefs st in
  let st := set_currentSampleRate (getUInt "sampleRate" DEFAULT_SAMPLE_RATE p) st in
  let st := set_currentGainFactor (getFloat "gainFactor" DEFAULT_GAIN_FACTOR p) st in
  let st := set_currentBufferSize (getUShort "bufferSize" DEFAULT_BUFFER_SIZE p) st in
  let st := set_i2sShiftBits (getUChar "shiftBits" (i2sShiftBits st) p) st in
  let st := set_autoRecoveryEnabled (getBool "autoRecovery" true p) st in
  let st := set_scheduledResetEnabled (getBool "schedReset" false p) st in
  let st := set_resetIntervalHours (getUInt "resetHours" 24 p) st in
  let st := set_minAcceptableRate (getUInt "minRate" 50 p) st in
  let st := set_performanceCheckInterval (getUInt "checkInterval" 15 p) st in
  let st := set_autoThresholdEnabled (getBool "thrAuto" true p) st in
  let st := set_cpuFrequencyMhz (getUChar "cpuFreq" 160 p) st in
  let st := set_wifiTxPowerDbm (getFloat "wifiTxDbm" DEFAULT_WIFI_TX_DBM p) st in
  let st := set_highpassEnabled (getBool "hpEnable" DEFAULT_HPF_ENABLED p) st in
  let st := set_highpassCutoffHz (u16 (getUInt "hpCutoff" DEFAULT_HPF_CUTOFF_HZ p)) st in
  let st := set_overheatProtectionEnabled (getBool "ohEnable" DEFAULT_OVERHEAT_PROTECTION p) st in
  let ohLimit := quantizeOverheatLimit (getUInt "ohThresh" DEFAULT_OVERHEAT_LIMIT_C p) in
  let st := set_overheatShutdownC (F32.of_Z ohLimit) st in
  let st := set_overheatLastReason (getString "ohReason" EmptyString p) st in
  let st := set_overheatLastTimestamp (getString "ohStamp" EmptyString p) st in
  let st := set_overheatTripTemp (getFloat "ohTripC" F32.zero p) st in
  let st := set_overheatLatched (getBool "ohLatched" false p) st in
  let st := if autoThresholdEnabled st
            then set_minAcceptableRate (computeRecommendedMinRate st) st else st in
  if overheatLatched st then set_rtspServerEnabled false st else st.

Definition saveAudioSettings (st : State) : State :=
  let st := putPref "sampleRate" (PUInt (currentSampleRate st)) st in
  let st := putPref "gainFactor" (PFloat (currentGainFactor st)) st in
  let st := putPref "bufferSize" (PUShort (currentBufferSize st)) st in
  let st := putPref "shiftBits" (PUChar (i2sShiftBits st)) st in
  let st := putPref "autoRecovery" (PBool (autoRecoveryEnabled st)) st in
  let st := putPref "schedReset" (PBool (scheduledResetEnabled st)) st in
  let st := putPref "resetHours" (PUInt (resetIntervalHours st)) st in
  let st := putPref "minRate" (PUInt (minAcceptableRate st)) st in
  let st := putPref "checkInterval" (PUInt (performanceCheckInterval st)) st in
  let st := putPref "thrAuto" (PBool (autoThresholdEnabled st)) st in
  let st := putPref "cpuFreq" (PUChar (cpuFrequencyMhz st)) st in
  let st := putPref "wifiTxDbm" (PFloat (wifiTxPowerDbm st)) st in
  let st := putPref "hpEnable" (PBool (highpassEnabled st)) st in
  let st := putPref "hpCutoff" (PUInt (highpassCutoffHz st)) st in
  let st := putPref "ohEnable" (PBool (overheatProtectionEnabled st)) st in
  let ohLimit := u32 (F32.trunc (overheatShutdownC st + F32.of_ratio 1 2)%f32) in
  let ohLimit := if ohLimit <? OVERHEAT_MIN_LIMIT_C then OVERHEAT_MIN_LIMIT_C else ohLimit in
  let ohLimit := if OVERHEAT_MAX_LIMIT_C <? ohLimit then OVERHEAT_MAX_LIMIT_C else ohLimit in
  let st := putPref "ohThresh" (PUInt ohLimit) st in
  let st := putPref "ohReason" (PString (overheatLastReason st)) st in
  let st := putPref "ohStamp" (PString (overheatLastTimestamp st)) st in
  let st := putPref "ohTripC" (PFloat (overheatTripTemp st)) st in
  putPref "ohLatched" (PBool (overheatLatched st)) st.

Definition scheduleReboot (now : Z) (factoryReset : bool) (delayMs : Z) (st : State) : State :=
  let st := set_scheduledFactoryReset factoryReset st in
  set_scheduledRebootAt (u32 (now + delayMs)) st.

Definition resetToDefaultSettings (st : State) : State :=
  let st := set_audioPrefs ∅ st in
  let st := set_currentSampleRate DEFAULT_SAMPLE_RATE st in
  let st := set_currentGainFactor DEFAULT_GAIN_FACTOR st in
  let st := set_currentBufferSize DEFAULT_BUFFER_SIZE st in
  let st := set_i2sShiftBits 12 st in
  let st := set_autoRecoveryEnabled true st in
  let st := set_autoThresholdEnabled true st in
  let st := set_scheduledResetEnabled false st in
  let st := set_resetIntervalHours 24 st in
  let st := set_minAcceptableRate (computeRecommendedMinRate st) st in
  let st := set_performanceCheckInterval 15 st in
  let st := set_cpuFrequencyMhz 160 st in
  let st := set_wifiTxPowerDbm DEFAULT_WIFI_TX_DBM st in
  let st := set_highpassEnabled DEFAULT_HPF_ENABLED st in
  let st := set_highpassCutoffHz DEFAULT_HPF_CUTOFF_HZ st in
  let st := set_overheatProtectionEnabled DEFAULT_OVERHEAT_PROTECTION st in
  let st := set_overheatShutdownC (F32.of_Z DEFAULT_OVERHEAT_LIMIT_C) st in
  let st := set_overheatLockoutActive false st in
  let st := set_overheatTripTemp F32.zero st in
  let st := set_overheatTriggeredAt 0 st in
  let st := set_overheatLastReason EmptyString st in
  let st := set_overheatLastTimestamp EmptyString st in
  let st := set_overheatSensorFault false st in
  let st := set_overheatLatched false st in
  let st := set_lastTemperatureC F32.zero st in
  let st := set_lastTemperatureValid false st in
  let st := set_isStreaming false st in
  saveAudioSettings st.

(** ** The capture driver *)

(** [setup_i2s_driver]: the driver is reinstalled with the current sample
    rate and DMA buffer length; each installation is recorded. *)
Definition setup_i2s_driver (st : State) : State :=
  let dma_buf_len := if 512 <? currentBufferSize st then 512 else currentBufferSize st in
  set_i2sInstalls ((currentSampleRate st, dma_buf_len) :: i2sInstalls st) st.

(** The result of a call that can end in [ESP.restart()]: the call
    returns, or the sketch restarts the device in state [st] and the
    caller never goes on. *)
Inductive Call (A : Type) :=
| Returns (a : A)
| Restarts (st : State).
Arguments Returns {A} a.
Arguments Restarts {A} st.

Definition callBind {A B : Type} (c : Call A) (k : A -> Call B) : Call B :=
  match c with
  | Returns a => k a
  | Restarts st => Restarts st
  end.

(** [restartI2S].  The sample buffers are freed and allocated again at the
    current size; [allocOk] tells whether [malloc] returned the blocks.
    When it did not the sketch calls [ESP.restart()]; a fresh block is
    shown zero-filled. *)
Definition restartI2S (allocOk : bool) (st : State) : Call State :=
  let st := set_isStreaming false st in
  if allocOk then
    let st := set_i2s_16bit_buffer (repeat 0 (Z.to_nat (currentBufferSize st))) st in
    let st := setup_i2s_driver st in
    let st := updateHighpassCoeffs st in
    let st := set_maxPacketRate 0 st in
    Returns (set_minPacketRate 4294967295 st)
  else Restarts st.

(** ** RTP packets over the RTSP connection *)

(** [client.write] appends to what the client has sent. *)
Definition client_sent (bytes : list Z) (c : WiFiClient) : WiFiClient :=
  {| connected := connected c; rxPending := rxPending c; txSent := txSent c ++ bytes |}.

(** [writeAll].  [ws] lists what the successive calls of [client.write]
    return (the number of bytes the socket took, or a value [<= 0]); a
    call past the end of the list returns 0.  The result is the boolean
    of the sketch, what is left of [ws], and the client. *)
Fixpoint writeAll (ws : list Z) (c : WiFiClient) (data : list Z) (off : Z)
  : bool * list Z * WiFiClient :=
  if off <? Z.of_nat (length data) then
    match ws with
    | [] => (false, [], c)
    | w :: ws' =>
        if w <=? 0 then (false, ws', c)
        else writeAll ws' (client_sent (take (Z.to_nat w) (drop (Z.to_nat off) data)) c)
                      data (off + w)
    end
  else (true, ws, c).

(** The byte swap of one sample: [(uint16_t)((s << 8) | (s >> 8))]. *)
Definition swap16 (sample : Z) : Z :=
  let s := u16 sample in
  i16 (u16 (Z.lor (Z.shiftl s 8) (Z.shiftr s 8))).

(** The first [n] samples of the buffer swapped in place. *)
Definition swapSamples (n : Z) (audioData : list Z) : list Z :=
  map swap16 (take (Z.to_nat n) audioData) ++ drop (Z.to_nat n) audioData.

(** The bytes of an [int16_t] array as they lie in memory (little
    endian). *)
Definition bytesOfSamples (l : list Z) : list Z :=
  flat_map (fun s => [Z.land (u16 s) 255; Z.shiftr (u16 s) 8]) l.

Definition rtpInterleaved (packetSize : Z) : list Z :=
  [36; 0; Z.land (Z.shiftr packetSize 8) 255; Z.land packetSize 255].

Definition rtpHeader (st : State) : list Z :=
  [128; 96;
   Z.land (Z.shiftr (rtpSequence st) 8) 255; Z.land (rtpSequence st) 255;
   Z.land (Z.shiftr (rtpTimestamp st) 24) 255; Z.land (Z.shiftr (rtpTimestamp st) 16) 255;
   Z.land (Z.shiftr (rtpTimestamp st) 8) 255; Z.land (rtpTimestamp st) 255;
   Z.land (Z.shiftr (rtpSSRC st) 24) 255; Z.land (Z.shiftr (rtpSSRC st) 16) 255;
   Z.land (Z.shiftr (rtpSSRC st) 8) 255; Z.land (rtpSSRC st) 255].

(** The outcome of the three [writeAll] calls of [sendRTPPacket], joined
    by [||] in the sketch: a later segment is attempted only when the
    earlier ones went out whole. *)
Definition writeSegments (ws : list Z) (c : WiFiClient) (inter header payload : list Z)
  : bool * list Z * WiFiClient :=
  let '(ok, ws, c) := writeAll ws c inter 0 in
  if negb ok then (false, ws, c) else
  let '(ok, ws, c) := writeAll ws c header 0 in
  if negb ok then (false, ws, c) else
  writeAll ws c payload 0.

(** [payloadSize] and [packetSize], both [uint16_t]. *)
Definition rtpPayloadSize (numSamples : Z) : Z := u16 (numSamples * 2).
Definition rtpPacketSize (numSamples : Z) : Z := u16 (12 + rtpPayloadSize numSamples).

(** The third segment: [payloadSize] bytes of the buffer, read after the
    swap. *)
Definition rtpPayload (numSamples : Z) (swapped : list Z) : list Z :=
  take (Z.to_nat (rtpPayloadSize numSamples)) (bytesOfSamples swapped).

(** [sendRTPPacket(client, audioData, numSamples)].  [client] is always
    the global [rtspClient]; the caller's buffer is an argument and its
    content after the call is part of the result. *)
Definition sendRTPPacket (ws : list Z) (audioData : list Z) (numSamples : Z) (st : State)
  : State * list Z * list Z :=
  if negb (connected (rtspClient st)) then (st, audioData, ws) else
  let inter := rtpInterleaved (rtpPacketSize numSamples) in
  let header := rtpHeader st in
  let audioData := swapSamples numSamples audioData in
  let payload := rtpPayload numSamples audioData in
  let '(ok, ws, c) := writeSegments ws (rtspClient st) inter header payload in
  let st := set_rtspClient c st in
  if negb ok then (set_isStreaming false st, audioData, ws)
  else
    let st := set_rtpSequence (u16 (rtpSequence st + 1)) st in
    let st := set_rtpTimestamp (u32 (rtpTimestamp st + u32 numSamples)) st in
    let st := set_audioPacketsSent (u32 (audioPacketsSent st + 1)) st in
    (st, audioData, ws).

(** ** Conditioning of one block *)

(** The running values of the loop over the samples of a block. *)
Record BlockAcc := MkBlockAcc {
  acc_hpf : Biquad;
  acc_clipped : bool;
  acc_peakAbs : f32;
  acc_out : list Z
}.

(** The body of the loop for one raw 32-bit sample. *)
Definition conditionSample (shiftBits : Z) (hpOn : bool) (gain : f32)
           (acc : BlockAcc) (raw : Z) : BlockAcc :=
  let sample := F32.of_Z (Z.shiftr raw shiftBits) in
  let '(q, sample) := if hpOn then Biquad_process (acc_hpf acc) sample
                      else (acc_hpf acc, sample) in
  let amplified := (sample * gain)%f32 in
  let aabs := F32.fabsf amplified in
  let peakAbs := if (aabs >? acc_peakAbs acc)%f32 then aabs else acc_peakAbs acc in
  let clipped := if (aabs >? F32.of_Z 32767)%f32 then true else acc_clipped acc in
  let amplified := if (amplified >? F32.of_Z 32767)%f32 then F32.of_Z 32767 else amplified in
  let amplified := if (amplified <? F32.of_Z (-32768))%f32 then F32.of_Z (-32768) else amplified in
  {| acc_hpf := q; acc_clipped := clipped; acc_peakAbs := peakAbs;
     acc_out := acc_out acc ++ [i16 (F32.trunc amplified)] |}.

Definition conditionBlock (shiftBits : Z) (hpOn : bool) (gain : f32)
           (q : Biquad) (raw : list Z) : BlockAcc :=
  fold_left (conditionSample shiftBits hpOn gain) raw
            {| acc_hpf := q; acc_clipped := false; acc_peakAbs := F32.zero; acc_out := [] |}.

(** [streamAudio] for the standard I2S microphone.  [readOk] and [raw] are
    the status and the samples [i2s_read] delivers (the byte count is four
    times the length of [raw]); the conditioned samples overwrite the
    front of the 16-bit buffer, which is then handed to [sendRTPPacket]. *)
Definition streamAudio (now : Z) (readOk : bool) (raw : list Z) (ws : list Z) (st : State)
  : State * list Z :=
  if negb (isStreaming st) || negb (connected (rtspClient st)) then (st, ws) else
  if readOk && (0 <? 4 * Z.of_nat (length raw)) then
    let samplesRead := Z.of_nat (length raw) in
    let st := if hpfStale st then updateHighpassCoeffs st else st in
    let acc := conditionBlock (i2sShiftBits st) (highpassEnabled st)
                              (currentGainFactor st) (hpf st) raw in
    let st := set_hpf (acc_hpf acc) st in
    let st := set_i2s_16bit_buffer
                (acc_out acc ++ drop (length raw) (i2s_16bit_buffer st)) st in
    let peakAbs := if (acc_peakAbs acc >? F32.of_Z 32767)%f32
                   then F32.of_Z 32767 else acc_peakAbs acc in
    let st := set_lastPeakAbs16 (u16 (F32.trunc peakAbs)) st in
    let st := set_audioClippedLastBlock (acc_clipped acc) st in
    let st := if acc_clipped acc
              then set_audioClipCount (u32 (audioClipCount st + 1)) st else st in
    let st :=
      if peakHoldAbs16 st <? lastPeakAbs16 st then
        let st := set_peakHoldAbs16 (lastPeakAbs16 st) st in
        set_peakHoldUntilMs (u32 (now + 3000)) st
      else if (0 <? peakHoldAbs16 st) && (peakHoldUntilMs st <? now) then
        set_peakHoldAbs16 0 st
      else st in
    let '(st, buf, ws) := sendRTPPacket ws (i2s_16bit_buffer st) samplesRead st in
    (set_i2s_16bit_buffer buf st, ws)
  else (st, ws).

(** ** Arduino [String] operations used by the RTSP handler *)

Definition CR : string := String "013" EmptyString.
Definition LF : string := String "010" EmptyString.
Definition CRLF : string := CR +:+ LF.

Definition bytesOfString (s : string) : list Z :=
  map (fun a => Z.of_nat (nat_of_ascii a)) (list_ascii_of_string s).

Definition stringOfBytes (l : list Z) : string :=
  string_of_list_ascii (map (fun b => ascii_of_nat (Z.to_nat b)) l).

(** [s.indexOf(pat, from)]: the first position at or after [from], or -1. *)
Definition indexOf (s pat : string) (from : Z) : Z :=
  match String.index (Z.to_nat from) pat s with
  | Some i => Z.of_nat i
  | None => -1
  end.

(** [s.substring(left, right)]; the arguments are [unsigned int]. *)
Definition substring (from to : Z) (s : string) : string :=
  let from := u32 from in
  let to := u32 to in
  let lo := if to <? from then to else from in
  let hi := if to <? from then from else to in
  let len := Z.of_nat (String.length s) in
  if len <=? lo then EmptyString
  else
    let hi := if len <? hi then len else hi in
    String.substring (Z.to_nat lo) (Z.to_nat (hi - lo)) s.

Definition isspace (a : ascii) : bool :=
  let n := nat_of_ascii a in
  (n =? 32)%nat || ((9 <=? n)%nat && (n <=? 13)%nat).

Fixpoint dropSpaces (l : list ascii) : list ascii :=
  match l with
  | a :: r => if isspace a then dropSpaces r else l
  | [] => []
  end.

(** [s.trim()] *)
Definition trim (s : string) : string :=
  string_of_list_ascii
    (rev (dropSpaces (rev (dropSpaces (list_ascii_of_string s))))).

(** [s.startsWith(pat)] *)
Definition startsWith (s pat : string) : bool := String.prefix pat s.

(** [client.print(text)] on the RTSP client. *)
Definition client_print (text : string) (st : State) : State :=
  set_rtspClient (client_sent (bytesOfString text) (rtspClient st)) st.

(** ** RTSP *)

(** [handleRTSPCommand(client, request)]: [now] is [millis()], [ip] the
    text of [WiFi.localIP()], [rnd] what [random(100000000, 999999999)]
    returns. *)
Definition handleRTSPCommand (now : Z) (ip : string) (rnd : Z)
           (request : string) (st : State) : State :=
  let cseq := "1" in
  let cseqPos := indexOf request "CSeq: " 0 in
  let cseq := if 0 <=? cseqPos
              then trim (substring (cseqPos + 6) (indexOf request CR cseqPos) request)
              else cseq in
  let st := set_lastRTSPActivity now st in
  if startsWith request "OPTIONS" then
    let st := client_print ("RTSP/1.0 200 OK" +:+ CRLF) st in
    let st := client_print ("CSeq: " +:+ cseq +:+ CRLF) st in
    client_print ("Public: OPTIONS, DESCRIBE, SETUP, PLAY, TEARDOWN, GET_PARAMETER"
                  +:+ CRLF +:+ CRLF) st
  else if startsWith request "DESCRIBE" then
    let sdp := "v=0" +:+ CRLF in
    let sdp := sdp +:+ "o=- 0 0 IN IP4 " +:+ ip +:+ CRLF in
    let sdp := sdp +:+ "s=ESP32 RTSP Mic (" +:+ String_uint (currentSampleRate st)
                   +:+ "Hz, 16-bit PCM)" +:+ CRLF in
    let sdp := sdp +:+ "c=IN IP4 " +:+ ip +:+ CRLF in
    let sdp := sdp +:+ "t=0 0" +:+ CRLF in
    let sdp := sdp +:+ "m=audio 0 RTP/AVP 96" +:+ CRLF in
    let sdp := sdp +:+ "a=rtpmap:96 L16/" +:+ String_uint (currentSampleRate st)
                   +:+ "/1" +:+ CRLF in
    let sdp := sdp +:+ "a=control:track1" +:+ CRLF in
    let st := client_print ("RTSP/1.0 200 OK" +:+ CRLF) st in
    let st := client_print ("CSeq: " +:+ cseq +:+ CRLF) st in
    let st := client_print ("Content-Type: application/sdp" +:+ CRLF) st in
    let st := client_print ("Content-Base: rtsp://" +:+ ip +:+ ":8554/audio/" +:+ CRLF) st in
    let st := client_print ("Content-Length: "
                            +:+ String_uint (Z.of_nat (String.length sdp))
                            +:+ CRLF +:+ CRLF) st in
    client_print sdp st
  else if startsWith request "SETUP" then
    let st := set_rtspSessionId (String_uint rnd) st in
    let st := client_print ("RTSP/1.0 200 OK" +:+ CRLF) st in
    let st := client_print ("CSeq: " +:+ cseq +:+ CRLF) st in
    let st := client_print ("Session: " +:+ rtspSessionId st +:+ CRLF) st in
    client_print ("Transport: RTP/AVP/TCP;unicast;interleaved=0-1" +:+ CRLF +:+ CRLF) st
  else if startsWith request "PLAY" then
    let st := client_print ("RTSP/1.0 200 OK" +:+ CRLF) st in
    let st := client_print ("CSeq: " +:+ cseq +:+ CRLF) st in
    let st := client_print ("Session: " +:+ rtspSessionId st +:+ CRLF) st in
    let st := client_print ("Range: npt=0.000-" +:+ CRLF +:+ CRLF) st in
    let st := set_isStreaming true st in
    let st := set_rtpSequence 0 st in
    let st := set_rtpTimestamp 0 st in
    let st := set_audioPacketsSent 0 st in
    let st := set_lastStatsReset now st in
    let st := set_lastRtspPlayMs now st in
    set_rtspPlayCount (u32 (rtspPlayCount st + 1)) st
  else if startsWith request "TEARDOWN" then
    let st := client_print ("RTSP/1.0 200 OK" +:+ CRLF) st in
    let st := client_print ("CSeq: " +:+ cseq +:+ CRLF) st in
    let st := client_print ("Session: " +:+ rtspSessionId st +:+ CRLF +:+ CRLF) st in
    set_isStreaming false st
  else if startsWith request "GET_PARAMETER" then
    let st := client_print ("RTSP/1.0 200 OK" +:+ CRLF) st in
    client_print ("CSeq: " +:+ cseq +:+ CRLF +:+ CRLF) st
  else st.

(** A step that touches the parse buffer either completes or accesses
    memory outside the array [rtspParseBuffer]. *)
Inductive Run (A : Type) :=
| Ok (a : A)
| OutOfBounds.
Arguments Ok {A} a.
Arguments OutOfBounds {A}.

(** What [strstr(buffer, "\r\n\r\n")] does on the array: it scans the C
    string that starts the array and stops at the first NUL; when the
    array holds no NUL the scan leaves it. *)
Inductive Scan := Found (i : Z) | NotFound | Overrun.

Definition startsCRLFCRLF (hay : list Z) : bool :=
  match hay with
  | 13 :: 10 :: 13 :: 10 :: _ => true
  | _ => false
  end.

Fixpoint strstrFrom (hay : list Z) (i : Z) : Scan :=
  match hay with
  | [] => Overrun
  | b :: rest =>
      if b =? 0 then NotFound
      else if startsCRLFCRLF hay then Found i
      else strstrFrom rest (i + 1)
  end.

(** A write of [data] at offset [pos] of the array, checked against its
    bounds. *)
Definition bufWrite (buf : list Z) (pos : Z) (data : list Z) : option (list Z) :=
  if (0 <=? pos) && (pos + Z.of_nat (length data) <=? Z.of_nat (length buf)) then
    Some (take (Z.to_nat pos) buf ++ data
          ++ drop (Z.to_nat pos + length data) buf)
  else None.

(** [memmove(buf, buf + src, n)] with [n : size_t], checked against the
    bounds of the array. *)
Definition bufMoveFront (buf : list Z) (src n : Z) : option (list Z) :=
  if (0 <=? src) && (src + n <=? Z.of_nat (length buf)) then
    Some (take (Z.to_nat n) (drop (Z.to_nat src) buf) ++ drop (Z.to_nat n) buf)
  else None.

(** [processRTSP(client)] on the global client. *)
Definition processRTSP (now : Z) (ip : string) (rnd : Z) (st : State) : Run State :=
  if negb (connected (rtspClient st)) then Ok st else
  let available := Z.of_nat (length (rxPending (rtspClient st))) in
  if 0 <? available then
    let overflow :=
      (RTSP_PARSE_BUFFER_SIZE <=? rtspParseBufferPos st + available)
      && (i32 (RTSP_PARSE_BUFFER_SIZE - rtspParseBufferPos st - 1) <=? 0) in
    if overflow then Ok (set_rtspParseBufferPos 0 st)
    else
      let available :=
        if RTSP_PARSE_BUFFER_SIZE <=? rtspParseBufferPos st + available
        then i32 (RTSP_PARSE_BUFFER_SIZE - rtspParseBufferPos st - 1)
        else available in
      let c := rtspClient st in
      let data := take (Z.to_nat available) (rxPending c) in
      match bufWrite (rtspParseBuffer st) (rtspParseBufferPos st) data with
      | None => OutOfBounds
      | Some buf =>
          let st := set_rtspParseBuffer buf st in
          let st := set_rtspClient
                      {| connected := connected c;
                         rxPending := drop (Z.to_nat available) (rxPending c);
                         txSent := txSent c |} st in
          let st := set_rtspParseBufferPos (rtspParseBufferPos st + available) st in
          match strstrFrom (rtspParseBuffer st) 0 with
          | Overrun => OutOfBounds
          | NotFound => Ok st
          | Found endOfHeader =>
              let request := stringOfBytes (take (Z.to_nat endOfHeader) (rtspParseBuffer st)) in
              let st := set_rtspParseBuffer
                          (<[Z.to_nat endOfHeader := 0]> (rtspParseBuffer st)) st in
              let st := handleRTSPCommand now ip rnd request st in
              let headerLen := endOfHeader + 4 in
              match bufMoveFront (rtspParseBuffer st) headerLen
                                 (u32 (rtspParseBufferPos st - headerLen)) with
              | None => OutOfBounds
              | Some buf =>
                  let st := set_rtspParseBuffer buf st in
                  Ok (set_rtspParseBufferPos (rtspParseBufferPos st - headerLen) st)
              end
          end
      end
  else Ok st.

(** Bytes that arrive on the RTSP connection between two polls. *)
Definition client_receive (bytes : list Z) (st : State) : State :=
  let c := rtspClient st in
  set_rtspClient {| connected := connected c;
                    rxPending := rxPending c ++ bytes;
                    txSent := txSent c |} st.

(** The client sends its bytes in the given chunks and [processRTSP] runs
    once after each chunk. *)
Fixpoint processChunks (now : Z) (ip : string) (rnd : Z)
         (chunks : list (list Z)) (st : State) : Run State :=
  match chunks with
  | [] => Ok st
  | chunk :: rest =>
      match processRTSP now ip rnd (client_receive chunk st) with
      | Ok st => processChunks now ip rnd rest st
      | OutOfBounds => OutOfBounds
      end
  end.

(** ** Start-up *)

(** The globals as their initializers leave them; [flash] is the content
    of the [Preferences] namespace found at power-up. *)
Definition initialState (flash : gmap string PrefVal) : State :=
  {| session :=
       {| rtspSessionId := EmptyString; isStreaming := false; rtpSequence := 0;
          rtpTimestamp := 0; rtpSSRC := 1126258296; lastRTSPActivity := 0;
          rtspParseBuffer := repeat 0 (Z.to_nat RTSP_PARSE_BUFFER_SIZE);
          rtspParseBufferPos := 0; audioPacketsSent := 0; lastStatsReset := 0;
          rtspServerEnabled := true; lastRtspClientConnectMs := 0; lastRtspPlayMs := 0;
          rtspConnectCount := 0; rtspPlayCount := 0 |};
     audio :=
       {| currentSampleRate := DEFAULT_SAMPLE_RATE; currentGainFactor := DEFAULT_GAIN_FACTOR;
          currentBufferSize := DEFAULT_BUFFER_SIZE; i2sShiftBits := 12;
          i2s_16bit_buffer := []; lastPeakAbs16 := 0; audioClipCount := 0;
          audioClippedLastBlock := false; peakHoldAbs16 := 0; peakHoldUntilMs := 0;
          highpassEnabled := DEFAULT_HPF_ENABLED; highpassCutoffHz := DEFAULT_HPF_CUTOFF_HZ;
          hpf := {| b0 := F32.of_Z 1; b1 := F32.zero; b2 := F32.zero; a1 := F32.zero;
                    a2 := F32.zero; x1 := F32.zero; x2 := F32.zero; y1 := F32.zero;
                    y2 := F32.zero |};
          hpfConfigSampleRate := 0; hpfConfigCutoff := 0 |};
     diag :=
       {| maxPacketRate := 0; minPacketRate := 4294967295; autoRecoveryEnabled := true;
          autoThresholdEnabled := true; scheduledFactoryReset := false;
          scheduledRebootAt := 0; bootTime := 0; lastI2SReset := 0;
          scheduledResetEnabled := false; resetIntervalHours := 24;
          minAcceptableRate := 50; performanceCheckInterval := 15 |};
     thermal :=
       {| maxTemperature := F32.zero; lastTemperatureC := F32.zero;
          lastTemperatureValid := false;
          overheatProtectionEnabled := DEFAULT_OVERHEAT_PROTECTION;
          overheatShutdownC := F32.of_Z DEFAULT_OVERHEAT_LIMIT_C;
          overheatLockoutActive := false; overheatTripTemp := F32.zero;
          overheatTriggeredAt := 0; overheatLastReason := EmptyString;
          overheatLastTimestamp := EmptyString; overheatSensorFault := false;
          overheatLatched := false |};
     power :=
       {| wifiTxPowerDbm := DEFAULT_WIFI_TX_DBM;
          currentWifiPowerLevel := WIFI_POWER_19_5dBm; cpuFrequencyMhz := 160 |};
     hw :=
       {| audioPrefs := flash; rtspServer := false;
          rtspClient := {| connected := false; rxPending := []; txSent := [] |};
          radioTxPower := []; cpuMhz := 160; i2sInstalls := []; espRestarts := 0 |} |}.

(** [setup()], from the globals as initialized: [now] is [millis()],
    [ssrc] what [random(1, 0x7FFFFFFF)] returns, [initialTemp] the first
    sensor reading.  Serial output, Wi-Fi association and OTA are left
    out.  A boot whose buffer allocation or Wi-Fi association fails ends
    in [ESP.restart()] and starts over: this is the boot that gets
    through. *)
Definition setup (now : Z) (ssrc : Z) (initialTemp : f32) (st : State) : State :=
  let st := set_bootTime now st in
  let st := set_rtpSSRC (u32 ssrc) st in
  let st := loadAudioSettings st in
  let st := set_i2s_16bit_buffer (repeat 0 (Z.to_nat (currentBufferSize st))) st in
  let st := applyWifiTxPower st in
  let st := setup_i2s_driver st in
  let st := updateHighpassCoeffs st in
  let st :=
    if negb (overheatLatched st) then
      let st := set_rtspServer true st in
      set_rtspServerEnabled true st
    else
      let st := set_rtspServerEnabled false st in
      set_rtspServer false st in
  let st := set_lastStatsReset now st in
  let st := set_lastRTSPActivity now st in
  let st :=
    if isTemperatureValid initialTemp then
      let st := set_maxTemperature initialTemp st in
      let st := set_lastTemperatureC initialTemp st in
      let st := set_lastTemperatureValid true st in
      set_overheatSensorFault false st
    else
      let st := set_maxTemperature F32.zero st in
      let st := set_lastTemperatureC F32.zero st in
      let st := set_lastTemperatureValid false st in
      let st := set_overheatSensorFault true st in
      let st := set_overheatLastReason
                  "Thermal protection disabled: temperature sensor unavailable." st in
      let st := set_overheatLastTimestamp EmptyString st in
      let st := set_overheatTripTemp F32.zero st in
      let st := set_overheatTriggeredAt 0 st in
      persistOverheatNote st in
  set_cpuMhz (cpuFrequencyMhz st) st.

(** [ESP.restart()]: RAM is lost, flash is kept, [setup()] runs again. *)
Definition restart (now : Z) (ssrc : Z) (initialTemp : f32) (st : State) : State :=
  let st' := setup now ssrc initialTemp (initialState (audioPrefs st)) in
  set_espRestarts (S (espRestarts st)) st'.

(** ** The RTSP part of [loop()] *)

(** One pass through the client management of [loop()].  [incoming] is
    the client [rtspServer.available()] would return, if any. *)
Definition loopRtsp (now : Z) (ip : string) (rnd : Z) (incoming : option WiFiClient)
           (readOk : bool) (raw : list Z) (ws : list Z) (st : State) : Run State :=
  if rtspServerEnabled st then
    let st :=
      if client_bool (rtspClient st) && negb (connected (rtspClient st)) then
        let st := set_rtspClient (client_stop (rtspClient st)) st in
        set_isStreaming false st
      else st in
    let st :=
      if client_bool (rtspClient st) && connected (rtspClient st) && negb (isStreaming st) then
        if 30000 <? u32 (now - lastRTSPActivity st)
        then set_rtspClient (client_stop (rtspClient st)) st else st
      else st in
    let st :=
      if negb (client_bool (rtspClient st)) || negb (connected (rtspClient st)) then
        match (if rtspServer st then incoming else None) with
        | Some newClient =>
            if client_bool newClient then
              let st := set_rtspClient newClient st in
              let st := set_rtspParseBufferPos 0 st in
              let st := set_lastRTSPActivity now st in
              let st := set_lastRtspClientConnectMs now st in
              set_rtspConnectCount (u32 (rtspConnectCount st + 1)) st
            else st
        | None => st
        end
      else st in
    if client_bool (rtspClient st) && connected (rtspClient st) then
      let st := if 0 <? Z.of_nat (length (rxPending (rtspClient st)))
                then set_lastRTSPActivity now st else st in
      match processRTSP now ip rnd st with
      | OutOfBounds => OutOfBounds
      | Ok st => if isStreaming st then Ok (fst (streamAudio now readOk raw ws st)) else Ok st
      end
    else Ok st
  else
    if client_bool (rtspClient st) && connected (rtspClient st) then
      let st := set_rtspClient (client_stop (rtspClient st)) st in
      Ok (set_isStreaming false st)
    else Ok st.

(** ** Web module: actions and setters *)

Definition DQ : string := String "034" EmptyString.

(** The JSON bodies the handlers send. *)
Definition JSON_OK_TRUE : string := "{" +:+ DQ +:+ "ok" +:+ DQ +:+ ":true}".
Definition JSON_OK_FALSE : string := "{" +:+ DQ +:+ "ok" +:+ DQ +:+ ":false}".
Definition JSON_THERMAL_LATCHED : string :=
  "{" +:+ DQ +:+ "ok" +:+ DQ +:+ ":false," +:+ DQ +:+ "error" +:+ DQ +:+ ":"
      +:+ DQ +:+ "thermal_latched" +:+ DQ +:+ "}".

(** The log ring of the web module: [logBuffer], [logHead] and
    [logCount]. *)
Definition LOG_CAP : Z := 80.

Record LogRing := MkLogRing {
  logBuffer : list string;
  logHead : Z;
  logCount : Z
}.

(** The ring as its initializers leave it. *)
Definition emptyLog : LogRing :=
  {| logBuffer := replicate (Z.to_nat LOG_CAP) EmptyString; logHead := 0; logCount := 0 |}.

(** [webui_pushLog].  The slot written is [logHead], which stays below
    [LOG_CAP]. *)
Definition webui_pushLog (line : string) (r : LogRing) : LogRing :=
  let buf := <[Z.to_nat (logHead r) := line]> (logBuffer r) in
  let head := u32 (logHead r + 1) mod LOG_CAP in
  let count := if logCount r <? LOG_CAP then u32 (logCount r + 1) else logCount r in
  {| logBuffer := buf; logHead := head; logCount := count |}.

Definition OH_MIN : Z := 30.
Definition OH_MAX : Z := 95.
Definition OH_STEP : Z := 5.

(** Every handler returns the new state and the body it sends. *)
Definition httpThermalClear (st : State) : State * string :=
  if overheatLatched st then
    let st := set_overheatLatched false st in
    let st := set_overheatLockoutActive false st in
    let st := set_overheatTripTemp F32.zero st in
    let st := set_overheatTriggeredAt 0 st in
    let st := set_overheatLastReason "Thermal latch cleared manually." st in
    let st := set_overheatLastTimestamp EmptyString st in
    let st :=
      if negb (rtspServerEnabled st) then
        let st := set_rtspServer true st in
        set_rtspServerEnabled true st
      else st in
    let st := saveAudioSettings st in
    (st, JSON_OK_TRUE)
  else (st, JSON_OK_FALSE).

Definition httpActionServerStart (st : State) : State * string :=
  if overheatLatched st then (st, JSON_THERMAL_LATCHED)
  else
    let st :=
      if negb (rtspServerEnabled st) then
        let st := set_rtspServerEnabled true st in
        let st := set_rtspServer true st in
        set_overheatLockoutActive false st
      else st in
    (st, JSON_OK_TRUE).

Definition httpActionServerStop (st : State) : State * string :=
  let st := set_rtspServerEnabled false st in
  let st := if client_bool (rtspClient st) && connected (rtspClient st)
            then set_rtspClient (client_stop (rtspClient st)) st else st in
  let st := set_isStreaming false st in
  let st := set_rtspServer false st in
  (st, JSON_OK_TRUE).

(** [httpActionResetI2S]: no reply when [restartI2S] restarts the
    device. *)
Definition httpActionResetI2S (allocOk : bool) (st : State) : Call (State * string) :=
  callBind (restartI2S allocOk st) (fun st =>
  Returns (st, JSON_OK_TRUE)).

(** The argument converters: [None] when the request has no [value]. *)
Definition argToFloat (value : option string) : option f32 :=
  match value with Some v => Some (atof v) | None => None end.
Definition argToUInt (value : option string) : option Z :=
  match value with Some v => Some (u32 (atol v)) | None => None end.
Definition argToUShort (value : option string) : option Z :=
  match value with Some v => Some (u16 (atol v)) | None => None end.
Definition argToUChar (value : option string) : option Z :=
  match value with Some v => Some (u8 (atol v)) | None => None end.

(** [web.arg("value")]: the empty string when the argument is absent. *)
Definition argValue (value : option string) : string :=
  match value with Some v => v | None => EmptyString end.

(** [httpSet] for the request [/api/set?key=...&value=...], with [log]
    the ring of the web module.  A request with a non-empty value is
    logged before the key is looked at.  The keys that change the capture
    end in [restartI2S]: when that restarts the device no reply is
    sent. *)
Definition httpSet (allocOk : bool) (key : string) (value : option string)
           (log : LogRing) (st : State) : Call (State * LogRing * string) :=
  let val := argValue value in
  let log := if negb (String.length val =? 0)%nat
             then webui_pushLog ("UI set: " +:+ key +:+ "=" +:+ val) log else log in
  callBind (
    if String.eqb key "gain" then
      match argToFloat value with
      | Some v =>
          if (v >=? F32.of_ratio 1 10)%f32 && (v <=? F32.of_Z 100)%f32 then
            let st := set_currentGainFactor v st in
            let st := saveAudioSettings st in
            restartI2S allocOk st
          else Returns st
      | None => Returns st
      end
    else if String.eqb key "rate" then
      match argToUInt value with
      | Some v =>
          if (8000 <=? v) && (v <=? 96000) then
            let st := set_currentSampleRate v st in
            let st := if autoThresholdEnabled st
                      then set_minAcceptableRate (computeRecommendedMinRate st) st else st in
            let st := saveAudioSettings st in
            restartI2S allocOk st
          else Returns st
      | None => Returns st
      end
    else if String.eqb key "buffer" then
      match argToUShort value with
      | Some v =>
          if (256 <=? v) && (v <=? 8192) then
            let st := set_currentBufferSize v st in
            let st := if autoThresholdEnabled st
                      then set_minAcceptableRate (computeRecommendedMinRate st) st else st in
            let st := saveAudioSettings st in
            restartI2S allocOk st
          else Returns st
      | None => Returns st
      end
    else if String.eqb key "shift" then
      match argToUChar value with
      | Some v =>
          if v <=? 24 then
            let st := set_i2sShiftBits v st in
            let st := saveAudioSettings st in
            restartI2S allocOk st
          else Returns st
      | None => Returns st
      end
    else if String.eqb key "wifi_tx" then
      match argToFloat value with
      | Some v =>
          if (v >=? F32.of_Z (-1))%f32 && (v <=? F32.of_ratio 195 10)%f32 then
            let st := set_wifiTxPowerDbm (snapWifiTxDbm v) st in
            let st := applyWifiTxPower st in
            Returns (saveAudioSettings st)
          else Returns st
      | None => Returns st
      end
    else if String.eqb key "auto_recovery" then
      let v := argValue value in
      if String.eqb v "on" || String.eqb v "off" then
        let st := set_autoRecoveryEnabled (String.eqb v "on") st in
        Returns (saveAudioSettings st)
      else Returns st
    else if String.eqb key "thr_mode" then
      let v := argValue value in
      if String.eqb v "auto" then
        let st := set_autoThresholdEnabled true st in
        let st := set_minAcceptableRate (computeRecommendedMinRate st) st in
        Returns (saveAudioSettings st)
      else if String.eqb v "manual" then
        let st := set_autoThresholdEnabled false st in
        Returns (saveAudioSettings st)
      else Returns st
    else if String.eqb key "min_rate" then
      match argToUInt value with
      | Some v =>
          if (5 <=? v) && (v <=? 200) then
            let st := set_minAcceptableRate v st in
            Returns (saveAudioSettings st)
          else Returns st
      | None => Returns st
      end
    else if String.eqb key "check_interval" then
      match argToUInt value with
      | Some v =>
          if (1 <=? v) && (v <=? 60) then
            let st := set_performanceCheckInterval v st in
            Returns (saveAudioSettings st)
          else Returns st
      | None => Returns st
      end
    else if String.eqb key "sched_reset" then
      let v := argValue value in
      if String.eqb v "on" || String.eqb v "off" then
        let st := set_scheduledResetEnabled (String.eqb v "on") st in
        Returns (saveAudioSettings st)
      else Returns st
    else if String.eqb key "reset_hours" then
      match argToUInt value with
      | Some v =>
          if (1 <=? v) && (v <=? 168) then
            let st := set_resetIntervalHours v st in
            Returns (saveAudioSettings st)
          else Returns st
      | None => Returns st
      end
    else if String.eqb key "cpu_freq" then
      match argToUInt value with
      | Some v =>
          if (40 <=? v) && (v <=? 160) then
            let st := set_cpuFrequencyMhz (u8 v) st in
            let st := set_cpuMhz (cpuFrequencyMhz st) st in
            Returns (saveAudioSettings st)
          else Returns st
      | None => Returns st
      end
    else if String.eqb key "hp_enable" then
      let v := argValue value in
      if String.eqb v "on" || String.eqb v "off" then
        let st := set_highpassEnabled (String.eqb v "on") st in
        let st := updateHighpassCoeffs st in
        Returns (saveAudioSettings st)
      else Returns st
    else if String.eqb key "hp_cutoff" then
      match argToUInt value with
      | Some v =>
          if (10 <=? v) && (v <=? 10000) then
            let st := set_highpassCutoffHz (u16 v) st in
            let st := updateHighpassCoeffs st in
            Returns (saveAudioSettings st)
          else Returns st
      | None => Returns st
      end
    else if String.eqb key "oh_enable" then
      let v := argValue value in
      if String.eqb v "on" || String.eqb v "off" then
        let st := set_overheatProtectionEnabled (String.eqb v "on") st in
        let st := if negb (overheatProtectionEnabled st)
                  then set_overheatLockoutActive false st else st in
        Returns (saveAudioSettings st)
      else Returns st
    else if String.eqb key "oh_limit" then
      match argToUInt value with
      | Some v =>
          if (OH_MIN <=? v) && (v <=? OH_MAX) then
            let snapped := OH_MIN + ((v - OH_MIN) / OH_STEP) * OH_STEP in
            let st := set_overheatShutdownC (F32.of_Z snapped) st in
            let st := set_overheatLockoutActive false st in
            Returns (saveAudioSettings st)
          else Returns st
      | None => Returns st
      end
    else Returns st) (fun st =>
  Returns (st, log, JSON_OK_TRUE)).

(** The reboot actions answer first and leave the restart to [loop()]. *)
Definition httpActionReboot (now : Z) (st : State) : State * string :=
  (scheduleReboot now false 600 st, JSON_OK_TRUE).
Definition httpActionFactoryReset (now : Z) (st : State) : State * string :=
  (scheduleReboot now true 600 st, JSON_OK_TRUE).

(** The end of [loop()]: a reboot that is due is carried out. *)
Definition loopDeferredReboot (now : Z) (ssrc : Z) (initialTemp : f32) (st : State) : State :=
  if negb (scheduledRebootAt st =? 0) && (scheduledRebootAt st <=? now) then
    let st := if scheduledFactoryReset st then resetToDefaultSettings st else st in
    restart now ssrc initialTemp st
  else st.

End Firmware.

Arguments Ok {A} a.
Arguments OutOfBounds {A}.
Arguments Returns {A} a.
Arguments Restarts {A} st.

(** ** A platform to run examples on

    Decimal conversions and truncated series standing for the C library;
    they serve only to evaluate the functions above on concrete requests. *)

Definition f32_of_Q (q : Q) : f32 :=
  match Qnum q with
  | Z0 => F32.zero
  | Zpos n => F32.of_ratio n (Qden q)
  | Zneg n => F32.neg_ratio n (Qden q)
  end.

Definition isDigit (a : ascii) : bool :=
  let n := nat_of_ascii a in (48 <=? n)%nat && (n <=? 57)%nat.

(** The leading decimal digits of [l]: their value on top of [acc], how
    many there are, and what follows them. *)
Fixpoint scanDigits (l : list ascii) (acc : Z) (cnt : nat) : Z * nat * list ascii :=
  match l with
  | a :: r =>
      if isDigit a then scanDigits r (acc * 10 + (Z.of_nat (nat_of_ascii a) - 48)) (S cnt)
      else (acc, cnt, l)
  | [] => (acc, cnt, [])
  end.

Definition splitSign (l : list ascii) : bool * list ascii :=
  match l with
  | a :: r => if Ascii.eqb a "-" then (true, r)
              else if Ascii.eqb a "+" then (false, r) else (false, l)
  | [] => (false, [])
  end.

Definition ref_atol (s : string) : Z :=
  let '(neg, l) := splitSign (dropSpaces (list_ascii_of_string s)) in
  let '(v, _, _) := scanDigits l 0 0 in
  if neg then - v else v.

(** Sign, digits, and an optional fraction; no exponent. *)
Definition ref_atof (s : string) : f32 :=
  let '(neg, l) := splitSign (dropSpaces (list_ascii_of_string s)) in
  let '(ip, _, rest) := scanDigits l 0 0 in
  let '(m, k) := match rest with
                 | a :: r => if Ascii.eqb a "." then
                               let '(m, k, _) := scanDigits r ip 0 in (m, k)
                             else (ip, 0%nat)
                 | [] => (ip, 0%nat)
                 end in
  let q := Qmake m (Z.to_pos (10 ^ Z.of_nat k)) in
  f32_of_Q (if neg then Qopp q else q).

Fixpoint padZeros (n : nat) (s : string) : string :=
  match n with
  | O => s
  | S n' => if (String.length s <? n)%nat then padZeros n' ("0" +:+ s) else s
  end.

Definition ref_String_float (x : f32) (decimals : Z) : string :=
  match x with
  | S754_nan => "nan"
  | S754_infinity s => if s then "-inf" else "inf"
  | _ =>
      let q := F32.exact x in
      let scale := 10 ^ decimals in
      let scaled := Qfloor (Qabs q * inject_Z scale + (1 # 2))%Q in
      let body := String_uint (scaled / scale) in
      let body := if 0 <? decimals
                  then body +:+ "." +:+ padZeros (Z.to_nat decimals)
                                                 (String_uint (scaled mod scale))
                  else body in
      if Qlt_le_dec q 0 then "-" +:+ body else body
  end.

(** [sum_{k < n} (-1)^k x^(2k+start) / (2k+start)!], the terms built one
    from the other. *)
Fixpoint altSeries (n : nat) (x2 term : Q) (k : Z) (acc : Q) : Q :=
  match n with
  | O => acc
  | S n' =>
      let term' := Qred (- term * x2 / inject_Z ((k + 1) * (k + 2)))%Q in
      altSeries n' x2 term' (k + 2) (Qred (acc + term))
  end.

Definition ref_cosf (x : f32) : f32 :=
  let q := F32.exact x in f32_of_Q (altSeries 14 (q * q)%Q 1%Q 0 0%Q).
Definition ref_sinf (x : f32) : f32 :=
  let q := F32.exact x in f32_of_Q (altSeries 14 (q * q)%Q q 1 0%Q).

Definition refPlatform : Platform :=
  {| atol := ref_atol; atof := ref_atof; String_float := ref_String_float;
     cosf := ref_cosf; sinf := ref_sinf |}.

(** ** Notions used in the statements *)

(** A segment is written short when [writeAll] gives up on it. *)
Definition segmentShort (ws : list Z) (c : WiFiClient) (data : list Z) : Prop :=
  fst (fst (writeAll ws c data 0)) = false.

(** One of the three segments of a packet is written short; a segment is
    attempted only after the ones before it went out whole. *)
Inductive SegmentFault (ws : list Z) (c : WiFiClient) (inter header payload : list Z) : Prop :=
| fault_framing :
    segmentShort ws c inter -> SegmentFault ws c inter header payload
| fault_header ws1 c1 :
    writeAll ws c inter 0 = (true, ws1, c1) ->
    segmentShort ws1 c1 header -> SegmentFault ws c inter header payload
| fault_payload ws1 c1 ws2 c2 :
    writeAll ws c inter 0 = (true, ws1, c1) ->
    writeAll ws1 c1 header 0 = (true, ws2, c2) ->
    segmentShort ws2 c2 payload -> SegmentFault ws c inter header payload.

(** The packet of [numSamples] samples from [audioData] goes out whole. *)
Definition packetSent (ws : list Z) (audioData : list Z) (numSamples : Z) (st : State) : Prop :=
  connected (rtspClient st) = true /\
  fst (fst (writeSegments ws (rtspClient st)
              (rtpInterleaved (rtpPacketSize numSamples)) (rtpHeader st)
              (rtpPayload numSamples (swapSamples numSamples audioData)))) = true.

(** Reduction of the projections of a state built by setters. *)
Ltac sst :=
  cbn [session rtspSessionId isStreaming rtpSequence rtpTimestamp rtpSSRC
       lastRTSPActivity rtspParseBuffer rtspParseBufferPos audioPacketsSent
       lastStatsReset rtspServerEnabled lastRtspClientConnectMs lastRtspPlayMs
       rtspConnectCount rtspPlayCount audio currentSampleRate currentGainFactor
       currentBufferSize i2sShiftBits i2s_16bit_buffer lastPeakAbs16 audioClipCount
       audioClippedLastBlock peakHoldAbs16 peakHoldUntilMs highpassEnabled
       highpassCutoffHz hpf hpfConfigSampleRate hpfConfigCutoff diag maxPacketRate
       minPacketRate autoRecoveryEnabled autoThresholdEnabled scheduledFactoryReset
       scheduledRebootAt bootTime lastI2SReset scheduledResetEnabled
       resetIntervalHours minAcceptableRate performanceCheckInterval thermal
       maxTemperature lastTemperatureC lastTemperatureValid
       overheatProtectionEnabled overheatShutdownC overheatLockoutActive
       overheatTripTemp overheatTriggeredAt overheatLastReason
       overheatLastTimestamp overheatSensorFault overheatLatched power
       wifiTxPowerDbm currentWifiPowerLevel cpuFrequencyMhz hw audioPrefs
       rtspServer rtspClient radioTxPower cpuMhz i2sInstalls espRestarts
       upd_session set_rtspSessionId set_isStreaming set_rtpSequence
       set_rtpTimestamp set_rtpSSRC set_lastRTSPActivity set_rtspParseBuffer
       set_rtspParseBufferPos set_audioPacketsSent set_lastStatsReset
       set_rtspServerEnabled set_lastRtspClientConnectMs set_lastRtspPlayMs
       set_rtspConnectCount set_rtspPlayCount upd_audio set_currentSampleRate
       set_currentGainFactor set_currentBufferSize set_i2sShiftBits
       set_i2s_16bit_buffer set_lastPeakAbs16 set_audioClipCount
       set_audioClippedLastBlock set_peakHoldAbs16 set_peakHoldUntilMs
       set_highpassEnabled set_highpassCutoffHz set_hpf set_hpfConfigSampleRate
       set_hpfConfigCutoff upd_diag set_maxPacketRate set_minPacketRate
       set_autoRecoveryEnabled set_autoThresholdEnabled set_scheduledFactoryReset
       set_scheduledRebootAt set_bootTime set_lastI2SReset
       set_scheduledResetEnabled set_resetIntervalHours set_minAcceptableRate
       set_performanceCheckInterval upd_thermal set_maxTemperature
       set_lastTemperatureC set_lastTemperatureValid set_overheatProtectionEnabled
       set_overheatShutdownC set_overheatLockoutActive set_overheatTripTemp
       set_overheatTriggeredAt set_overheatLastReason set_overheatLastTimestamp
       set_overheatSensorFault set_overheatLatched upd_power set_wifiTxPowerDbm
       set_currentWifiPowerLevel set_cpuFrequencyMhz upd_hw set_audioPrefs
       set_rtspServer set_rtspClient set_radioTxPower set_cpuMhz set_i2sInstalls
       set_espRestarts
       putPref client_sent client_stop client_bool connected rxPending txSent] in *.

(** The same by call-by-value evaluation, which shares the intermediate
    states of a long chain of assignments; [f], [g] are the functions to
    open on the way. *)
Tactic Notation "sst_cbv" :=
  cbv beta iota zeta delta [session rtspSessionId isStreaming rtpSequence rtpTimestamp rtpSSRC
       lastRTSPActivity rtspParseBuffer rtspParseBufferPos audioPacketsSent
       lastStatsReset rtspServerEnabled lastRtspClientConnectMs lastRtspPlayMs
       rtspConnectCount rtspPlayCount audio currentSampleRate currentGainFactor
       currentBufferSize i2sShiftBits i2s_16bit_buffer lastPeakAbs16 audioClipCount
       audioClippedLastBlock peakHoldAbs16 peakHoldUntilMs highpassEnabled
       highpassCutoffHz hpf hpfConfigSampleRate hpfConfigCutoff diag maxPacketRate
       minPacketRate autoRecoveryEnabled autoThresholdEnabled scheduledFactoryReset
       scheduledRebootAt bootTime lastI2SReset scheduledResetEnabled
       resetIntervalHours minAcceptableRate performanceCheckInterval thermal
       maxTemperature lastTemperatureC lastTemperatureValid
       overheatProtectionEnabled overheatShutdownC overheatLockoutActive
       overheatTripTemp overheatTriggeredAt overheatLastReason
       overheatLastTimestamp overheatSensorFault overheatLatched power
       wifiTxPowerDbm currentWifiPowerLevel cpuFrequencyMhz hw audioPrefs
       rtspServer rtspClient radioTxPower cpuMhz i2sInstalls espRestarts
       upd_session set_rtspSessionId set_isStreaming set_rtpSequence
       set_rtpTimestamp set_rtpSSRC set_lastRTSPActivity set_rtspParseBuffer
       set_rtspParseBufferPos set_audioPacketsSent set_lastStatsReset
       set_rtspServerEnabled set_lastRtspClientConnectMs set_lastRtspPlayMs
       set_rtspConnectCount set_rtspPlayCount upd_audio set_currentSampleRate
       set_currentGainFactor set_currentBufferSize set_i2sShiftBits
       set_i2s_16bit_buffer set_lastPeakAbs16 set_audioClipCount
       set_audioClippedLastBlock set_peakHoldAbs16 set_peakHoldUntilMs
       set_highpassEnabled set_highpassCutoffHz set_hpf set_hpfConfigSampleRate
       set_hpfConfigCutoff upd_diag set_maxPacketRate set_minPacketRate
       set_autoRecoveryEnabled set_autoThresholdEnabled set_scheduledFactoryReset
       set_scheduledRebootAt set_bootTime set_lastI2SReset
       set_scheduledResetEnabled set_resetIntervalHours set_minAcceptableRate
       set_performanceCheckInterval upd_thermal set_maxTemperature
       set_lastTemperatureC set_lastTemperatureValid set_overheatProtectionEnabled
       set_overheatShutdownC set_overheatLockoutActive set_overheatTripTemp
       set_overheatTriggeredAt set_overheatLastReason set_overheatLastTimestamp
       set_overheatSensorFault set_overheatLatched upd_power set_wifiTxPowerDbm
       set_currentWifiPowerLevel set_cpuFrequencyMhz upd_hw set_audioPrefs
       set_rtspServer set_rtspClient set_radioTxPower set_cpuMhz set_i2sInstalls
       set_espRestarts
       putPref client_sent client_stop client_bool connected rxPending txSent] in *.
Tactic Notation "sst_cbv" reference(f) :=
  cbv beta iota zeta delta [f session rtspSessionId isStreaming rtpSequence rtpTimestamp rtpSSRC
       lastRTSPActivity rtspParseBuffer rtspParseBufferPos audioPacketsSent
       lastStatsReset rtspServerEnabled lastRtspClientConnectMs lastRtspPlayMs
       rtspConnectCount rtspPlayCount audio currentSampleRate currentGainFactor
       currentBufferSize i2sShiftBits i2s_16bit_buffer lastPeakAbs16 audioClipCount
       audioClippedLastBlock peakHoldAbs16 peakHoldUntilMs highpassEnabled
       highpassCutoffHz hpf hpfConfigSampleRate hpfConfigCutoff diag maxPacketRate
       minPacketRate autoRecoveryEnabled autoThresholdEnabled scheduledFactoryReset
       scheduledRebootAt bootTime lastI2SReset scheduledResetEnabled
       resetIntervalHours minAcceptableRate performanceCheckInterval thermal
       maxTemperature lastTemperatureC lastTemperatureValid
       overheatProtectionEnabled overheatShutdownC overheatLockoutActive
       overheatTripTemp overheatTriggeredAt overheatLastReason
       overheatLastTimestamp overheatSensorFault overheatLatched power
       wifiTxPowerDbm currentWifiPowerLevel cpuFrequencyMhz hw audioPrefs
       rtspServer rtspClient radioTxPower cpuMhz i2sInstalls espRestarts
       upd_session set_rtspSessionId set_isStreaming set_rtpSequence
       set_rtpTimestamp set_rtpSSRC set_lastRTSPActivity set_rtspParseBuffer
       set_rtspParseBufferPos set_audioPacketsSent set_lastStatsReset
       set_rtspServerEnabled set_lastRtspClientConnectMs set_lastRtspPlayMs
       set_rtspConnectCount set_rtspPlayCount upd_audio set_currentSampleRate
       set_currentGainFactor set_currentBufferSize set_i2sShiftBits
       set_i2s_16bit_buffer set_lastPeakAbs16 set_audioClipCount
       set_audioClippedLastBlock set_peakHoldAbs16 set_peakHoldUntilMs
       set_highpassEnabled set_highpassCutoffHz set_hpf set_hpfConfigSampleRate
       set_hpfConfigCutoff upd_diag set_maxPacketRate set_minPacketRate
       set_autoRecoveryEnabled set_autoThresholdEnabled set_scheduledFactoryReset
       set_scheduledRebootAt set_bootTime set_lastI2SReset
       set_scheduledResetEnabled set_resetIntervalHours set_minAcceptableRate
       set_performanceCheckInterval upd_thermal set_maxTemperature
       set_lastTemperatureC set_lastTemperatureValid set_overheatProtectionEnabled
       set_overheatShutdownC set_overheatLockoutActive set_overheatTripTemp
       set_overheatTriggeredAt set_overheatLastReason set_overheatLastTimestamp
       set_overheatSensorFault set_overheatLatched upd_power set_wifiTxPowerDbm
       set_currentWifiPowerLevel set_cpuFrequencyMhz upd_hw set_audioPrefs
       set_rtspServer set_rtspClient set_radioTxPower set_cpuMhz set_i2sInstalls
       set_espRestarts
       putPref client_sent client_stop client_bool connected rxPending txSent] in *.
Tactic Notation "sst_cbv" reference(f) reference(g) :=
  cbv beta iota zeta delta [f g session rtspSessionId isStreaming rtpSequence rtpTimestamp rtpSSRC
       lastRTSPActivity rtspParseBuffer rtspParseBufferPos audioPacketsSent
       lastStatsReset rtspServerEnabled lastRtspClientConnectMs lastRtspPlayMs
       rtspConnectCount rtspPlayCount audio currentSampleRate currentGainFactor
       currentBufferSize i2sShiftBits i2s_16bit_buffer lastPeakAbs16 audioClipCount
       audioClippedLastBlock peakHoldAbs16 peakHoldUntilMs highpassEnabled
       highpassCutoffHz hpf hpfConfigSampleRate hpfConfigCutoff diag maxPacketRate
       minPacketRate autoRecoveryEnabled autoThresholdEnabled scheduledFactoryReset
       scheduledRebootAt bootTime lastI2SReset scheduledResetEnabled
       resetIntervalHours minAcceptableRate performanceCheckInterval thermal
       maxTemperature lastTemperatureC lastTemperatureValid
       overheatProtectionEnabled overheatShutdownC overheatLockoutActive
       overheatTripTemp overheatTriggeredAt overheatLastReason
       overheatLastTimestamp overheatSensorFault overheatLatched power
       wifiTxPowerDbm currentWifiPowerLevel cpuFrequencyMhz hw audioPrefs
       rtspServer rtspClient radioTxPower cpuMhz i2sInstalls espRestarts
       upd_session set_rtspSessionId set_isStreaming set_rtpSequence
       set_rtpTimestamp set_rtpSSRC set_lastRTSPActivity set_rtspParseBuffer
       set_rtspParseBufferPos set_audioPacketsSent set_lastStatsReset
       set_rtspServerEnabled set_lastRtspClientConnectMs set_lastRtspPlayMs
       set_rtspConnectCount set_rtspPlayCount upd_audio set_currentSampleRate
       set_currentGainFactor set_currentBufferSize set_i2sShiftBits
       set_i2s_16bit_buffer set_lastPeakAbs16 set_audioClipCount
       set_audioClippedLastBlock set_peakHoldAbs16 set_peakHoldUntilMs
       set_highpassEnabled set_highpassCutoffHz set_hpf set_hpfConfigSampleRate
       set_hpfConfigCutoff upd_diag set_maxPacketRate set_minPacketRate
       set_autoRecoveryEnabled set_autoThresholdEnabled set_scheduledFactoryReset
       set_scheduledRebootAt set_bootTime set_lastI2SReset
       set_scheduledResetEnabled set_resetIntervalHours set_minAcceptableRate
       set_performanceCheckInterval upd_thermal set_maxTemperature
       set_lastTemperatureC set_lastTemperatureValid set_overheatProtectionEnabled
       set_overheatShutdownC set_overheatLockoutActive set_overheatTripTemp
       set_overheatTriggeredAt set_overheatLastReason set_overheatLastTimestamp
       set_overheatSensorFault set_overheatLatched upd_power set_wifiTxPowerDbm
       set_currentWifiPowerLevel set_cpuFrequencyMhz upd_hw set_audioPrefs
       set_rtspServer set_rtspClient set_radioTxPower set_cpuMhz set_i2sInstalls
       set_espRestarts
       putPref client_sent client_stop client_bool connected rxPending txSent] in *.
Tactic Notation "sst_cbv" reference(f) reference(g) reference(h) :=
  cbv beta iota zeta delta [f g h session rtspSessionId isStreaming rtpSequence rtpTimestamp rtpSSRC
       lastRTSPActivity rtspParseBuffer rtspParseBufferPos audioPacketsSent
       lastStatsReset rtspServerEnabled lastRtspClientConnectMs lastRtspPlayMs
       rtspConnectCount rtspPlayCount audio currentSampleRate currentGainFactor
       currentBufferSize i2sShiftBits i2s_16bit_buffer lastPeakAbs16 audioClipCount
       audioClippedLastBlock peakHoldAbs16 peakHoldUntilMs highpassEnabled
       highpassCutoffHz hpf hpfConfigSampleRate hpfConfigCutoff diag maxPacketRate
       minPacketRate autoRecoveryEnabled autoThresholdEnabled scheduledFactoryReset
       scheduledRebootAt bootTime lastI2SReset scheduledResetEnabled
       resetIntervalHours minAcceptableRate performanceCheckInterval thermal
       maxTemperature lastTemperatureC lastTemperatureValid
       overheatProtectionEnabled overheatShutdownC overheatLockoutActive
       overheatTripTemp overheatTriggeredAt overheatLastReason
       overheatLastTimestamp overheatSensorFault overheatLatched power
       wifiTxPowerDbm currentWifiPowerLevel cpuFrequencyMhz hw audioPrefs
       rtspServer rtspClient radioTxPower cpuMhz i2sInstalls espRestarts
       upd_session set_rtspSessionId set_isStreaming set_rtpSequence
       set_rtpTimestamp set_rtpSSRC set_lastRTSPActivity set_rtspParseBuffer
       set_rtspParseBufferPos set_audioPacketsSent set_lastStatsReset
       set_rtspServerEnabled set_lastRtspClientConnectMs set_lastRtspPlayMs
       set_rtspConnectCount set_rtspPlayCount upd_audio set_currentSampleRate
       set_currentGainFactor set_currentBufferSize set_i2sShiftBits
       set_i2s_16bit_buffer set_lastPeakAbs16 set_audioClipCount
       set_audioClippedLastBlock set_peakHoldAbs16 set_peakHoldUntilMs
       set_highpassEnabled set_highpassCutoffHz set_hpf set_hpfConfigSampleRate
       set_hpfConfigCutoff upd_diag set_maxPacketRate set_minPacketRate
       set_autoRecoveryEnabled set_autoThresholdEnabled set_scheduledFactoryReset
       set_scheduledRebootAt set_bootTime set_lastI2SReset
       set_scheduledResetEnabled set_resetIntervalHours set_minAcceptableRate
       set_performanceCheckInterval upd_thermal set_maxTemperature
       set_lastTemperatureC set_lastTemperatureValid set_overheatProtectionEnabled
       set_overheatShutdownC set_overheatLockoutActive set_overheatTripTemp
       set_overheatTriggeredAt set_overheatLastReason set_overheatLastTimestamp
       set_overheatSensorFault set_overheatLatched upd_power set_wifiTxPowerDbm
       set_currentWifiPowerLevel set_cpuFrequencyMhz upd_hw set_audioPrefs
       set_rtspServer set_rtspClient set_radioTxPower set_cpuMhz set_i2sInstalls
       set_espRestarts
       putPref client_sent client_stop client_bool connected rxPending txSent] in *.
Tactic Notation "sst_cbv" reference(f) reference(g) reference(h) reference(k) :=
  cbv beta iota zeta delta [f g h k session rtspSessionId isStreaming rtpSequence rtpTimestamp rtpSSRC
       lastRTSPActivity rtspParseBuffer rtspParseBufferPos audioPacketsSent
       lastStatsReset rtspServerEnabled lastRtspClientConnectMs lastRtspPlayMs
       rtspConnectCount rtspPlayCount audio currentSampleRate currentGainFactor
       currentBufferSize i2sShiftBits i2s_16bit_buffer lastPeakAbs16 audioClipCount
       audioClippedLastBlock peakHoldAbs16 peakHoldUntilMs highpassEnabled
       highpassCutoffHz hpf hpfConfigSampleRate hpfConfigCutoff diag maxPacketRate
       minPacketRate autoRecoveryEnabled autoThresholdEnabled scheduledFactoryReset
       scheduledRebootAt bootTime lastI2SReset scheduledResetEnabled
       resetIntervalHours minAcceptableRate performanceCheckInterval thermal
       maxTemperature lastTemperatureC lastTemperatureValid
       overheatProtectionEnabled overheatShutdownC overheatLockoutActive
       overheatTripTemp overheatTriggeredAt overheatLastReason
       overheatLastTimestamp overheatSensorFault overheatLatched power
       wifiTxPowerDbm currentWifiPowerLevel cpuFrequencyMhz hw audioPrefs
       rtspServer rtspClient radioTxPower cpuMhz i2sInstalls espRestarts
       upd_session set_rtspSessionId set_isStreaming set_rtpSequence
       set_rtpTimestamp set_rtpSSRC set_lastRTSPActivity set_rtspParseBuffer
       set_rtspParseBufferPos set_audioPacketsSent set_lastStatsReset
       set_rtspServerEnabled set_lastRtspClientConnectMs set_lastRtspPlayMs
       set_rtspConnectCount set_rtspPlayCount upd_audio set_currentSampleRate
       set_currentGainFactor set_currentBufferSize set_i2sShiftBits
       set_i2s_16bit_buffer set_lastPeakAbs16 set_audioClipCount
       set_audioClippedLastBlock set_peakHoldAbs16 set_peakHoldUntilMs
       set_highpassEnabled set_highpassCutoffHz set_hpf set_hpfConfigSampleRate
       set_hpfConfigCutoff upd_diag set_maxPacketRate set_minPacketRate
       set_autoRecoveryEnabled set_autoThresholdEnabled set_scheduledFactoryReset
       set_scheduledRebootAt set_bootTime set_lastI2SReset
       set_scheduledResetEnabled set_resetIntervalHours set_minAcceptableRate
       set_performanceCheckInterval upd_thermal set_maxTemperature
       set_lastTemperatureC set_lastTemperatureValid set_overheatProtectionEnabled
       set_overheatShutdownC set_overheatLockoutActive set_overheatTripTemp
       set_overheatTriggeredAt set_overheatLastReason set_overheatLastTimestamp
       set_overheatSensorFault set_overheatLatched upd_power set_wifiTxPowerDbm
       set_currentWifiPowerLevel set_cpuFrequencyMhz upd_hw set_audioPrefs
       set_rtspServer set_rtspClient set_radioTxPower set_cpuMhz set_i2sInstalls
       set_espRestarts
       putPref client_sent client_stop client_bool connected rxPending txSent] in *.
Tactic Notation "sst_cbv" reference(f) reference(g) reference(h) reference(k) reference(m) :=
  cbv beta iota zeta delta [f g h k m session rtspSessionId isStreaming rtpSequence rtpTimestamp rtpSSRC
       lastRTSPActivity rtspParseBuffer rtspParseBufferPos audioPacketsSent
       lastStatsReset rtspServerEnabled lastRtspClientConnectMs lastRtspPlayMs
       rtspConnectCount rtspPlayCount audio currentSampleRate currentGainFactor
       currentBufferSize i2sShiftBits i2s_16bit_buffer lastPeakAbs16 audioClipCount
       audioClippedLastBlock peakHoldAbs16 peakHoldUntilMs highpassEnabled
       highpassCutoffHz hpf hpfConfigSampleRate hpfConfigCutoff diag maxPacketRate
       minPacketRate autoRecoveryEnabled autoThresholdEnabled scheduledFactoryReset
       scheduledRebootAt bootTime lastI2SReset scheduledResetEnabled
       resetIntervalHours minAcceptableRate performanceCheckInterval thermal
       maxTemperature lastTemperatureC lastTemperatureValid
       overheatProtectionEnabled overheatShutdownC overheatLockoutActive
       overheatTripTemp overheatTriggeredAt overheatLastReason
       overheatLastTimestamp overheatSensorFault overheatLatched power
       wifiTxPowerDbm currentWifiPowerLevel cpuFrequencyMhz hw audioPrefs
       rtspServer rtspClient radioTxPower cpuMhz i2sInstalls espRestarts
       upd_session set_rtspSessionId set_isStreaming set_rtpSequence
       set_rtpTimestamp set_rtpSSRC set_lastRTSPActivity set_rtspParseBuffer
       set_rtspParseBufferPos set_audioPacketsSent set_lastStatsReset
       set_rtspServerEnabled set_lastRtspClientConnectMs set_lastRtspPlayMs
       set_rtspConnectCount set_rtspPlayCount upd_audio set_currentSampleRate
       set_currentGainFactor set_currentBufferSize set_i2sShiftBits
       set_i2s_16bit_buffer set_lastPeakAbs16 set_audioClipCount
       set_audioClippedLastBlock set_peakHoldAbs16 set_peakHoldUntilMs
       set_highpassEnabled set_highpassCutoffHz set_hpf set_hpfConfigSampleRate
       set_hpfConfigCutoff upd_diag set_maxPacketRate set_minPacketRate
       set_autoRecoveryEnabled set_autoThresholdEnabled set_scheduledFactoryReset
       set_scheduledRebootAt set_bootTime set_lastI2SReset
       set_scheduledResetEnabled set_resetIntervalHours set_minAcceptableRate
       set_performanceCheckInterval upd_thermal set_maxTemperature
       set_lastTemperatureC set_lastTemperatureValid set_overheatProtectionEnabled
       set_overheatShutdownC set_overheatLockoutActive set_overheatTripTemp
       set_overheatTriggeredAt set_overheatLastReason set_overheatLastTimestamp
       set_overheatSensorFault set_overheatLatched upd_power set_wifiTxPowerDbm
       set_currentWifiPowerLevel set_cpuFrequencyMhz upd_hw set_audioPrefs
       set_rtspServer set_rtspClient set_radioTxPower set_cpuMhz set_i2sInstalls
       set_espRestarts
       putPref client_sent client_stop client_bool connected rxPending txSent] in *.

(** Reduction of projections that leaves every [let] in place. *)
Tactic Notation "sst_nz" :=
  cbv beta iota delta [negb andb orb fst snd session rtspSessionId isStreaming rtpSequence rtpTimestamp rtpSSRC
       lastRTSPActivity rtspParseBuffer rtspParseBufferPos audioPacketsSent
       lastStatsReset rtspServerEnabled lastRtspClientConnectMs lastRtspPlayMs
       rtspConnectCount rtspPlayCount audio currentSampleRate currentGainFactor
       currentBufferSize i2sShiftBits i2s_16bit_buffer lastPeakAbs16 audioClipCount
       audioClippedLastBlock peakHoldAbs16 peakHoldUntilMs highpassEnabled
       highpassCutoffHz hpf hpfConfigSampleRate hpfConfigCutoff diag maxPacketRate
       minPacketRate autoRecoveryEnabled autoThresholdEnabled scheduledFactoryReset
       scheduledRebootAt bootTime lastI2SReset scheduledResetEnabled
       resetIntervalHours minAcceptableRate performanceCheckInterval thermal
       maxTemperature lastTemperatureC lastTemperatureValid
       overheatProtectionEnabled overheatShutdownC overheatLockoutActive
       overheatTripTemp overheatTriggeredAt overheatLastReason
       overheatLastTimestamp overheatSensorFault overheatLatched power
       wifiTxPowerDbm currentWifiPowerLevel cpuFrequencyMhz hw audioPrefs
       rtspServer rtspClient radioTxPower cpuMhz i2sInstalls espRestarts
       upd_session set_rtspSessionId set_isStreaming set_rtpSequence
       set_rtpTimestamp set_rtpSSRC set_lastRTSPActivity set_rtspParseBuffer
       set_rtspParseBufferPos set_audioPacketsSent set_lastStatsReset
       set_rtspServerEnabled set_lastRtspClientConnectMs set_lastRtspPlayMs
       set_rtspConnectCount set_rtspPlayCount upd_audio set_currentSampleRate
       set_currentGainFactor set_currentBufferSize set_i2sShiftBits
       set_i2s_16bit_buffer set_lastPeakAbs16 set_audioClipCount
       set_audioClippedLastBlock set_peakHoldAbs16 set_peakHoldUntilMs
       set_highpassEnabled set_highpassCutoffHz set_hpf set_hpfConfigSampleRate
       set_hpfConfigCutoff upd_diag set_maxPacketRate set_minPacketRate
       set_autoRecoveryEnabled set_autoThresholdEnabled set_scheduledFactoryReset
       set_scheduledRebootAt set_bootTime set_lastI2SReset
       set_scheduledResetEnabled set_resetIntervalHours set_minAcceptableRate
       set_performanceCheckInterval upd_thermal set_maxTemperature
       set_lastTemperatureC set_lastTemperatureValid set_overheatProtectionEnabled
       set_overheatShutdownC set_overheatLockoutActive set_overheatTripTemp
       set_overheatTriggeredAt set_overheatLastReason set_overheatLastTimestamp
       set_overheatSensorFault set_overheatLatched upd_power set_wifiTxPowerDbm
       set_currentWifiPowerLevel set_cpuFrequencyMhz upd_hw set_audioPrefs
       set_rtspServer set_rtspClient set_radioTxPower set_cpuMhz set_i2sInstalls
       set_espRestarts
       putPref client_sent client_stop client_bool connected rxPending txSent].

(** Reduction of the projections of a state in one hypothesis. *)
Tactic Notation "sst_hyp" hyp(H) :=
  cbv beta iota delta [negb andb orb fst snd session rtspSessionId isStreaming rtpSequence rtpTimestamp rtpSSRC
       lastRTSPActivity rtspParseBuffer rtspParseBufferPos audioPacketsSent
       lastStatsReset rtspServerEnabled lastRtspClientConnectMs lastRtspPlayMs
       rtspConnectCount rtspPlayCount audio currentSampleRate currentGainFactor
       currentBufferSize i2sShiftBits i2s_16bit_buffer lastPeakAbs16 audioClipCount
       audioClippedLastBlock peakHoldAbs16 peakHoldUntilMs highpassEnabled
       highpassCutoffHz hpf hpfConfigSampleRate hpfConfigCutoff diag maxPacketRate
       minPacketRate autoRecoveryEnabled autoThresholdEnabled scheduledFactoryReset
       scheduledRebootAt bootTime lastI2SReset scheduledResetEnabled
       resetIntervalHours minAcceptableRate performanceCheckInterval thermal
       maxTemperature lastTemperatureC lastTemperatureValid
       overheatProtectionEnabled overheatShutdownC overheatLockoutActive
       overheatTripTemp overheatTriggeredAt overheatLastReason
       overheatLastTimestamp overheatSensorFault overheatLatched power
       wifiTxPowerDbm currentWifiPowerLevel cpuFrequencyMhz hw audioPrefs
       rtspServer rtspClient radioTxPower cpuMhz i2sInstalls espRestarts
       upd_session set_rtspSessionId set_isStreaming set_rtpSequence
       set_rtpTimestamp set_rtpSSRC set_lastRTSPActivity set_rtspParseBuffer
       set_rtspParseBufferPos set_audioPacketsSent set_lastStatsReset
       set_rtspServerEnabled set_lastRtspClientConnectMs set_lastRtspPlayMs
       set_rtspConnectCount set_rtspPlayCount upd_audio set_currentSampleRate
       set_currentGainFactor set_currentBufferSize set_i2sShiftBits
       set_i2s_16bit_buffer set_lastPeakAbs16 set_audioClipCount
       set_audioClippedLastBlock set_peakHoldAbs16 set_peakHoldUntilMs
       set_highpassEnabled set_highpassCutoffHz set_hpf set_hpfConfigSampleRate
       set_hpfConfigCutoff upd_diag set_maxPacketRate set_minPacketRate
       set_autoRecoveryEnabled set_autoThresholdEnabled set_scheduledFactoryReset
       set_scheduledRebootAt set_bootTime set_lastI2SReset
       set_scheduledResetEnabled set_resetIntervalHours set_minAcceptableRate
       set_performanceCheckInterval upd_thermal set_maxTemperature
       set_lastTemperatureC set_lastTemperatureValid set_overheatProtectionEnabled
       set_overheatShutdownC set_overheatLockoutActive set_overheatTripTemp
       set_overheatTriggeredAt set_overheatLastReason set_overheatLastTimestamp
       set_overheatSensorFault set_overheatLatched upd_power set_wifiTxPowerDbm
       set_currentWifiPowerLevel set_cpuFrequencyMhz upd_hw set_audioPrefs
       set_rtspServer set_rtspClient set_radioTxPower set_cpuMhz set_i2sInstalls
       set_espRestarts
       putPref client_sent client_stop client_bool connected rxPending txSent] in H.

(** All the globals of a state as variables of their own. *)
Ltac destruct_state st :=
  let se := fresh "se" in let au := fresh "au" in let di := fresh "di" in
  let th := fresh "th" in let po := fresh "po" in let h := fresh "h" in
  destruct st as [se au di th po h];
  destruct se, au, di, th, po, h;
  repeat match goal with c : WiFiClient |- _ => destruct c end.


(** The amplified samples of a block, in order: each raw sample shifted,
    filtered when the high-pass is on, and multiplied by the gain. *)
Fixpoint amplifiedSamples (shiftBits : Z) (hpOn : bool) (gain : f32)
         (q : Biquad) (raw : list Z) : list f32 :=
  match raw with
  | [] => []
  | r :: rest =>
      let sample := F32.of_Z (Z.shiftr r shiftBits) in
      let '(q, sample) := if hpOn then Biquad_process q sample else (q, sample) in
      (sample * gain)%f32 :: amplifiedSamples shiftBits hpOn gain q rest
  end.

(** The 16-bit sample stored for an amplified value. *)
Definition saturate16 (amplified : f32) : Z :=
  let amplified := if (amplified >? F32.of_Z 32767)%f32 then F32.of_Z 32767 else amplified in
  let amplified := if (amplified <? F32.of_Z (-32768))%f32 then F32.of_Z (-32768) else amplified in
  i16 (F32.trunc amplified).

(** The magnitude of an amplified sample exceeds 32767. *)
Definition exceeds16 (amplified : f32) : bool :=
  (F32.fabsf amplified >? F32.of_Z 32767)%f32.

(** The amplified samples of the block [streamAudio] is about to process
    in state [st]: the filter is the one in force after the staleness
    test. *)
Definition blockAmplified {P : Platform} (st : State) (raw : list Z) : list f32 :=
  let st1 := if hpfStale st then updateHighpassCoeffs st else st in
  amplifiedSamples (i2sShiftBits st) (highpassEnabled st) (currentGainFactor st)
                   (hpf st1) raw.

(** A state with a connected client that has been told to play. *)
Definition playingState : State :=
  set_isStreaming true
    (set_rtspClient {| connected := true; rxPending := []; txSent := [] |}
       (initialState ∅)).

(** [f] holds of the [n] integers from [lo] on. *)
Fixpoint allFrom (lo : Z) (n : nat) (f : Z -> bool) : bool :=
  match n with
  | O => true
  | S n' => f lo && allFrom (lo + 1) n' f
  end.


(** The ring after the first statement of [httpSet]: the request is in
    the log when its value is not empty. *)
Definition httpSetLogged (key : string) (value : option string) (log : LogRing) : LogRing :=
  if negb (String.length (argValue value) =? 0)%nat
  then webui_pushLog ("UI set: " +:+ key +:+ "=" +:+ argValue value) log else log.


(** The device after a first boot on empty flash, at 40 degrees. *)
Definition bootState : State :=
  setup (P:=refPlatform) 1000 12345 (F32.of_Z 40) (initialState ∅).

(** Case analysis on the condition of an innermost [if]. *)
Ltac case_if :=
  match goal with
  | |- context [if ?c then _ else _] =>
      lazymatch c with
      | context [if _ then _ else _] => fail
      | _ => destruct c eqn:?
      end
  end.

(** The device after boot with an RTSP client connected. *)
Definition connectedState : State :=
  set_rtspClient {| connected := true; rxPending := []; txSent := [] |} bootState.

(** The fields of the session that a request can change: verb-driven
    state, session id, sequence number and timestamp. *)
Definition sessionCore (st : State) : bool * string * Z * Z :=
  (isStreaming st, rtspSessionId st, rtpSequence st, rtpTimestamp st).

(** The absolute difference the scan of [snapWifiTxDbm] computes. *)
Definition dbmDistance (dbm step : f32) : f32 := F32.fabsf (dbm - step)%f32.

(** Entry [i] of the table, of value [b], is the nearest to [dbm] by
    computed difference and the first such: no entry is strictly nearer,
    and no earlier entry is as near. *)
Definition nearestFirst (dbm : f32) (table : list f32) (i : nat) (b : f32) : Prop :=
  table !! i = Some b /\
  (forall (j : nat) (s : f32),
      table !! j = Some s -> (dbmDistance dbm s <? dbmDistance dbm b)%f32 = false) /\
  (forall (j : nat) (s : f32),
      (j < i)%nat -> table !! j = Some s ->
      (dbmDistance dbm s <=? dbmDistance dbm b)%f32 = false).

(** The levels of the radio in the order of the table of steps. *)
Definition wifiTxLevels : list wifi_power_t :=
  [WIFI_POWER_MINUS_1dBm; WIFI_POWER_2dBm; WIFI_POWER_5dBm; WIFI_POWER_7dBm;
   WIFI_POWER_8_5dBm; WIFI_POWER_11dBm; WIFI_POWER_13dBm; WIFI_POWER_15dBm;
   WIFI_POWER_17dBm; WIFI_POWER_18_5dBm; WIFI_POWER_19dBm; WIFI_POWER_19_5dBm].

(** ** The supervisors of [loop()] *)

(** [checkPerformance]: [now] is [millis()], [heap] what
    [ESP.getFreeHeap()] returns, [allocOk] the outcome of the allocation
    in [restartI2S].  The low-water mark of the heap is a global of its
    own and is returned beside the state. *)
Definition checkPerformance {P : Platform} (allocOk : bool) (now heap : Z) (minFreeHeap : Z)
           (st : State) : Call (State * Z) :=
  let minFreeHeap := if heap <? minFreeHeap then heap else minFreeHeap in
  callBind (
    if isStreaming st && (30000 <? u32 (now - lastStatsReset st)) then
      let runtime := u32 (now - lastStatsReset st) in
      let currentRate := u32 (audioPacketsSent st * 1000) / runtime in
      let st := if maxPacketRate st <? currentRate
                then set_maxPacketRate currentRate st else st in
      let st := if currentRate <? minPacketRate st
                then set_minPacketRate currentRate st else st in
      if currentRate <? minAcceptableRate st then
        if autoRecoveryEnabled st then
          callBind (restartI2S allocOk st) (fun st =>
          let st := set_audioPacketsSent 0 st in
          let st := set_lastStatsReset now st in
          Returns (set_lastI2SReset now st))
        else Returns st
      else Returns st
    else Returns st) (fun st =>
  Returns (st, minFreeHeap)).

(** [checkScheduledReset]: [now] is [millis()]; when the reset is due the
    device restarts, and [bootNow], [ssrc] and [initialTemp] are what
    [setup()] then reads. *)
Definition checkScheduledReset {P : Platform} (now bootNow ssrc : Z) (initialTemp : f32)
           (st : State) : State :=
  if negb (scheduledResetEnabled st) then st
  else
    let uptimeHours := u32 (now - bootTime st) / 3600000 in
    if resetIntervalHours st <=? uptimeHours
    then restart bootNow ssrc initialTemp st
    else st.

(** [formatSince]; [now] is [millis()]. *)
Definition formatSince (now eventMs : Z) : string :=
  if eventMs =? 0 then "never"
  else
    let seconds := u32 (now - eventMs) / 1000 in
    formatUptime seconds +:+ " ago".

(** ** Web module: the log reply and the text helpers *)

(** The loop of [httpLogs] from index [i] on, [n] rounds, appending to
    [out]. *)
Fixpoint httpLogsFrom (r : LogRing) (i : Z) (n : nat) (out : string) : string :=
  match n with
  | O => out
  | S n' =>
      let idx := u32 (logHead r + LOG_CAP - logCount r + i) mod LOG_CAP in
      let out := out +:+ default EmptyString (logBuffer r !! Z.to_nat idx) in
      let out := out +:+ LF in
      httpLogsFrom r (i + 1) n' out
  end.

(** [httpLogs]: the body of the reply. *)
Definition httpLogs (r : LogRing) : string :=
  httpLogsFrom r 0 (Z.to_nat (logCount r)) EmptyString.

(** [jsonEscape]: the loop over the characters of [s], appending to [o]. *)
Fixpoint jsonEscapeFrom (s : string) (o : string) : string :=
  match s with
  | EmptyString => o
  | String c rest =>
      if Ascii.eqb c "034" || Ascii.eqb c "092" then
        jsonEscapeFrom rest ((o +:+ String "092" EmptyString) +:+ String c EmptyString)
      else if Ascii.eqb c "010" then
        jsonEscapeFrom rest (o +:+ String "092" (String "n" EmptyString))
      else jsonEscapeFrom rest (o +:+ String c EmptyString)
  end.

Definition jsonEscape (s : string) : string := jsonEscapeFrom s EmptyString.

(** [profileName] *)
Definition profileName (buf : Z) : string :=
  if buf <=? 256 then "Ultra-Low Latency (Higher CPU, May have dropouts)"
  else if buf <=? 512 then "Balanced (Moderate CPU, Good stability)"
  else if buf <=? 1024 then "Stable Streaming (Lower CPU, Excellent stability)"
  else "High Stability (Lowest CPU, Maximum stability)".

(** ** What can happen to the device

    The things that run between two temperature samples: the handlers of
    the web module, the supervisors, the RTSP part and the end of
    [loop()], a restart.  An event carries the inputs its code reads;
    where the code can end in [ESP.restart()], [bootNow], [ssrc] and
    [initialTemp] are what [setup()] then reads. *)
Inductive Event :=
| EvTemperature (now : Z) (temp : f32)
| EvHttpSet (allocOk : bool) (key : string) (value : option string) (log : LogRing)
            (bootNow ssrc : Z) (initialTemp : f32)
| EvServerStart
| EvServerStop
| EvResetI2S (allocOk : bool) (bootNow ssrc : Z) (initialTemp : f32)
| EvThermalClear
| EvRebootRequest (now : Z)
| EvFactoryResetRequest (now : Z)
| EvLoopEnd (now ssrc : Z) (initialTemp : f32)
| EvRestart (now ssrc : Z) (initialTemp : f32)
| EvWiFiCheck
| EvPerformanceCheck (allocOk : bool) (now heap minFreeHeap : Z)
                     (bootNow ssrc : Z) (initialTemp : f32)
| EvScheduledResetCheck (now bootNow ssrc : Z) (initialTemp : f32)
| EvRtsp (now : Z) (ip : string) (rnd : Z) (incoming : option WiFiClient)
         (arrived : list Z) (readOk : bool) (raw ws : list Z).

(** The state the sketch goes on with after a call: the one returned,
    or the one [setup()] builds after the restart. *)
Definition afterCall {P : Platform} {A : Type} (proj : A -> State)
           (bootNow ssrc : Z) (initialTemp : f32) (c : Call A) : State :=
  match c with
  | Returns a => proj a
  | Restarts st => restart bootNow ssrc initialTemp st
  end.

Definition step {P : Platform} (ev : Event) (st : State) : Run State :=
  match ev with
  | EvTemperature now temp => Ok (checkTemperature now temp st)
  | EvHttpSet allocOk key value log bootNow ssrc initialTemp =>
      Ok (afterCall (fun r => fst (fst r)) bootNow ssrc initialTemp
                    (httpSet allocOk key value log st))
  | EvServerStart => Ok (fst (httpActionServerStart st))
  | EvServerStop => Ok (fst (httpActionServerStop st))
  | EvResetI2S allocOk bootNow ssrc initialTemp =>
      Ok (afterCall fst bootNow ssrc initialTemp (httpActionResetI2S allocOk st))
  | EvThermalClear => Ok (fst (httpThermalClear st))
  | EvRebootRequest now => Ok (fst (httpActionReboot now st))
  | EvFactoryResetRequest now => Ok (fst (httpActionFactoryReset now st))
  | EvLoopEnd now ssrc initialTemp => Ok (loopDeferredReboot now ssrc initialTemp st)
  | EvRestart now ssrc initialTemp => Ok (restart now ssrc initialTemp st)
  | EvWiFiCheck => Ok (applyWifiTxPower st)
  | EvPerformanceCheck allocOk now heap minFreeHeap bootNow ssrc initialTemp =>
      Ok (afterCall fst bootNow ssrc initialTemp
                    (checkPerformance allocOk now heap minFreeHeap st))
  | EvScheduledResetCheck now bootNow ssrc initialTemp =>
      Ok (checkScheduledReset now bootNow ssrc initialTemp st)
  | EvRtsp now ip rnd incoming arrived readOk raw ws =>
      let st := if connected (rtspClient st) then client_receive arrived st else st in
      loopRtsp now ip rnd incoming readOk raw ws st
  end.

Fixpoint run {P : Platform} (evs : list Event) (st : State) : Run State :=
  match evs with
  | [] => Ok st
  | ev :: rest =>
      match step ev st with
      | Ok st => run rest st
      | OutOfBounds => OutOfBounds
      end
  end.

(** An invariant of the state holds whichever way a call ends: of the
    state it returns, or of the state the device restarts from. *)
Definition callInv {A : Type} (I : State -> Prop) (proj : A -> State) (c : Call A) : Prop :=
  match c with
  | Returns a => I (proj a)
  | Restarts st => I st
  end.

(** The operations that wipe the thermal record: the acknowledgement of
    the latch, and the factory reset, which restores every setting. *)
Definition clearsLatch (ev : Event) : bool :=
  match ev with
  | EvThermalClear | EvFactoryResetRequest _ => true
  | _ => false
  end.

(** The persisted latch is set, in RAM and in flash, and serving is off:
    the server is disabled and not listening, nothing is streaming and no
    client is connected.  No factory reset is pending. *)
Definition latchedOff (st : State) : Prop :=
  overheatLatched st = true /\
  audioPrefs st !! "ohLatched" = Some (PBool true) /\
  rtspServerEnabled st = false /\
  rtspServer st = false /\
  isStreaming st = false /\
  connected (rtspClient st) = false /\
  scheduledFactoryReset st = false.

(** The trip of the device [st0] at time [now] and temperature [temp] is
    on record in [st]: the temperature and the time in RAM, the uptime
    stamp and the reason as [recordOverheatTrip] words them in RAM, and
    the temperature, the stamp and the reason in flash. *)
Definition tripRecorded {P : Platform} (now : Z) (temp : f32) (st0 st : State) : Prop :=
  overheatTripTemp st = temp /\
  overheatTriggeredAt st = now /\
  overheatLastTimestamp st = formatUptime (u32 (now - bootTime st0) / 1000) /\
  overheatLastReason st
  = "Thermal shutdown: " +:+ String_float temp 1 +:+ " C reached (limit "
    +:+ String_float (overheatShutdownC st0) 1
    +:+ " C). Stream disabled; acknowledge in UI." /\
  audioPrefs st !! "ohTripC" = Some (PFloat temp) /\
  audioPrefs st !! "ohStamp" = Some (PString (overheatLastTimestamp st)) /\
  audioPrefs st !! "ohReason" = Some (PString (overheatLastReason st)).

(** The device as a power-up finds it when the flash holds the thermal
    latch: nothing is served yet and no factory reset is pending. *)
Definition poweredUpLatched (st : State) : Prop :=
  audioPrefs st !! "ohLatched" = Some (PBool true) /\
  rtspServer st = false /\
  isStreaming st = false /\
  connected (rtspClient st) = false /\
  scheduledFactoryReset st = false.

(** What [latchedOff] reads of a state. *)
Definition latchView (st : State)
  : bool * option PrefVal * bool * bool * bool * bool * bool :=
  (overheatLatched st, audioPrefs st !! "ohLatched", rtspServerEnabled st,
   rtspServer st, isStreaming st, connected (rtspClient st), scheduledFactoryReset st).

(** The parse buffer once [processRTSP] has copied the waiting bytes in, in
    the case where they fit: the bytes before the position, the new
    bytes, and whatever the array held behind them. *)
Definition bufferAfterRead (st : State) : list Z :=
  let data := rxPending (rtspClient st) in
  take (Z.to_nat (rtspParseBufferPos st)) (rtspParseBuffer st) ++ data
  ++ drop (Z.to_nat (rtspParseBufferPos st) + length data) (rtspParseBuffer st).

(** The device after a first complete request, [AB] followed by three
    line ends, has been received and handled. *)
Definition afterFirstRequest : State :=
  match processChunks 2000 "10.0.0.2" 123456789
                      [[65; 66; 13; 10; 13; 10; 13; 10]] connectedState with
  | Ok st => st
  | OutOfBounds => connectedState
  end.

(** The fixed header of an RTP packet as a receiver reads it (RFC 3550,
    section 5.1): version, payload type, sequence number, timestamp and
    synchronisation source, the multi-byte fields in network order. *)
Definition be16 (b1 b0 : Z) : Z := b1 * 256 + b0.
Definition be32 (b3 b2 b1 b0 : Z) : Z := ((b3 * 256 + b2) * 256 + b1) * 256 + b0.

Definition parseRtpHeader (h : list Z) : option (Z * Z * Z * Z * Z) :=
  match h with
  | [v; pt; s1; s0; t3; t2; t1; t0; r3; r2; r1; r0] =>
      Some (Z.shiftr v 6, Z.land pt 127, be16 s1 s0, be32 t3 t2 t1 t0, be32 r3 r2 r1 r0)
  | _ => None
  end.

(** A sample as two bytes in network order. *)
Definition bigEndianSample (s : Z) : list Z := [u16 s / 256; u16 s mod 256].

(** The settings [loadAudioSettings] restores from flash. *)
Definition settingsView (st : State)
  : Z * f32 * Z * Z * bool * bool * Z * Z * Z * bool * Z * f32 * bool * Z * bool * f32 * bool :=
  (currentSampleRate st, currentGainFactor st, currentBufferSize st, i2sShiftBits st,
   autoRecoveryEnabled st, scheduledResetEnabled st, resetIntervalHours st,
   minAcceptableRate st, performanceCheckInterval st, autoThresholdEnabled st,
   cpuFrequencyMhz st, wifiTxPowerDbm st, highpassEnabled st, highpassCutoffHz st,
   overheatProtectionEnabled st, overheatShutdownC st, overheatLatched st).

(** The settings a device comes up with after [saveAudioSettings] ran in
    state [st]: the threshold is recomputed in auto mode, and the limit
    is the stored whole number of degrees, clamped and rounded down to
    the step. *)
Definition savedSettings (st : State)
  : Z * f32 * Z * Z * bool * bool * Z * Z * Z * bool * Z * f32 * bool * Z * bool * f32 * bool :=
  (currentSampleRate st, currentGainFactor st, currentBufferSize st, i2sShiftBits st,
   autoRecoveryEnabled st, scheduledResetEnabled st, resetIntervalHours st,
   (if autoThresholdEnabled st then computeRecommendedMinRate st else minAcceptableRate st),
   performanceCheckInterval st, autoThresholdEnabled st,
   cpuFrequencyMhz st, wifiTxPowerDbm st, highpassEnabled st, highpassCutoffHz st,
   overheatProtectionEnabled st,
   F32.of_Z (quantizeOverheatLimit
               (u32 (F32.trunc (overheatShutdownC st + F32.of_ratio 1 2)%f32))),
   overheatLatched st).

Definition hasSettings
           (c : Z * f32 * Z * Z * bool * bool * Z * Z * Z * bool * Z * f32 * bool * Z * bool
                * f32 * bool) (st : State) : Prop :=
  settingsView st = c.

(** The flash holds what [saveAudioSettings] wrote in state [st0]. *)
Definition flashSavedFrom (st0 : State) (st : State) : Prop :=
  audioPrefs st = audioPrefs (saveAudioSettings st0).

(** What a boot decides: the settings, and whether the server is enabled
    and open. *)
Definition bootView (st : State)
  : (Z * f32 * Z * Z * bool * bool * Z * Z * Z * bool * Z * f32 * bool * Z * bool * f32 * bool)
    * bool * bool :=
  (settingsView st, rtspServerEnabled st, rtspServer st).

Definition bootViewIs
           (v : (Z * f32 * Z * Z * bool * bool * Z * Z * Z * bool * Z * f32 * bool * Z * bool
                 * f32 * bool) * bool * bool) (st : State) : Prop :=
  bootView st = v.

(** The settings of the sketch's initializers and of
    [resetToDefaultSettings]; 33 is the recommended threshold for 48000 Hz
    and 1024 samples. *)
Definition defaultSettings
  : Z * f32 * Z * Z * bool * bool * Z * Z * Z * bool * Z * f32 * bool * Z * bool * f32 * bool :=
  (DEFAULT_SAMPLE_RATE, DEFAULT_GAIN_FACTOR, DEFAULT_BUFFER_SIZE, 12,
   true, false, 24, 33, 15, true, 160, DEFAULT_WIFI_TX_DBM,
   DEFAULT_HPF_ENABLED, DEFAULT_HPF_CUTOFF_HZ,
   DEFAULT_OVERHEAT_PROTECTION, F32.of_Z DEFAULT_OVERHEAT_LIMIT_C, false).

(** The ring after the lines have been pushed in order. *)
Definition pushAll (lines : list string) (r : LogRing) : LogRing :=
  fold_left (fun r line => webui_pushLog line r) lines r.

(** The lines one after the other, each followed by a line feed. *)
Fixpoint renderLog (lines : list string) : string :=
  match lines with
  | [] => EmptyString
  | line :: rest => line +:+ LF +:+ renderLog rest
  end.

(** The ring holds the last lines pushed, at most [LOG_CAP] of them, line
    number [j] in slot [j mod LOG_CAP]. *)
Definition ringHolds (lines : list string) (r : LogRing) : Prop :=
  length (logBuffer r) = Z.to_nat LOG_CAP /\
  logHead r = Z.of_nat (length lines) mod LOG_CAP /\
  logCount r = Z.min (Z.of_nat (length lines)) LOG_CAP /\
  forall j : nat,
    Z.of_nat (length lines) - LOG_CAP <= Z.of_nat j < Z.of_nat (length lines) ->
    logBuffer r !! Z.to_nat (Z.of_nat j mod LOG_CAP) = lines !! j.

(** No double quote of [s] stands bare: each one is the character that
    follows a backslash which is not itself escaped. *)
Fixpoint quotesEscaped (s : string) : bool :=
  match s with
  | EmptyString => true
  | String c r =>
      if Ascii.eqb c "092" then
        match r with
        | EmptyString => false
        | String _ r' => quotesEscaped r'
        end
      else if Ascii.eqb c "034" then false
      else quotesEscaped r
  end.

(** [s] contains no line feed. *)
Fixpoint noLineFeed (s : string) : bool :=
  match s with
  | EmptyString => true
  | String c r => negb (Ascii.eqb c "010") && noLineFeed r
  end.

(** *** Symbolic execution of a chain of assignments

    A goal [chain = r -> G] is taken apart from the head of the chain: an
    assignment introduces its variable, a conditional gives two cases,
    and a finished right-hand side is evaluated and substituted. *)

Lemma exec_let {A B : Type} (e : A) (b : A -> B) (r : B) (G : Prop) :
  (forall x : A, e = x -> b x = r -> G) -> (let x := e in b x) = r -> G.
Proof. intros H. exact (H e eq_refl). Qed.

Lemma exec_cond {B : Type} (c : bool) (t e : B) (r : B) (G : Prop) :
  (c = true -> t = r -> G) -> (c = false -> e = r -> G) ->
  (if c then t else e) = r -> G.
Proof. destruct c; auto. Qed.

Lemma exec_let_fst {A B C : Type} (e : A) (b : A -> B * C) (r : B) (G : Prop) :
  (forall x : A, e = x -> fst (b x) = r -> G) -> fst (let x := e in b x) = r -> G.
Proof. intros H. exact (H e eq_refl). Qed.

Lemma exec_option {A B : Type} (o : option A) (t : A -> B) (e r : B) (G : Prop) :
  (forall v : A, o = Some v -> t v = r -> G) -> (o = None -> e = r -> G) ->
  match o with Some v => t v | None => e end = r -> G.
Proof. destruct o; eauto. Qed.

(** Use what is known about the conditions met so far in [Hc]. *)
Ltac rewrite_known Hc :=
  repeat match goal with
         | H : ?c = true |- _ =>
             tryif constr_eq H Hc then fail else rewrite H in Hc
         | H : ?c = false |- _ =>
             tryif constr_eq H Hc then fail else rewrite H in Hc
         end.

Ltac exec_head :=
  lazymatch goal with
  | |- (let x := ?e in @?b x) = ?r -> ?G =>
      (let HH := fresh in pose proof (exec_let e b r G) as HH; apply HH; clear HH); intro; cbv beta
  | |- fst (let x := ?e in @?b x) = ?r -> ?G =>
      (let HH := fresh in pose proof (exec_let_fst e b r G) as HH; apply HH; clear HH); intro; cbv beta
  | |- match ?o with Some v => @?t v | None => ?e end = ?r -> ?G =>
      (let HH := fresh in pose proof (exec_option o t e r G) as HH; apply HH; clear HH); [intros ? ?; cbv beta | intros ?]
  | |- (if ?c then ?t else ?e) = ?r -> ?G =>
      (let HH := fresh in pose proof (exec_cond c t e r G) as HH; apply HH; clear HH);
      (let Hc := fresh "Hc" in
       intro Hc; sst_hyp Hc; rewrite_known Hc; sst_hyp Hc;
       try discriminate Hc)
  | |- _ = ?r -> _ =>
      let H := fresh "H" in
      intro H; sst_hyp H; subst r
  end.

Ltac exec := repeat exec_head.


Lemma writeAll_sent ws : forall c data off ok ws' c',
  0 <= off ->
  writeAll ws c data off = (ok, ws', c') ->
  connected c' = connected c /\ rxPending c' = rxPending c /\
  exists n : nat,
    txSent c' = txSent c ++ take n (drop (Z.to_nat off) data) /\
    (if ok then Z.of_nat (length data) <= off + Z.of_nat n
     else off + Z.of_nat n < Z.of_nat (length data)).
Proof.
  induction ws as [|w ws IH]; intros c data off ok ws' c' Hoff Hw.
  - cbn in Hw. destruct (off <? Z.of_nat (length data)) eqn:E; inversion Hw; subst;
      (split; [reflexivity|split; [reflexivity|]]); exists 0%nat;
      rewrite take_0, app_nil_r; split; auto; lia.
  - cbn [writeAll] in Hw. destruct (off <? Z.of_nat (length data)) eqn:E.
    + destruct (w <=? 0) eqn:Ew.
      * inversion Hw; subst. split; [reflexivity|split; [reflexivity|]].
        exists 0%nat. rewrite take_0, app_nil_r. split; auto. lia.
      * apply IH in Hw; [|lia]. destruct Hw as (Hc & Hr & n & Ht & Hn).
        cbn [client_sent connected rxPending txSent] in *.
        split; [exact Hc|split; [exact Hr|]].
        exists (Z.to_nat w + n)%nat. split.
        -- rewrite Ht, <- app_assoc. f_equal.
           rewrite <- take_take_drop. f_equal. f_equal.
           rewrite drop_drop. f_equal. lia.
        -- destruct ok; lia.
    + inversion Hw; subst. split; [reflexivity|split; [reflexivity|]].
      exists 0%nat. rewrite take_0, app_nil_r. split; auto. lia.
Qed.

(** A short segment means that fewer bytes than the segment holds went
    out, a whole one that all of them did. *)
Lemma segmentShort_fewer_bytes ws c data ws' c' :
  writeAll ws c data 0 = (false, ws', c') ->
  exists n : nat, (n < length data)%nat /\ txSent c' = txSent c ++ take n data.
Proof.
  intros Hw. apply writeAll_sent in Hw; [|lia].
  destruct Hw as (_ & _ & n & Ht & Hn). exists n. split; [lia|exact Ht].
Qed.

Lemma segmentWhole_all_bytes ws c data ws' c' :
  writeAll ws c data 0 = (true, ws', c') -> txSent c' = txSent c ++ data.
Proof.
  intros Hw. apply writeAll_sent in Hw; [|lia].
  destruct Hw as (_ & _ & n & Ht & Hn). rewrite Ht. f_equal.
  cbn. apply take_ge. lia.
Qed.

Lemma SegmentFault_writeSegments ws c inter header payload :
  SegmentFault ws c inter header payload <->
  fst (fst (writeSegments ws c inter header payload)) = false.
Proof.
  unfold writeSegments, segmentShort. split.
  - intros [H1 | ws1 c1 H1 H2 | ws1 c1 ws2 c2 H1 H2 H3]; unfold segmentShort in *.
    + destruct (writeAll ws c inter 0) as [[ok ws1] c1]. cbn in H1. subst. reflexivity.
    + rewrite H1. cbn. destruct (writeAll ws1 c1 header 0) as [[ok ws2] c2].
      cbn in H2. subst. reflexivity.
    + rewrite H1. cbn. rewrite H2. cbn. exact H3.
  - destruct (writeAll ws c inter 0) as [[ok1 ws1] c1] eqn:E1.
    destruct ok1; cbn; [|intros _; apply fault_framing; unfold segmentShort; now rewrite E1].
    destruct (writeAll ws1 c1 header 0) as [[ok2 ws2] c2] eqn:E2.
    destruct ok2; cbn.
    + intros H3. eapply fault_payload; eauto.
    + intros _. eapply fault_header; eauto. unfold segmentShort. now rewrite E2.
Qed.

(** What a failed send leaves behind. *)
Lemma sendRTPPacket_fault (ws audioData : list Z) (numSamples : Z) (st : State) :
  connected (rtspClient st) = true ->
  fst (fst (writeSegments ws (rtspClient st) (rtpInterleaved (rtpPacketSize numSamples))
              (rtpHeader st)
              (rtpPayload numSamples (swapSamples numSamples audioData)))) = false ->
  let st' := fst (fst (sendRTPPacket ws audioData numSamples st)) in
  isStreaming st' = false /\
  espRestarts st' = espRestarts st /\
  rtpSequence st' = rtpSequence st /\
  rtpTimestamp st' = rtpTimestamp st /\
  audioPacketsSent st' = audioPacketsSent st.
Proof.
  intros Hc Hf. unfold sendRTPPacket. rewrite Hc. cbn [negb].
  destruct (writeSegments _ _ _ _ _) as [[ok ws'] c'].
  cbn in Hf. subst ok. cbn. repeat split.
Qed.

(** C5.  When the client is connected and one of the three segments of a
    packet (framing, header, payload) is written short, [sendRTPPacket]
    clears the streaming flag, does not restart the device, and leaves the
    sequence number, the timestamp and the count of packets sent as they
    were before the call. *)
Theorem sendRTPPacket_short_write_stops_streaming :
  forall (ws audioData : list Z) (numSamples : Z) (st : State),
    connected (rtspClient st) = true ->
    SegmentFault ws (rtspClient st) (rtpInterleaved (rtpPacketSize numSamples))
                 (rtpHeader st)
                 (rtpPayload numSamples (swapSamples numSamples audioData)) ->
    let st' := fst (fst (sendRTPPacket ws audioData numSamples st)) in
    isStreaming st' = false /\
    espRestarts st' = espRestarts st /\
    rtpSequence st' = rtpSequence st /\
    rtpTimestamp st' = rtpTimestamp st /\
    audioPacketsSent st' = audioPacketsSent st.
Proof.
  intros ws audioData numSamples st Hc Hf.
  apply SegmentFault_writeSegments in Hf.
  now apply sendRTPPacket_fault.
Qed.

(** Three segments, the third cut off by the socket: the framing (4 bytes)
    and the header (12 bytes) go out, the first write of the payload
    returns 0. *)
Lemma sendRTPPacket_short_write_witness :
  let st' := fst (fst (sendRTPPacket [4; 12; 0] [1; 2] 2 playingState)) in
  isStreaming st' = false /\
  espRestarts st' = espRestarts playingState /\
  rtpSequence st' = rtpSequence playingState /\
  rtpTimestamp st' = rtpTimestamp playingState /\
  audioPacketsSent st' = audioPacketsSent playingState.
Proof.
  apply (sendRTPPacket_short_write_stops_streaming [4; 12; 0] [1; 2] 2 playingState).
  - reflexivity.
  - eapply fault_payload; reflexivity.
Defined.

Lemma prefix_cons a s b r :
  String.prefix (String a s) (String b r)
  = if ascii_dec a b then String.prefix s r else false.
Proof. reflexivity. Qed.

(** A request that starts with PLAY starts with none of the verbs tested
    before it. *)
Lemma startsWith_PLAY request :
  startsWith request "PLAY" = true ->
  startsWith request "OPTIONS" = false /\
  startsWith request "DESCRIBE" = false /\
  startsWith request "SETUP" = false.
Proof.
  unfold startsWith. destruct request as [|a r]; [discriminate|].
  rewrite !prefix_cons.
  destruct (ascii_dec "P" a) as [<-|]; [|discriminate]. intros _.
  repeat split;
    match goal with
    | |- context [ascii_dec ?x ?y] => destruct (ascii_dec x y) as [e|]; [discriminate e|reflexivity]
    end.
Qed.

(** C6.  A packet that goes out whole advances the sequence number by 1
    modulo 2^16 and the timestamp by the number of samples modulo 2^32
    (so 65535 is followed by 0, and the timestamp wraps past 2^32 - 1);
    a request that starts with PLAY sets both to 0. *)
Theorem rtp_sequence_timestamp_advance_and_reset :
  (forall (ws audioData : list Z) (numSamples : Z) (st : State),
      packetSent ws audioData numSamples st ->
      let st' := fst (fst (sendRTPPacket ws audioData numSamples st)) in
      rtpSequence st' = (rtpSequence st + 1) mod 2 ^ 16 /\
      rtpTimestamp st' = (rtpTimestamp st + numSamples) mod 2 ^ 32 /\
      (rtpSequence st = 65535 -> rtpSequence st' = 0) /\
      (rtpTimestamp st + numSamples = 2 ^ 32 -> rtpTimestamp st' = 0)) /\
  (forall (now : Z) (ip : string) (rnd : Z) (request : string) (st : State),
      startsWith request "PLAY" = true ->
      let st' := handleRTSPCommand now ip rnd request st in
      rtpSequence st' = 0 /\ rtpTimestamp st' = 0 /\ isStreaming st' = true).
Proof.
  split.
  - intros ws audioData numSamples st [Hc Hok].
    unfold sendRTPPacket. rewrite Hc. cbn [negb].
    destruct (writeSegments _ _ _ _ _) as [[ok ws'] c'].
    cbn in Hok. subst ok. cbn.
    assert (Hts : u32 (rtpTimestamp st + u32 numSamples)
                  = (rtpTimestamp st + numSamples) mod 2 ^ 32).
    { unfold u32. now rewrite Z.add_mod_idemp_r. }
    unfold u16. rewrite Hts. repeat split.
    + intros ->. reflexivity.
    + intros ->. reflexivity.
  - intros now ip rnd request st Hp.
    destruct (startsWith_PLAY _ Hp) as (Ho & Hd & Hs).
    unfold handleRTSPCommand. rewrite Ho, Hd, Hs, Hp. sst. repeat split.
Qed.

(** The last sequence number before the wrap, one sample short of the
    timestamp wrap; both wrap to 0, and a PLAY request resets them. *)
Lemma rtp_sequence_timestamp_witness :
  let st := set_rtpTimestamp (2 ^ 32 - 1) (set_rtpSequence 65535 playingState) in
  let st' := fst (fst (sendRTPPacket [4; 12; 2] [7] 1 st)) in
  (rtpSequence st' = (65535 + 1) mod 2 ^ 16 /\
   rtpTimestamp st' = (2 ^ 32 - 1 + 1) mod 2 ^ 32 /\
   (rtpSequence st = 65535 -> rtpSequence st' = 0) /\
   (rtpTimestamp st + 1 = 2 ^ 32 -> rtpTimestamp st' = 0)) /\
  (let st2 := handleRTSPCommand 5000 "10.0.0.2" 123456789 "PLAY rtsp://10.0.0.2:8554/audio RTSP/1.0" st' in
   rtpSequence st2 = 0 /\ rtpTimestamp st2 = 0 /\ isStreaming st2 = true).
Proof.
  destruct rtp_sequence_timestamp_advance_and_reset as [Hsend Hplay].
  split.
  - apply (Hsend [4; 12; 2] [7] 1
             (set_rtpTimestamp (2 ^ 32 - 1) (set_rtpSequence 65535 playingState))).
    split; reflexivity.
  - apply (Hplay 5000 "10.0.0.2" 123456789). reflexivity.
Defined.

(** *** The byte swap *)

Lemma allFrom_spec f : forall n lo z,
  allFrom lo n f = true -> lo <= z < lo + Z.of_nat n -> f z = true.
Proof.
  induction n as [|n IH]; intros lo z H Hz; [lia|].
  cbn [allFrom] in H. apply andb_true_iff in H as [H1 H2].
  destruct (decide (z = lo)) as [->|Hne]; [exact H1|].
  apply (IH (lo + 1)); [exact H2|lia].
Qed.

Lemma swap16_all :
  allFrom (-32768) (Z.to_nat 65536)
          (fun s => (u16 (swap16 s) =? (u16 s mod 256) * 256 + u16 s / 256)
                    && (swap16 (swap16 s) =? s)) = true.
Proof. vm_compute. reflexivity. Qed.

(** On a 16-bit sample the swap exchanges the two bytes, and a second
    swap restores the sample. *)
Lemma swap16_bytes s :
  -32768 <= s <= 32767 ->
  u16 (swap16 s) = (u16 s mod 256) * 256 + u16 s / 256 /\ swap16 (swap16 s) = s.
Proof.
  intros Hs. pose proof (allFrom_spec _ _ _ s swap16_all) as H.
  rewrite andb_true_iff, !Z.eqb_eq in H. apply H. lia.
Qed.

Lemma swapSamples_lookup (n : Z) (audioData : list Z) (i : nat) :
  swapSamples n audioData !! i
  = if (Z.of_nat i <? n) then swap16 <$> audioData !! i else audioData !! i.
Proof.
  unfold swapSamples.
  destruct (Z.of_nat i <? n) eqn:E.
  - apply Z.ltb_lt in E.
    destruct (decide (i < length audioData)%nat) as [Hl|Hl].
    + rewrite lookup_app_l by (rewrite length_fmap, length_take; lia).
      rewrite list_lookup_fmap, lookup_take_lt by lia. reflexivity.
    + rewrite (lookup_ge_None_2 audioData) by lia. cbn.
      apply lookup_ge_None_2. rewrite length_app, length_fmap, length_take, length_drop. lia.
  - apply Z.ltb_ge in E.
    destruct (decide (n <= 0)) as [Hn|Hn].
    + replace (Z.to_nat n) with 0%nat by lia. reflexivity.
    + destruct (decide (Z.to_nat n <= length audioData)%nat) as [Hl|Hl].
      * rewrite lookup_app_r by (rewrite length_fmap, length_take; lia).
        rewrite length_fmap, length_take, lookup_drop. f_equal. lia.
      * rewrite (lookup_ge_None_2 audioData) by lia.
        apply lookup_ge_None_2. rewrite length_app, length_fmap, length_take, length_drop. lia.
Qed.

(** With the client connected the buffer comes back swapped, whatever
    the socket does. *)
Lemma sendRTPPacket_buffer_swapped (ws audioData : list Z) (numSamples : Z) (st : State) :
  connected (rtspClient st) = true ->
  snd (fst (sendRTPPacket ws audioData numSamples st)) = swapSamples numSamples audioData.
Proof.
  intros Hc. unfold sendRTPPacket. rewrite Hc. cbn [negb].
  destruct (writeSegments _ _ _ _ _) as [[ok ws'] c']. now destruct ok.
Qed.

(** C10 as stated fails: with the client disconnected the call returns
    before the swap and the buffer keeps its host-order sample. *)
Lemma sendRTPPacket_disconnected_leaves_buffer :
  snd (fst (sendRTPPacket [] [4660] 1 (initialState ∅))) = [4660]
  /\ swapSamples 1 [4660] = [13330].
Proof. split; reflexivity. Qed.

(** C10, amended.  When the client is connected, the buffer after
    [sendRTPPacket] holds the first [numSamples] samples byte-swapped and
    the rest untouched, whether or not the segments went out; a fault on
    a segment stops streaming and the buffer stays swapped.  When the
    client is not connected the call changes neither buffer nor state. *)
Theorem sendRTPPacket_buffer_swapped_when_connected :
  forall (ws audioData : list Z) (numSamples : Z) (st : State),
    let st' := fst (fst (sendRTPPacket ws audioData numSamples st)) in
    let buf' := snd (fst (sendRTPPacket ws audioData numSamples st)) in
    (connected (rtspClient st) = true ->
       buf' = swapSamples numSamples audioData /\
       (forall i : nat,
           buf' !! i = if Z.of_nat i <? numSamples
                       then swap16 <$> audioData !! i else audioData !! i) /\
       (SegmentFault ws (rtspClient st) (rtpInterleaved (rtpPacketSize numSamples))
                     (rtpHeader st)
                     (rtpPayload numSamples (swapSamples numSamples audioData)) ->
        isStreaming st' = false)) /\
    (connected (rtspClient st) = false -> buf' = audioData /\ st' = st).
Proof.
  intros ws audioData numSamples st. cbv zeta. split; intros Hc.
  - pose proof (sendRTPPacket_buffer_swapped ws audioData numSamples st Hc) as Hb.
    split; [exact Hb|]. split.
    + intros i. rewrite Hb. apply swapSamples_lookup.
    + intros Hf.
      apply SegmentFault_writeSegments in Hf.
      now apply (sendRTPPacket_fault ws audioData numSamples st Hc Hf).
  - unfold sendRTPPacket. rewrite Hc. split; reflexivity.
Qed.

(** A connected client and a socket that takes nothing: the buffer is
    swapped all the same. *)
Lemma sendRTPPacket_buffer_swapped_witness :
  snd (fst (sendRTPPacket [0] [4660; 1] 1 playingState)) = swapSamples 1 [4660; 1]
  /\ swapSamples 1 [4660; 1] = [13330; 1]
  /\ snd (fst (sendRTPPacket [0] [4660; 1] 1 (initialState ∅))) = [4660; 1].
Proof.
  pose proof (sendRTPPacket_buffer_swapped_when_connected [0] [4660; 1] 1 playingState) as [H _].
  pose proof (sendRTPPacket_buffer_swapped_when_connected [0] [4660; 1] 1 (initialState ∅)) as [_ H'].
  split; [apply H; reflexivity|]. split; [reflexivity|]. apply H'. reflexivity.
Defined.

(** *** Conditioning of a block *)

Lemma fold_conditionSample shiftBits hpOn gain raw : forall acc,
  let r := fold_left (conditionSample shiftBits hpOn gain) raw acc in
  let amps := amplifiedSamples shiftBits hpOn gain (acc_hpf acc) raw in
  acc_clipped r = acc_clipped acc || existsb exceeds16 amps /\
  acc_out r = acc_out acc ++ map saturate16 amps.
Proof.
  induction raw as [|x raw IH]; intros acc; cbn zeta.
  - cbn. now rewrite orb_false_r, app_nil_r.
  - cbn [fold_left amplifiedSamples].
    specialize (IH (conditionSample shiftBits hpOn gain acc x)). cbn zeta in IH.
    destruct IH as [IHc IHo]. rewrite IHc, IHo. clear IHc IHo.
    unfold conditionSample.
    destruct hpOn; cbn [Biquad_process acc_hpf acc_clipped acc_out existsb map];
      (split; [|now rewrite <- app_assoc]);
      unfold exceeds16;
      destruct (F32.fabsf _ >? F32.of_Z 32767)%f32, (acc_clipped acc); reflexivity.
Qed.

Lemma conditionBlock_spec shiftBits hpOn gain q raw :
  let amps := amplifiedSamples shiftBits hpOn gain q raw in
  acc_clipped (conditionBlock shiftBits hpOn gain q raw) = existsb exceeds16 amps /\
  acc_out (conditionBlock shiftBits hpOn gain q raw) = map saturate16 amps.
Proof.
  unfold conditionBlock.
  destruct (fold_conditionSample shiftBits hpOn gain raw
              {| acc_hpf := q; acc_clipped := false; acc_peakAbs := F32.zero; acc_out := [] |})
    as [Hc Ho].
  cbn in Hc, Ho. now split.
Qed.

(** Above 32767 the stored sample is 32767, below -32768 it is -32768. *)
Lemma saturate16_high a :
  (a >? F32.of_Z 32767)%f32 = true -> saturate16 a = 32767.
Proof. intros Ha. unfold saturate16. rewrite Ha. reflexivity. Qed.

Lemma saturate16_low a :
  (a <? F32.of_Z (-32768))%f32 = true -> saturate16 a = -32768.
Proof.
  intros Ha. unfold saturate16.
  assert (Hh : (a >? F32.of_Z 32767)%f32 = false).
  { destruct a as [s|s| |s m e]; try destruct s; try reflexivity; try discriminate. }
  rewrite Hh, Ha. reflexivity.
Qed.

Lemma amplifiedSamples_length shiftBits hpOn gain raw : forall q,
  length (amplifiedSamples shiftBits hpOn gain q raw) = length raw.
Proof.
  induction raw as [|x raw IH]; intros q; [reflexivity|].
  cbn [amplifiedSamples]. destruct hpOn; cbn; now rewrite IH.
Qed.

(** [sendRTPPacket] touches neither the audio settings nor the meters. *)
Lemma sendRTPPacket_audio (ws audioData : list Z) (numSamples : Z) (st : State) :
  audio (fst (fst (sendRTPPacket ws audioData numSamples st))) = audio st.
Proof.
  unfold sendRTPPacket. destruct (negb (connected (rtspClient st))); [reflexivity|].
  destruct (writeSegments _ _ _ _ _) as [[ok ws'] c']. now destruct ok.
Qed.

(** Recomputing the coefficients changes the filter and its cached
    inputs only. *)
Lemma updateHighpassCoeffs_frame {P : Platform} (st : State) :
  let st' := updateHighpassCoeffs st in
  session st' = session st /\ diag st' = diag st /\ thermal st' = thermal st /\
  power st' = power st /\ hw st' = hw st /\
  currentSampleRate st' = currentSampleRate st /\
  currentGainFactor st' = currentGainFactor st /\
  currentBufferSize st' = currentBufferSize st /\
  i2sShiftBits st' = i2sShiftBits st /\
  i2s_16bit_buffer st' = i2s_16bit_buffer st /\
  audioClipCount st' = audioClipCount st /\
  highpassEnabled st' = highpassEnabled st /\
  highpassCutoffHz st' = highpassCutoffHz st.
Proof.
  cbv zeta. unfold updateHighpassCoeffs.
  destruct (highpassEnabled st) eqn:E; cbn [negb]; sst; rewrite ?E; repeat split.
  all: destruct st as [se au di th po h]; reflexivity.
Qed.

(** C7.  For a block that [streamAudio] processes (streaming, client
    connected, a successful read of at least one sample): the clip flag of
    the block is set exactly when some amplified sample has a magnitude
    above 32767; the cumulative clip counter then goes up by one (in its
    32 bits) for the whole block, and is unchanged otherwise; the block
    stored in the buffer is the saturated samples, 32767 for every
    amplified sample above 32767 and -32768 for every one below -32768
    (the buffer is then byte-swapped for the network by the send). *)
Theorem streamAudio_clip_once_per_block :
  forall (P : Platform) (now : Z) (raw ws : list Z) (st : State),
    isStreaming st = true ->
    connected (rtspClient st) = true ->
    raw <> [] ->
    let amps := blockAmplified st raw in
    let st' := fst (streamAudio now true raw ws st) in
    audioClippedLastBlock st' = existsb exceeds16 amps /\
    audioClipCount st' = (if existsb exceeds16 amps
                          then (audioClipCount st + 1) mod 2 ^ 32
                          else audioClipCount st) /\
    i2s_16bit_buffer st'
    = map swap16 (map saturate16 amps) ++ drop (length raw) (i2s_16bit_buffer st) /\
    (forall a, In a amps ->
       ((a >? F32.of_Z 32767)%f32 = true -> saturate16 a = 32767) /\
       ((a <? F32.of_Z (-32768))%f32 = true -> saturate16 a = -32768)).
Proof.
  intros P now raw ws st Hs Hc Hraw amps st'.
  assert (Hlen : (0 <? 4 * Z.of_nat (length raw)) = true).
  { apply Z.ltb_lt. destruct raw; [congruence|cbn [length]; lia]. }
  subst st'. unfold streamAudio. rewrite Hs, Hc, Hlen. cbn [negb orb andb].
  set (st1 := if hpfStale st then updateHighpassCoeffs st else st).
  assert (H1 : i2sShiftBits st1 = i2sShiftBits st /\
               highpassEnabled st1 = highpassEnabled st /\
               currentGainFactor st1 = currentGainFactor st /\
               audioClipCount st1 = audioClipCount st /\
               i2s_16bit_buffer st1 = i2s_16bit_buffer st /\
               hw st1 = hw st).
  { subst st1. destruct (hpfStale st); [|repeat split].
    pose proof (updateHighpassCoeffs_frame st) as F. cbn zeta in F. tauto. }
  destruct H1 as (Hsh & Hhp & Hg & Hcc & Hbuf & Hhw).
  rewrite Hsh, Hhp, Hg.
  destruct (conditionBlock_spec (i2sShiftBits st) (highpassEnabled st)
              (currentGainFactor st) (hpf st1) raw) as [Hclip Hout].
  fold st1 in amps. change (amplifiedSamples _ _ _ _ _) with amps in Hclip, Hout.
  set (acc := conditionBlock _ _ _ _ raw) in *.
  assert (Hl : length (acc_out acc) = length raw).
  { rewrite Hout, length_map. apply amplifiedSamples_length. }
  cbv zeta.
  match goal with
  | |- context [sendRTPPacket ?w ?b ?n ?s] => set (stM := s)
  end.
  assert (HM : audioClippedLastBlock stM = acc_clipped acc /\
               audioClipCount stM = (if acc_clipped acc
                                     then u32 (audioClipCount st + 1)
                                     else audioClipCount st) /\
               i2s_16bit_buffer stM
               = acc_out acc ++ drop (length raw) (i2s_16bit_buffer st) /\
               hw stM = hw st).
  { subst stM. rewrite <- Hcc, <- Hbuf, <- Hhw.
    repeat case_match; sst; repeat split. }
  destruct HM as (HMc & HMn & HMb & HMh).
  pose proof (sendRTPPacket_audio ws (i2s_16bit_buffer stM) (Z.of_nat (length raw)) stM) as Ha.
  assert (HcM : connected (rtspClient stM) = true) by (now rewrite HMh).
  pose proof (sendRTPPacket_buffer_swapped ws (i2s_16bit_buffer stM)
                (Z.of_nat (length raw)) stM HcM) as Hb.
  destruct (sendRTPPacket ws (i2s_16bit_buffer stM) (Z.of_nat (length raw)) stM)
    as [[st2 buf2] ws2].
  cbn [fst snd] in *. sst. rewrite Ha. subst buf2.
  split; [now rewrite HMc|]. split; [rewrite HMn, <- Hclip; reflexivity|]. split.
  - rewrite HMb. unfold swapSamples. rewrite Nat2Z.id.
    rewrite take_app_length' by (symmetry; exact Hl).
    rewrite drop_app_length' by (symmetry; exact Hl). now rewrite Hout.
  - intros a _. split; [apply saturate16_high|apply saturate16_low].
Qed.

(** A block of three samples with the high-pass off and the default gain
    1.2: the first and the last leave the 16-bit range after the gain, the
    block counts one clip, and the stored samples are 32767, 1, -32768 in
    network byte order. *)
Lemma streamAudio_clip_once_witness :
  let st := set_highpassEnabled false playingState in
  let st' := fst (streamAudio (P:=refPlatform) 1000 true
                              [2147483647; 4096; -2147483648] [] st) in
  audioClippedLastBlock st' = true /\
  audioClipCount st' = 1 /\
  i2s_16bit_buffer st' = map swap16 [32767; 1; -32768].
Proof.
  pose proof (streamAudio_clip_once_per_block refPlatform 1000
                [2147483647; 4096; -2147483648] []
                (set_highpassEnabled false playingState)
                eq_refl eq_refl ltac:(discriminate)) as (H1 & H2 & H3 & _).
  split; [exact H1|]. split; [exact H2|exact H3].
Defined.

(** *** The HTTP setter *)





(** *** The adaptive threshold *)

(** Saving the settings writes flash only. *)
Lemma saveAudioSettings_frame (st : State) :
  let st' := saveAudioSettings st in
  session st' = session st /\ audio st' = audio st /\ diag st' = diag st /\
  thermal st' = thermal st /\ power st' = power st /\
  rtspServer st' = rtspServer st /\ rtspClient st' = rtspClient st /\
  radioTxPower st' = radioTxPower st.
Proof. destruct_state st. sst_cbv saveAudioSettings. repeat split. Qed.

(** Restarting the capture keeps the reliability settings. *)
Lemma restartI2S_frame {P : Platform} (allocOk : bool) (st : State) :
  match restartI2S allocOk st with
  | Restarts st' => st' = set_isStreaming false st
  | Returns st' =>
  thermal st' = thermal st /\ power st' = power st /\
  audioPrefs st' = audioPrefs st /\ rtspServer st' = rtspServer st /\
  rtspClient st' = rtspClient st /\ radioTxPower st' = radioTxPower st /\
  rtspServerEnabled st' = rtspServerEnabled st /\ isStreaming st' = false /\
  currentSampleRate st' = currentSampleRate st /\
  currentBufferSize st' = currentBufferSize st /\
  autoThresholdEnabled st' = autoThresholdEnabled st /\
  minAcceptableRate st' = minAcceptableRate st /\
  scheduledFactoryReset st' = scheduledFactoryReset st /\
  scheduledRebootAt st' = scheduledRebootAt st
  end.
Proof.
  destruct_state st. destruct allocOk; [|reflexivity].
  sst_cbv restartI2S setup_i2s_driver updateHighpassCoeffs.
  repeat (case_if; sst_cbv); repeat split.
Qed.


(** The example of the specification: 48000 Hz and 1024 samples give 33. *)
Lemma computeRecommendedMinRate_default :
  computeRecommendedMinRate bootState = 33 /\ minAcceptableRate bootState = 33.
Proof. split; vm_compute; reflexivity. Qed.

(** C2 fails on the code.  With the threshold in auto mode (the default),
    the request [key=min_rate&value=100] is accepted: the threshold
    becomes 100 while auto mode stays on and the recommended value is
    still 33; the value 100 also goes to flash. *)
Theorem httpSet_min_rate_overrides_auto_threshold :
  exists (st : State) (log : LogRing),
  httpSet (P:=refPlatform) true "min_rate" (Some "100") emptyLog bootState
  = Returns (st, log, JSON_OK_TRUE) /\
  autoThresholdEnabled bootState = true /\
  minAcceptableRate bootState = 33 /\
  autoThresholdEnabled st = true /\
  minAcceptableRate st = 100 /\
  computeRecommendedMinRate st = 33 /\
  audioPrefs st !! "minRate" = Some (PUInt 100).
Proof.
  do 2 eexists. split; [vm_compute; reflexivity|].
  repeat split; vm_compute; reflexivity.
Qed.

(** The setter never looks at the mode: any value from 5 to 200 is
    stored. *)
Lemma httpSet_min_rate_unguarded {P : Platform} (allocOk : bool) (value : string)
      (log : LogRing) (st : State) :
  5 <= u32 (atol value) <= 200 ->
  exists (st' : State) (log' : LogRing),
    httpSet allocOk "min_rate" (Some value) log st = Returns (st', log', JSON_OK_TRUE) /\
    minAcceptableRate st' = u32 (atol value).
Proof.
  intros [H1 H2]. apply Z.leb_le in H1, H2.
  destruct_state st. sst_cbv httpSet argToUInt callBind.
  cbn [String.eqb Ascii.eqb Bool.eqb]. rewrite H1, H2. cbn [andb].
  do 2 eexists. split; [reflexivity|].
  sst_cbv saveAudioSettings. reflexivity.
Qed.

(** *** Staleness of the high-pass coefficients *)

Lemma trunc_of_Z_all :
  allFrom 0 (Z.to_nat 65536) (fun c => F32.trunc (F32.of_Z c) =? c) = true.
Proof. vm_compute. reflexivity. Qed.

(** A 16-bit cutoff survives the conversion to [float] and back. *)
Lemma trunc_of_Z_u16 (c : Z) : 0 <= c < 65536 -> u16 (F32.trunc (F32.of_Z c)) = c.
Proof.
  intros Hc. pose proof (allFrom_spec _ _ _ c trunc_of_Z_all) as H.
  rewrite Z.eqb_eq in H. rewrite H by lia. unfold u16. apply Z.mod_small. lia.
Qed.

(** X2. When the high-pass is on and the cutoff is used as
    configured (neither clamp applies), the staleness test of
    [streamAudio] fails right after [updateHighpassCoeffs]: the next
    block does not recompute the coefficients. *)
Lemma updateHighpassCoeffs_unclamped_fresh {P : Platform} (st : State) :
  highpassEnabled st = true ->
  0 <= highpassCutoffHz st < 65536 ->
  (F32.of_Z (highpassCutoffHz st) <? F32.of_Z 10)%f32 = false ->
  (F32.of_Z (highpassCutoffHz st)
   >? F32.of_Z (currentSampleRate st) * F32.of_ratio 45 100)%f32 = false ->
  hpfStale (updateHighpassCoeffs st) = false.
Proof.
  intros He Hc H10 H45. destruct_state st.
  sst_cbv hpfStale updateHighpassCoeffs. subst. cbn [negb].
  rewrite H10, H45, trunc_of_Z_u16 by exact Hc.
  now rewrite !Z.eqb_refl.
Qed.

(** C8 fails on the code for a clamped cutoff.  The setters accept a
    sample rate of 8000 Hz and a cutoff of 10000 Hz; the cutoff is
    clamped to 0.45 * 8000 = 3600 Hz and it is the clamped value that is
    cached, so the staleness test of the next block compares 3600 with
    10000, finds the coefficients stale, and recomputes them, block after
    block. *)
Theorem hpf_clamped_cutoff_stays_stale :
  exists (st1 st : State) (log1 log : LogRing),
  httpSet (P:=refPlatform) true "rate" (Some "8000") emptyLog bootState
  = Returns (st1, log1, JSON_OK_TRUE) /\
  httpSet (P:=refPlatform) true "hp_cutoff" (Some "10000") log1 st1
  = Returns (st, log, JSON_OK_TRUE) /\
  highpassEnabled st = true /\
  currentSampleRate st = 8000 /\
  highpassCutoffHz st = 10000 /\
  hpfConfigSampleRate st = 8000 /\
  hpfConfigCutoff st = 3600 /\
  hpfStale st = true /\
  hpfStale (updateHighpassCoeffs (P:=refPlatform) st) = true /\
  hpfStale (updateHighpassCoeffs (P:=refPlatform)
              (updateHighpassCoeffs (P:=refPlatform) st)) = true.
Proof.
  do 4 eexists. split; [vm_compute; reflexivity|]. split; [vm_compute; reflexivity|].
  repeat split; vm_compute; reflexivity.
Qed.

(** The same on any platform and in any state with these settings. *)
Lemma updateHighpassCoeffs_clamped_stale {P : Platform} (st : State) :
  highpassEnabled st = true ->
  currentSampleRate st = 8000 ->
  highpassCutoffHz st = 10000 ->
  hpfStale (updateHighpassCoeffs st) = true.
Proof.
  intros He Hr Hc. destruct_state st.
  sst_cbv hpfStale updateHighpassCoeffs. subst. reflexivity.
Qed.

(** *** The RTSP parse buffer *)

(** The read of [processRTSP] stays inside the array as long as the
    position is where the accumulation logic expects it. *)
Lemma bufWrite_in_bounds (buf data : list Z) (pos : Z) :
  0 <= pos -> pos + Z.of_nat (length data) <= Z.of_nat (length buf) ->
  exists buf', bufWrite buf pos data = Some buf' /\ length buf' = length buf.
Proof.
  intros H0 H1. unfold bufWrite.
  destruct (0 <=? pos) eqn:E0; [|lia].
  destruct (pos + Z.of_nat (length data) <=? Z.of_nat (length buf)) eqn:E1; [|lia].
  cbn. eexists. split; [reflexivity|].
  rewrite !length_app, length_take, length_drop. lia.
Qed.

(** X3. A full parse buffer is discarded: with a client
    connected, bytes waiting and the position at the last cell or beyond,
    [processRTSP] sets the position back to 0, reads nothing from the
    client, sends nothing, and leaves the session as it was. *)
Lemma processRTSP_overflow_discards (now : Z) (ip : string) (rnd : Z) (st : State) :
  connected (rtspClient st) = true ->
  rxPending (rtspClient st) <> [] ->
  RTSP_PARSE_BUFFER_SIZE - 1 <= rtspParseBufferPos st < 2 ^ 31 ->
  processRTSP now ip rnd st = Ok (set_rtspParseBufferPos 0 st) /\
  sessionCore (set_rtspParseBufferPos 0 st) = sessionCore st /\
  rtspClient (set_rtspParseBufferPos 0 st) = rtspClient st.
Proof.
  intros Hc Hrx Hpos. split; [|split; reflexivity].
  unfold processRTSP. rewrite Hc. cbn [negb].
  assert (Ha : (0 <? Z.of_nat (length (rxPending (rtspClient st)))) = true).
  { apply Z.ltb_lt. destruct (rxPending (rtspClient st)); [congruence|cbn [length]; lia]. }
  rewrite Ha.
  assert (Ho : (RTSP_PARSE_BUFFER_SIZE <=?
                rtspParseBufferPos st + Z.of_nat (length (rxPending (rtspClient st)))) = true).
  { apply Z.leb_le. apply Z.ltb_lt in Ha. unfold RTSP_PARSE_BUFFER_SIZE in *. lia. }
  assert (Hi : (i32 (RTSP_PARSE_BUFFER_SIZE - rtspParseBufferPos st - 1) <=? 0) = true).
  { apply Z.leb_le. unfold i32, RTSP_PARSE_BUFFER_SIZE in *.
    destruct (decide (rtspParseBufferPos st = 1023)) as [->|Hne]; [reflexivity|].
    rewrite <- (Z.mod_add _ 1) by lia.
    rewrite Z.mod_small by lia.
    destruct (_ <? 2 ^ 31) eqn:E; [apply Z.ltb_lt in E; lia|lia]. }
  rewrite Ho, Hi. reflexivity.
Qed.

(** A trace that leaves the array.  The client sends the eight bytes
    [A B CR LF CR LF CR LF] and then the single byte [X].  The first
    request is consumed and two bytes are moved to the front, but the old
    bytes stay in the array behind them; after the second read the scan
    finds a terminator made of those stale bytes beyond the write
    position (header length 8, position 3), and [memmove] is asked to move
    [(size_t)(3 - 8)] bytes: a write far past the end of the array. *)
Theorem processRTSP_stale_terminator_out_of_bounds :
  let chunk1 := [65; 66; 13; 10; 13; 10; 13; 10] in
  let chunk2 := [88] in
  (exists st1,
      processChunks 2000 "10.0.0.2" 123456789 [chunk1] connectedState = Ok st1 /\
      rtspParseBufferPos st1 = 2 /\
      take 9%nat (rtspParseBuffer st1) = [13; 10; 0; 10; 13; 10; 13; 10; 0] /\
      strstrFrom (<[2%nat := 88]> (rtspParseBuffer st1)) 0 = Found 4 /\
      u32 (3 - (4 + 4)) = 4294967291) /\
  processChunks 2000 "10.0.0.2" 123456789 [chunk1; chunk2] connectedState = OutOfBounds.
Proof.
  cbv zeta. split.
  - eexists. split; [vm_compute; reflexivity|]. repeat split; vm_compute; reflexivity.
  - vm_compute. reflexivity.
Qed.

(** *** Order of floats *)

Ltac compare_cases :=
  repeat match goal with
         | H : context [Z.compare ?a ?b] |- _ => destruct (Z.compare_spec a b); subst
         | |- context [Z.compare ?a ?b] => destruct (Z.compare_spec a b); subst
         | H : context [Pos.compare_cont Eq ?a ?b] |- _ =>
             change (Pos.compare_cont Eq a b) with (Pos.compare a b) in H;
             destruct (Pos.compare_spec a b); subst
         | |- context [Pos.compare_cont Eq ?a ?b] =>
             change (Pos.compare_cont Eq a b) with (Pos.compare a b);
             destruct (Pos.compare_spec a b); subst
         end.

Lemma ltb_irrefl (x : f32) : (x <? x)%f32 = false.
Proof.
  unfold F32.ltb, SFltb, SFcompare.
  destruct x as [s|s| |s m e]; try destruct s; try reflexivity;
    rewrite Z.compare_refl;
    change (Pos.compare_cont Eq m m) with (Pos.compare m m);
    rewrite Pos.compare_refl; reflexivity.
Qed.

Lemma ltb_trans (x y z : f32) :
  (x <? y)%f32 = true -> (y <? z)%f32 = true -> (x <? z)%f32 = true.
Proof.
  unfold F32.ltb, SFltb, SFcompare.
  destruct x as [sx|sx| |sx mx ex], y as [sy|sy| |sy my ey], z as [sz|sz| |sz mz ez];
    try destruct sx; try destruct sy; try destruct sz;
    try discriminate; try reflexivity;
    intros H1 H2; compare_cases; cbn in *; try discriminate; try reflexivity; try lia.
Qed.

Lemma leb_ltb_trans (x y z : f32) :
  (x <=? y)%f32 = true -> (y <? z)%f32 = true -> (x <? z)%f32 = true.
Proof.
  unfold F32.ltb, F32.leb, SFltb, SFleb, SFcompare.
  destruct x as [sx|sx| |sx mx ex], y as [sy|sy| |sy my ey], z as [sz|sz| |sz mz ez];
    try destruct sx; try destruct sy; try destruct sz;
    try discriminate; try reflexivity;
    intros H1 H2; compare_cases; cbn in *; try discriminate; try reflexivity; try lia.
Qed.

(** *** Wi-Fi transmit power *)

Lemma wifiTxSteps_levels : wifiTxSteps = map wifiPowerLevelToDbm wifiTxLevels.
Proof. reflexivity. Qed.

(** On a value of the table [pickWifiPowerLevel] returns its level. *)
Lemma pickWifiPowerLevel_step (l : wifi_power_t) :
  pickWifiPowerLevel (wifiPowerLevelToDbm l) = l.
Proof. destruct l; reflexivity. Qed.

Lemma snapLoop_nearest (dbm : f32) : forall (rest pre : list f32) (best : f32) (i : nat),
  nearestFirst dbm pre i best ->
  exists i', nearestFirst dbm (pre ++ rest) i'
                          (snapLoop dbm rest best (dbmDistance dbm best)).
Proof.
  induction rest as [|s rest IH]; intros pre best i Hn.
  - exists i. now rewrite app_nil_r.
  - cbn [snapLoop]. fold (dbmDistance dbm s).
    replace (pre ++ s :: rest) with ((pre ++ [s]) ++ rest) by now rewrite <- app_assoc.
    destruct Hn as (Hi & Hlt & Hle).
    assert (Hil : (i < length pre)%nat) by (eapply lookup_lt_Some; eauto).
    destruct (dbmDistance dbm s <? dbmDistance dbm best)%f32 eqn:E.
    + apply (IH (pre ++ [s]) s (length pre)). split; [|split].
      * rewrite lookup_app_r by lia. now rewrite Nat.sub_diag.
      * intros j t Hj.
        destruct (decide (j < length pre)%nat) as [Hjl|Hjl].
        -- rewrite lookup_app_l in Hj by lia.
           destruct (dbmDistance dbm t <? dbmDistance dbm s)%f32 eqn:E2; [|reflexivity].
           rewrite <- (Hlt j t Hj). symmetry. eapply ltb_trans; eauto.
        -- rewrite lookup_app_r in Hj by lia.
           destruct (j - length pre)%nat; [|destruct n; discriminate].
           injection Hj as <-. apply ltb_irrefl.
      * intros j t Hjl Hj. rewrite lookup_app_l in Hj by lia.
        destruct (dbmDistance dbm t <=? dbmDistance dbm s)%f32 eqn:E2; [|reflexivity].
        rewrite <- (Hlt j t Hj). symmetry. eapply leb_ltb_trans; eauto.
    + apply (IH (pre ++ [s]) best i). split; [|split].
      * now rewrite lookup_app_l by lia.
      * intros j t Hj.
        destruct (decide (j < length pre)%nat) as [Hjl|Hjl].
        -- rewrite lookup_app_l in Hj by lia. eauto.
        -- rewrite lookup_app_r in Hj by lia.
           destruct (j - length pre)%nat; [|destruct n; discriminate].
           injection Hj as <-. exact E.
      * intros j t Hjl Hj. rewrite lookup_app_l in Hj by lia. eauto.
Qed.

(** [snapWifiTxDbm] returns the entry of the table that is nearest by
    computed difference, the first one on a tie. *)
Lemma snapWifiTxDbm_nearest (dbm : f32) :
  exists i, nearestFirst dbm wifiTxSteps i (snapWifiTxDbm dbm).
Proof.
  unfold snapWifiTxDbm.
  change wifiTxSteps with ([F32.of_Z (-1)] ++ tl wifiTxSteps).
  cbn [app]. fold (dbmDistance dbm (F32.of_Z (-1))).
  apply (snapLoop_nearest dbm (tl wifiTxSteps) [F32.of_Z (-1)] (F32.of_Z (-1)) 0%nat).
  split; [reflexivity|]. split.
  - intros [|j] s Hj; [|discriminate]. injection Hj as <-. apply ltb_irrefl.
  - intros j s Hj. lia.
Qed.

(** The snapped value is the dBm value of a level of the radio. *)
Lemma snapWifiTxDbm_level (dbm : f32) :
  exists l, snapWifiTxDbm dbm = wifiPowerLevelToDbm l.
Proof.
  destruct (snapWifiTxDbm_nearest dbm) as (i & Hi & _).
  rewrite wifiTxSteps_levels, list_lookup_fmap in Hi.
  destruct (wifiTxLevels !! i) as [l|]; [|discriminate].
  exists l. now injection Hi.
Qed.

(** [applyWifiTxPower] on a requested value that is a step of the table:
    the level of that step becomes the applied one, and the radio is
    reconfigured only if the level changes. *)
Lemma applyWifiTxPower_step (l : wifi_power_t) (st : State) :
  wifiTxPowerDbm st = wifiPowerLevelToDbm l ->
  let st' := applyWifiTxPower st in
  currentWifiPowerLevel st' = l /\
  wifiTxPowerDbm st' = wifiTxPowerDbm st /\
  radioTxPower st' = (if decide (l = currentWifiPowerLevel st)
                      then radioTxPower st else l :: radioTxPower st) /\
  session st' = session st /\ audio st' = audio st /\ diag st' = diag st /\
  thermal st' = thermal st /\ audioPrefs st' = audioPrefs st /\
  rtspServer st' = rtspServer st /\ rtspClient st' = rtspClient st.
Proof.
  intros Hw. cbv zeta. unfold applyWifiTxPower. rewrite Hw, pickWifiPowerLevel_step.
  destruct (decide (l = currentWifiPowerLevel st)) as [He|Hne].
  - rewrite bool_decide_eq_false_2 by tauto. rewrite <- He. repeat split. exact Hw.
  - rewrite bool_decide_eq_true_2 by exact Hne. sst. repeat split. exact Hw.
Qed.

(** Two requests that do not end on the entry nearest in exact
    arithmetic.  A request outside [-1, 19.5] is rejected and leaves the
    applied level where it was: after [wifi_tx=2], the request
    [wifi_tx=25] leaves 2 dBm applied although 19.5 is nearer to 25.  And
    the differences are computed in single precision: for the
    request 0.50000006 (the float 0.5 + 2^-24) both |v - (-1)| and
    |v - 2| round to 1.5, the tie keeps the earlier entry -1, although 2
    is the nearer one in exact arithmetic. *)
Lemma wifi_tx_request_not_nearest :
  (exists (st2 st : State) (log2 log : LogRing),
      httpSet (P:=refPlatform) true "wifi_tx" (Some "2") emptyLog bootState
      = Returns (st2, log2, JSON_OK_TRUE) /\
      httpSet (P:=refPlatform) true "wifi_tx" (Some "25") log2 st2
      = Returns (st, log, JSON_OK_TRUE) /\
      currentWifiPowerLevel st2 = WIFI_POWER_2dBm /\
      currentWifiPowerLevel st = WIFI_POWER_2dBm /\
      (Qabs (F32.exact (ref_atof "25") - F32.exact (F32.of_ratio 195 10))
       < Qabs (F32.exact (ref_atof "25") - F32.exact (F32.of_Z 2)))%Q) /\
  (let v := ref_atof "0.50000006" in
   exists (st : State) (log : LogRing),
     httpSet (P:=refPlatform) true "wifi_tx" (Some "0.50000006") emptyLog bootState
     = Returns (st, log, JSON_OK_TRUE) /\
     currentWifiPowerLevel st = WIFI_POWER_MINUS_1dBm /\
     (F32.exact v == (1 # 2) + (1 # 16777216))%Q /\
     (Qabs (F32.exact v - F32.exact (F32.of_Z 2))
      < Qabs (F32.exact v - F32.exact (F32.of_Z (-1))))%Q).
Proof.
  cbv zeta. split.
  - do 4 eexists. split; [vm_compute; reflexivity|]. split; [vm_compute; reflexivity|].
    repeat split; vm_compute; reflexivity.
  - do 2 eexists. split; [vm_compute; reflexivity|].
    repeat split; vm_compute; reflexivity.
Qed.

(** X4. A request the setter accepts (-1 <= v <= 19.5) makes
    the applied level the entry of the table [-1, 2, 5, 7, 8.5, 11, 13,
    15, 17, 18.5, 19, 19.5] whose difference from the request, as computed
    in single precision by [fabsf(v - entry)], is least, the first such
    entry on a tie; the radio is reconfigured only when that level
    differs from the one applied before.  A request outside the range
    leaves the device as it was and the request in the log of the web
    module.  Either way the handler returns and answers [{"ok":true}]. *)
Theorem wifi_tx_request_applies_nearest_level :
  forall (P : Platform) (allocOk : bool) (value : string) (log : LogRing) (st : State),
    let v := atof value in
    exists (st' : State) (log' : LogRing),
      httpSet allocOk "wifi_tx" (Some value) log st = Returns (st', log', JSON_OK_TRUE) /\
      ((v >=? F32.of_Z (-1))%f32 = true -> (v <=? F32.of_ratio 195 10)%f32 = true ->
       (exists i : nat,
           nearestFirst v wifiTxSteps i (wifiPowerLevelToDbm (currentWifiPowerLevel st'))) /\
       wifiTxPowerDbm st' = wifiPowerLevelToDbm (currentWifiPowerLevel st') /\
       radioTxPower st'
       = (if decide (currentWifiPowerLevel st' = currentWifiPowerLevel st)
          then radioTxPower st else currentWifiPowerLevel st' :: radioTxPower st)) /\
      ((v >=? F32.of_Z (-1))%f32 && (v <=? F32.of_ratio 195 10)%f32 = false ->
       st' = st /\ log' = httpSetLogged "wifi_tx" (Some value) log).
Proof.
  intros P allocOk value log st v.
  unfold httpSet. cbn [String.eqb Ascii.eqb Bool.eqb argToFloat]. fold v.
  destruct ((v >=? F32.of_Z (-1))%f32 && (v <=? F32.of_ratio 195 10)%f32) eqn:E.
  - cbv zeta. cbn [callBind]. do 2 eexists. split; [reflexivity|]. split; [|discriminate].
    intros Hlo Hhi.
    destruct (snapWifiTxDbm_nearest v) as (i & Hn).
    destruct (snapWifiTxDbm_level v) as (l & Hl).
    pose proof (applyWifiTxPower_step l (set_wifiTxPowerDbm (snapWifiTxDbm v) st) Hl) as Ha.
    cbv zeta in Ha. destruct Ha as (Hcur & Hdbm & Hradio & _).
    pose proof (saveAudioSettings_frame
                  (applyWifiTxPower (set_wifiTxPowerDbm (snapWifiTxDbm v) st))) as Hs.
    cbv zeta in Hs. destruct Hs as (_ & _ & _ & _ & Hp & _ & _ & Hr).
    rewrite Hp, Hr, Hcur, Hdbm, Hradio. sst. rewrite <- Hl.
    split; [exists i; exact Hn|]. split; reflexivity.
  - cbv zeta. cbn [callBind].
    exists st, (httpSetLogged "wifi_tx" (Some value) log).
    split; [reflexivity|]. split.
    + intros Hlo Hhi. rewrite Hlo, Hhi in E. discriminate.
    + intros _. split; reflexivity.
Qed.

(** The request 6.1: the entries 5 and 7 are the candidates, 7 is nearer
    and becomes the applied level (from 19.5 at boot, one
    reconfiguration); the request 25 is rejected and leaves the device as
    booted. *)
Lemma wifi_tx_request_witness :
  (exists (st1 : State) (log1 : LogRing),
      httpSet (P:=refPlatform) true "wifi_tx" (Some "6.1") emptyLog bootState
      = Returns (st1, log1, JSON_OK_TRUE) /\
      (exists i : nat,
          nearestFirst (ref_atof "6.1") wifiTxSteps i
                       (wifiPowerLevelToDbm (currentWifiPowerLevel st1))) /\
      currentWifiPowerLevel st1 = WIFI_POWER_7dBm /\
      radioTxPower st1 = [WIFI_POWER_7dBm]) /\
  httpSet (P:=refPlatform) true "wifi_tx" (Some "25") emptyLog bootState
  = Returns (bootState, httpSetLogged "wifi_tx" (Some "25") emptyLog, JSON_OK_TRUE).
Proof.
  split.
  - destruct (wifi_tx_request_applies_nearest_level refPlatform true "6.1" emptyLog bootState)
      as (st1 & log1 & E & H & _).
    exists st1, log1. split; [exact E|].
    destruct (H eq_refl eq_refl) as (Hn & _ & _). split; [exact Hn|].
    eassert (C : httpSet (P:=refPlatform) true "wifi_tx" (Some "6.1") emptyLog bootState
                 = Returns (_, _, JSON_OK_TRUE)) by (vm_compute; reflexivity).
    rewrite E in C. injection C as -> _.
    split; vm_compute; reflexivity.
  - destruct (wifi_tx_request_applies_nearest_level refPlatform true "25" emptyLog bootState)
      as (st3 & log3 & E & _ & H).
    destruct (H eq_refl) as [-> ->]. exact E.
Defined.
(** ** Further properties of the firmware *)

(** *** Socket writes *)

(** X5. [writeAll] sends a prefix of the data, in order, and
    nothing else; it answers [true] exactly when that prefix is all of the
    data, whatever the sizes of the partial writes; the connection state
    and the bytes waiting to be read are not touched. *)
Theorem writeAll_sends_prefix :
  forall (ws : list Z) (c : WiFiClient) (data : list Z),
    let r := writeAll ws c data 0 in
    exists n : nat,
      txSent (snd r) = txSent c ++ take n data /\
      (fst (fst r) = true <-> (length data <= n)%nat) /\
      connected (snd r) = connected c /\ rxPending (snd r) = rxPending c.
Proof.
  intros ws c data r. destruct r as [[ok ws'] c'] eqn:E. subst r.
  apply writeAll_sent in E; [|lia].
  destruct E as (Hc & Hr & n & Ht & Hn). exists n. cbn [fst snd].
  split; [exact Ht|]. split; [|split; assumption].
  destruct ok; split; intros H; try lia; try reflexivity; discriminate.
Qed.

(** *** Witnesses on the booted device *)

(** The sample 0x1234 becomes 0x3412 and comes back. *)
Lemma swap16_bytes_witness :
  u16 (swap16 4660) = (u16 4660 mod 256) * 256 + u16 4660 / 256 /\ swap16 (swap16 4660) = 4660.
Proof. apply (swap16_bytes 4660). lia. Defined.

(** The defaults: 500 Hz at 48000 Hz is used as configured. *)
Lemma updateHighpassCoeffs_unclamped_fresh_witness :
  hpfStale (updateHighpassCoeffs (P:=refPlatform) bootState) = false.
Proof.
  apply (updateHighpassCoeffs_unclamped_fresh (P:=refPlatform) bootState).
  - vm_compute. reflexivity.
  - vm_compute. split; [discriminate|reflexivity].
  - vm_compute. reflexivity.
  - vm_compute. reflexivity.
Defined.

(** A connected client, the position on the last byte of the array and
    one byte waiting. *)
Lemma processRTSP_overflow_discards_witness :
  let st := set_rtspParseBufferPos 1023 (client_receive [65] connectedState) in
  processRTSP 2000 "10.0.0.2" 123456789 st = Ok (set_rtspParseBufferPos 0 st) /\
  sessionCore (set_rtspParseBufferPos 0 st) = sessionCore st /\
  rtspClient (set_rtspParseBufferPos 0 st) = rtspClient st.
Proof.
  apply (processRTSP_overflow_discards 2000 "10.0.0.2" 123456789
           (set_rtspParseBufferPos 1023 (client_receive [65] connectedState))).
  - vm_compute. reflexivity.
  - cbn. discriminate.
  - split; vm_compute; [discriminate|reflexivity].
Defined.
(** *** The level picked for a requested power *)

Lemma leb_trans (x y z : f32) :
  (x <=? y)%f32 = true -> (y <=? z)%f32 = true -> (x <=? z)%f32 = true.
Proof.
  unfold F32.leb, SFleb, SFcompare.
  destruct x as [sx|sx| |sx mx ex], y as [sy|sy| |sy my ey], z as [sz|sz| |sz mz ez];
    try destruct sx; try destruct sy; try destruct sz;
    try discriminate; try reflexivity;
    intros H1 H2; compare_cases; cbn in *; try discriminate; try reflexivity; try lia.
Qed.

(** X6. [pickWifiPowerLevel] rounds up: the level it returns is
    the lowest level of the radio that is not below the requested value.
    A request above 19.5 dBm, and a request that is not a number, get the
    highest level. *)
Theorem pickWifiPowerLevel_least_level_not_below :
  forall dbm : f32,
    let l := pickWifiPowerLevel dbm in
    ((dbm <=? F32.of_ratio 195 10)%f32 = true ->
     (dbm <=? wifiPowerLevelToDbm l)%f32 = true) /\
    (forall l' : wifi_power_t,
        (dbm <=? wifiPowerLevelToDbm l')%f32 = true ->
        (wifiPowerLevelToDbm l <=? wifiPowerLevelToDbm l')%f32 = true) /\
    ((dbm <=? F32.of_ratio 195 10)%f32 = false -> l = WIFI_POWER_19_5dBm).
Proof.
  intros dbm l. subst l. unfold pickWifiPowerLevel.
  repeat match goal with
         | |- context [if (?d <=? ?s)%f32 then _ else _] =>
             let E := fresh "E" in destruct (d <=? s)%f32 eqn:E
         end.
  all: cbn [wifiPowerLevelToDbm]; split; [intros; assumption|split].
  all: try (intros l' H; destruct l'; cbn [wifiPowerLevelToDbm] in H;
            first [congruence | vm_compute; reflexivity]).
  all: try reflexivity.
  all: intros Hn;
    match goal with
    | E : (?d <=? ?s)%f32 = true |- _ =>
        assert ((d <=? F32.of_ratio 195 10)%f32 = true)
          by (apply (leb_trans d s); [exact E | vm_compute; reflexivity]);
        congruence
    end.
Qed.

(** X7. Whatever the request, a number or not, [snapWifiTxDbm]
    returns an entry of its table; a snapped value snaps to itself, and
    the level [pickWifiPowerLevel] picks for it has exactly that value:
    what the web module stores is what the radio gets. *)
Theorem snapWifiTxDbm_fixed_point :
  forall dbm : f32,
    let s := snapWifiTxDbm dbm in
    In s wifiTxSteps /\
    snapWifiTxDbm s = s /\
    wifiPowerLevelToDbm (pickWifiPowerLevel s) = s.
Proof.
  intros dbm s. subst s.
  destruct (snapWifiTxDbm_level dbm) as [l ->].
  split; [|split].
  - rewrite wifiTxSteps_levels. apply in_map. destruct l; cbn; tauto.
  - destruct l; vm_compute; reflexivity.
  - rewrite pickWifiPowerLevel_step. reflexivity.
Qed.
(** *** The parse buffer: where the scan can end *)

Ltac byte_cases a :=
  destruct a as [|a|a]; cbn; try discriminate;
  do 4 (try (destruct a as [a|a|]; cbn; try discriminate)).

Lemma startsCRLFCRLF_spec (hay : list Z) :
  startsCRLFCRLF hay = true -> exists t, hay = 13 :: 10 :: 13 :: 10 :: t.
Proof.
  destruct hay as [|a [|b [|c [|d t]]]]; cbn; try discriminate.
  - byte_cases a.
  - byte_cases a; byte_cases b.
  - byte_cases a; byte_cases b; byte_cases c.
  - byte_cases a; byte_cases b; byte_cases c; byte_cases d.
    intros _. eexists. reflexivity.
Qed.

(** A terminator that the scan finds lies inside the array, and no byte
    up to its end is NUL. *)
Lemma strstrFrom_Found (hay : list Z) : forall i e,
  strstrFrom hay i = Found e ->
  i <= e /\ e + 4 <= i + Z.of_nat (length hay) /\
  forall k : nat, Z.of_nat k < e - i + 4 -> hay !! k <> Some 0.
Proof.
  induction hay as [|b rest IH]; intros i e H; [discriminate|].
  cbn [strstrFrom] in H.
  destruct (b =? 0) eqn:Eb; [discriminate|]. apply Z.eqb_neq in Eb.
  destruct (startsCRLFCRLF (b :: rest)) eqn:Es.
  - injection H as <-. apply startsCRLFCRLF_spec in Es as [t Ht]. rewrite Ht.
    split; [lia|]. split; [cbn [length]; lia|].
    intros k Hk. destruct k as [|[|[|[|k]]]]; cbn; try discriminate. lia.
  - apply IH in H as (H1 & H2 & H3). split; [lia|]. split; [cbn [length]; lia|].
    intros k Hk. destruct k as [|k]; cbn.
    + intros [= ->]. congruence.
    + apply H3. lia.
Qed.

(** The scan stays inside an array that holds a NUL. *)
Lemma strstrFrom_terminated (hay : list Z) : forall i (k : nat),
  hay !! k = Some 0 -> strstrFrom hay i <> Overrun.
Proof.
  induction hay as [|b rest IH]; intros i k H; [discriminate|].
  cbn [strstrFrom].
  destruct (b =? 0) eqn:Eb; [discriminate|]. apply Z.eqb_neq in Eb.
  destruct (startsCRLFCRLF (b :: rest)); [discriminate|].
  destruct k as [|k]; cbn in H; [congruence|]. eapply IH; eauto.
Qed.

Lemma bufWrite_Some (buf data : list Z) (pos : Z) (buf' : list Z) :
  bufWrite buf pos data = Some buf' ->
  0 <= pos /\ pos + Z.of_nat (length data) <= Z.of_nat (length buf) /\
  length buf' = length buf /\
  forall k : nat, (Z.to_nat pos + length data <= k)%nat -> buf' !! k = buf !! k.
Proof.
  unfold bufWrite. destruct (_ && _) eqn:E; [|discriminate].
  apply andb_true_iff in E as [E1 E2]. apply Z.leb_le in E1. apply Z.leb_le in E2.
  intros [= <-]. split; [lia|]. split; [lia|]. split.
  - rewrite !length_app, length_take, length_drop. lia.
  - intros k Hk.
    rewrite lookup_app_r by (rewrite length_take; lia).
    rewrite lookup_app_r by (rewrite length_take; lia).
    rewrite lookup_drop. f_equal. rewrite length_take. lia.
Qed.

(** [handleRTSPCommand] appends its reply to what the client has been
    sent and touches nothing of the parse buffer, of the connection, or
    outside the session. *)
Lemma handleRTSPCommand_frame (now : Z) (ip : string) (rnd : Z) (request : string)
      (st : State) :
  let st' := handleRTSPCommand now ip rnd request st in
  rtspParseBuffer st' = rtspParseBuffer st /\
  rtspParseBufferPos st' = rtspParseBufferPos st /\
  connected (rtspClient st') = connected (rtspClient st) /\
  rxPending (rtspClient st') = rxPending (rtspClient st) /\
  rtspServerEnabled st' = rtspServerEnabled st /\
  audio st' = audio st /\ diag st' = diag st /\ thermal st' = thermal st /\
  power st' = power st /\ audioPrefs st' = audioPrefs st /\
  rtspServer st' = rtspServer st /\
  exists reply, txSent (rtspClient st') = txSent (rtspClient st) ++ reply.
Proof.
  destruct_state st. intros st'. subst st'.
  cbv beta delta [handleRTSPCommand]. cbv zeta.
  repeat match goal with
         | |- context [if startsWith request ?v then _ else _] =>
             destruct (startsWith request v)
         end.
  all: sst_cbv client_print.
  all: repeat split.
  all: eexists; rewrite <- ?app_assoc; try reflexivity.
  symmetry. apply app_nil_r.
Qed.
(** The first steps of [processRTSP] when the client is connected and the
    waiting bytes fit in front of the last byte of the array. *)
Lemma processRTSP_read (now : Z) (ip : string) (rnd : Z) (st : State) :
  connected (rtspClient st) = true ->
  rxPending (rtspClient st) <> [] ->
  length (rtspParseBuffer st) = Z.to_nat RTSP_PARSE_BUFFER_SIZE ->
  0 <= rtspParseBufferPos st ->
  rtspParseBufferPos st + Z.of_nat (length (rxPending (rtspClient st)))
  < RTSP_PARSE_BUFFER_SIZE ->
  processRTSP now ip rnd st =
  let pos' := rtspParseBufferPos st + Z.of_nat (length (rxPending (rtspClient st))) in
  let st1 := set_rtspParseBufferPos pos'
               (set_rtspClient {| connected := true; rxPending := [];
                                  txSent := txSent (rtspClient st) |}
                  (set_rtspParseBuffer (bufferAfterRead st) st)) in
  match strstrFrom (bufferAfterRead st) 0 with
  | Overrun => OutOfBounds
  | NotFound => Ok st1
  | Found e =>
      let st2 := handleRTSPCommand now ip rnd
                   (stringOfBytes (take (Z.to_nat e) (bufferAfterRead st)))
                   (set_rtspParseBuffer (<[Z.to_nat e := 0]> (bufferAfterRead st)) st1) in
      match bufMoveFront (<[Z.to_nat e := 0]> (bufferAfterRead st)) (e + 4)
                         (u32 (pos' - (e + 4))) with
      | None => OutOfBounds
      | Some buf => Ok (set_rtspParseBufferPos (pos' - (e + 4)) (set_rtspParseBuffer buf st2))
      end
  end.
Proof.
  intros Hc Hne Hlen Hpos Hfit.
  unfold processRTSP. rewrite Hc. cbn [negb].
  assert (Ha : (0 <? Z.of_nat (length (rxPending (rtspClient st)))) = true).
  { apply Z.ltb_lt. destruct (rxPending (rtspClient st)); [congruence|cbn [length]; lia]. }
  rewrite Ha.
  assert (Ho : (RTSP_PARSE_BUFFER_SIZE <=?
                rtspParseBufferPos st + Z.of_nat (length (rxPending (rtspClient st)))) = false).
  { apply Z.leb_gt. exact Hfit. }
  rewrite Ho. cbn [andb].
  rewrite Nat2Z.id, take_ge, drop_ge by lia.
  assert (Hw : bufWrite (rtspParseBuffer st) (rtspParseBufferPos st)
                        (rxPending (rtspClient st)) = Some (bufferAfterRead st)).
  { unfold bufWrite, bufferAfterRead.
    replace (_ && _) with true; [reflexivity|].
    symmetry. apply andb_true_iff. split; [apply Z.leb_le; lia|].
    apply Z.leb_le. unfold RTSP_PARSE_BUFFER_SIZE in *. lia. }
  rewrite Hw. sst.
  destruct (strstrFrom (bufferAfterRead st) 0) as [e| |]; try reflexivity.
  cbv zeta.
  match goal with
  | |- context [handleRTSPCommand ?a ?b ?c ?r ?s] =>
      pose proof (handleRTSPCommand_frame a b c r s) as F; cbv zeta in F;
      destruct F as (Hb & Hp & _)
  end.
  rewrite Hb, Hp. sst. reflexivity.
Qed.

(** X8. A terminator made of bytes an earlier request left behind
    takes [processRTSP] out of the array.  When the scan finds the four
    terminating bytes at an offset whose end lies beyond the bytes
    received so far, the length handed to [memmove] is the negative
    difference converted to [size_t]: the copy reaches far beyond the
    1024 bytes of the array. *)
Theorem processRTSP_terminator_beyond_data_out_of_bounds :
  forall (now : Z) (ip : string) (rnd : Z) (st : State) (e : Z),
    connected (rtspClient st) = true ->
    rxPending (rtspClient st) <> [] ->
    length (rtspParseBuffer st) = Z.to_nat RTSP_PARSE_BUFFER_SIZE ->
    0 <= rtspParseBufferPos st ->
    rtspParseBufferPos st + Z.of_nat (length (rxPending (rtspClient st)))
    < RTSP_PARSE_BUFFER_SIZE ->
    strstrFrom (bufferAfterRead st) 0 = Found e ->
    rtspParseBufferPos st + Z.of_nat (length (rxPending (rtspClient st))) < e + 4 ->
    processRTSP now ip rnd st = OutOfBounds.
Proof.
  intros now ip rnd st e Hc Hne Hlen Hpos Hfit Hf Hbeyond.
  rewrite processRTSP_read by assumption. cbv zeta. rewrite Hf.
  apply strstrFrom_Found in Hf as (He0 & He4 & _).
  unfold bufMoveFront.
  replace (_ && _) with false; [reflexivity|].
  symmetry. apply andb_false_iff. right. apply Z.leb_gt.
  rewrite length_insert.
  assert (Hl : length (bufferAfterRead st) = length (rtspParseBuffer st)).
  { unfold bufferAfterRead. rewrite !length_app, length_take, length_drop.
    unfold RTSP_PARSE_BUFFER_SIZE in *. lia. }
  rewrite Hl in *. rewrite Hlen in *. unfold RTSP_PARSE_BUFFER_SIZE in *.
  unfold u32. rewrite <- (Z.mod_add _ 1) by lia. rewrite Z.mod_small by lia. lia.
Qed.

(** After the request [AB] and three line ends, position 2, the single
    byte [X]: the bytes of the old request that are still in the array
    give a terminator at offset 4, which ends at 8, beyond position 3. *)
Lemma processRTSP_terminator_beyond_data_witness :
  processRTSP 2000 "10.0.0.2" 123456789 (client_receive [88] afterFirstRequest)
  = OutOfBounds.
Proof.
  apply (processRTSP_terminator_beyond_data_out_of_bounds
           2000 "10.0.0.2" 123456789 (client_receive [88] afterFirstRequest) 4).
  - vm_compute. reflexivity.
  - vm_compute. discriminate.
  - vm_compute. reflexivity.
  - vm_compute. discriminate.
  - vm_compute. reflexivity.
  - vm_compute. reflexivity.
  - vm_compute. reflexivity.
Defined.

(** X9. [processRTSP] stays inside the array when the byte that
    follows the received bytes is NUL, as it is while the array is still
    zero-filled behind the data: the call completes, the new position
    lies between 0 and the end of the data, the array keeps its size and
    every waiting byte has been consumed. *)
Theorem processRTSP_in_bounds_when_terminated :
  forall (now : Z) (ip : string) (rnd : Z) (st : State),
    connected (rtspClient st) = true ->
    rxPending (rtspClient st) <> [] ->
    length (rtspParseBuffer st) = Z.to_nat RTSP_PARSE_BUFFER_SIZE ->
    0 <= rtspParseBufferPos st ->
    let pos' := rtspParseBufferPos st + Z.of_nat (length (rxPending (rtspClient st))) in
    pos' < RTSP_PARSE_BUFFER_SIZE ->
    rtspParseBuffer st !! Z.to_nat pos' = Some 0 ->
    exists st',
      processRTSP now ip rnd st = Ok st' /\
      0 <= rtspParseBufferPos st' <= pos' /\
      length (rtspParseBuffer st') = length (rtspParseBuffer st) /\
      rxPending (rtspClient st') = [].
Proof.
  intros now ip rnd st Hc Hne Hlen Hpos pos' Hfit Hnul. subst pos'.
  rewrite processRTSP_read by assumption. cbv zeta.
  assert (Hl : length (bufferAfterRead st) = length (rtspParseBuffer st)).
  { unfold bufferAfterRead. rewrite !length_app, length_take, length_drop.
    unfold RTSP_PARSE_BUFFER_SIZE in *. lia. }
  assert (Hz : bufferAfterRead st
               !! Z.to_nat (rtspParseBufferPos st
                            + Z.of_nat (length (rxPending (rtspClient st)))) = Some 0).
  { unfold bufferAfterRead.
    rewrite lookup_app_r by (rewrite length_take; lia).
    rewrite lookup_app_r by (rewrite length_take; lia).
    rewrite lookup_drop. rewrite <- Hnul. f_equal. rewrite length_take. lia. }
  destruct (strstrFrom (bufferAfterRead st) 0) as [e| |] eqn:Hf.
  - apply strstrFrom_Found in Hf as (He0 & He4 & Hnz).
    assert (He : e + 4 <= rtspParseBufferPos st
                          + Z.of_nat (length (rxPending (rtspClient st)))).
    { destruct (Z_le_gt_dec (e + 4) (rtspParseBufferPos st
                          + Z.of_nat (length (rxPending (rtspClient st))))); [assumption|].
      exfalso. eapply Hnz; [|exact Hz]. lia. }
    unfold bufMoveFront. rewrite length_insert, Hl, Hlen.
    unfold RTSP_PARSE_BUFFER_SIZE in *.
    replace (_ && _) with true.
    + eexists. split; [reflexivity|]. sst.
      split; [lia|]. split.
      * rewrite length_app, length_take, length_drop, length_drop, length_insert, Hl, Hlen.
        unfold u32. rewrite Z.mod_small by lia. lia.
      * match goal with
        | |- context [handleRTSPCommand ?a ?b ?c ?r ?s] =>
            pose proof (handleRTSPCommand_frame a b c r s) as F; cbv zeta in F;
            destruct F as (_ & _ & _ & Hr & _)
        end.
        rewrite Hr. reflexivity.
    + symmetry. apply andb_true_iff.
      unfold u32. rewrite Z.mod_small by lia. split; apply Z.leb_le; lia.
  - eexists. split; [reflexivity|]. sst. rewrite Hl. split; [lia|]. split; reflexivity.
  - exfalso. eapply strstrFrom_terminated; eauto.
Qed.

(** A first request on the zero-filled array of a fresh connection. *)
Lemma processRTSP_in_bounds_witness :
  let st := client_receive (bytesOfString ("OPTIONS * RTSP/1.0" +:+ CRLF +:+ CRLF))
                           connectedState in
  exists st',
    processRTSP 2000 "10.0.0.2" 123456789 st = Ok st' /\
    0 <= rtspParseBufferPos st' <= 22 /\
    length (rtspParseBuffer st') = length (rtspParseBuffer st) /\
    rxPending (rtspClient st') = [].
Proof.
  apply (processRTSP_in_bounds_when_terminated 2000 "10.0.0.2" 123456789
           (client_receive (bytesOfString ("OPTIONS * RTSP/1.0" +:+ CRLF +:+ CRLF))
                           connectedState)).
  - vm_compute. reflexivity.
  - vm_compute. discriminate.
  - vm_compute. reflexivity.
  - vm_compute. discriminate.
  - vm_compute. reflexivity.
  - vm_compute. reflexivity.
Defined.
(** *** The packet on the wire *)

Lemma byte_of (x k : Z) : 0 <= k -> Z.land (Z.shiftr x k) 255 = (x / 2 ^ k) mod 256.
Proof.
  intros Hk. rewrite Z.shiftr_div_pow2 by lia.
  change 255 with (Z.ones 8). rewrite Z.land_ones by lia. reflexivity.
Qed.

Lemma byte_low (x : Z) : Z.land x 255 = x mod 256.
Proof. change 255 with (Z.ones 8). rewrite Z.land_ones by lia. reflexivity. Qed.

Lemma be16_bytes (x : Z) :
  0 <= x < 2 ^ 16 -> be16 ((x / 2 ^ 8) mod 256) (x mod 256) = x.
Proof.
  intros Hx. unfold be16. change (2 ^ 8) with 256 in *. change (2 ^ 16) with 65536 in *.
  Z.to_euclidean_division_equations. lia.
Qed.

Lemma be32_bytes (x : Z) :
  0 <= x < 2 ^ 32 ->
  be32 ((x / 2 ^ 24) mod 256) ((x / 2 ^ 16) mod 256) ((x / 2 ^ 8) mod 256) (x mod 256) = x.
Proof.
  intros Hx. unfold be32.
  change (2 ^ 24) with 16777216. change (2 ^ 16) with 65536. change (2 ^ 8) with 256.
  change (2 ^ 32) with 4294967296 in Hx.
  Z.to_euclidean_division_equations. lia.
Qed.

(** X10. The twelve bytes [sendRTPPacket] builds read back as an
    RTP header of version 2 without padding, extension or contributing
    sources, marker clear, payload type 96, and with the sequence number,
    the timestamp and the SSRC of the state; each is a byte. *)
Theorem rtpHeader_parses_back :
  forall st : State,
    0 <= rtpSequence st < 2 ^ 16 ->
    0 <= rtpTimestamp st < 2 ^ 32 ->
    0 <= rtpSSRC st < 2 ^ 32 ->
    parseRtpHeader (rtpHeader st)
    = Some (2, 96, rtpSequence st, rtpTimestamp st, rtpSSRC st) /\
    (match rtpHeader st with v :: pt :: _ => Z.land v 63 = 0 /\ Z.shiftr pt 7 = 0
                        | _ => False end) /\
    Forall (fun b => 0 <= b < 256) (rtpHeader st).
Proof.
  intros st Hs Ht Hr. unfold rtpHeader, parseRtpHeader.
  rewrite !byte_of, !byte_low by lia.
  split; [|split].
  - rewrite be16_bytes, !be32_bytes by assumption. reflexivity.
  - split; reflexivity.
  - repeat constructor; try lia; apply Z.mod_pos_bound; lia.
Qed.

(** Sequence 258, timestamp 16909060, the SSRC set at boot. *)
Lemma rtpHeader_parses_back_witness :
  let st := set_rtpTimestamp 16909060 (set_rtpSequence 258 playingState) in
  parseRtpHeader (rtpHeader st) = Some (2, 96, 258, 16909060, rtpSSRC st) /\
  (match rtpHeader st with v :: pt :: _ => Z.land v 63 = 0 /\ Z.shiftr pt 7 = 0
                      | _ => False end) /\
  Forall (fun b => 0 <= b < 256) (rtpHeader st).
Proof.
  apply (rtpHeader_parses_back (set_rtpTimestamp 16909060 (set_rtpSequence 258 playingState)));
    vm_compute; split; (discriminate || reflexivity).
Defined.

Lemma writeSegments_whole ws c inter header payload ws' c' :
  writeSegments ws c inter header payload = (true, ws', c') ->
  txSent c' = txSent c ++ inter ++ header ++ payload.
Proof.
  unfold writeSegments.
  destruct (writeAll ws c inter 0) as [[ok1 ws1] c1] eqn:E1.
  destruct ok1; cbn [negb]; [|discriminate].
  destruct (writeAll ws1 c1 header 0) as [[ok2 ws2] c2] eqn:E2.
  destruct ok2; cbn [negb]; [|discriminate].
  intros E3.
  apply segmentWhole_all_bytes in E1, E2, E3.
  rewrite E3, E2, E1, <- !app_assoc. reflexivity.
Qed.

Lemma bytesOfSamples_swapped (l : list Z) :
  Forall (fun s => -32768 <= s <= 32767) l ->
  bytesOfSamples (map swap16 l) = flat_map bigEndianSample l.
Proof.
  unfold bytesOfSamples. induction 1 as [|s l Hs _ IH]; [reflexivity|].
  cbn [map flat_map]. rewrite IH. f_equal.
  destruct (swap16_bytes s Hs) as [Hb _]. rewrite Hb.
  unfold bigEndianSample. rewrite byte_low.
  rewrite Z.shiftr_div_pow2 by lia. change (2 ^ 8) with 256.
  assert (0 <= u16 s < 65536) by (unfold u16; apply Z.mod_pos_bound; lia).
  cbn [app]. f_equal; [|f_equal]; Z.to_euclidean_division_equations; lia.
Qed.

Lemma bytesOfSamples_length (l : list Z) :
  length (bytesOfSamples l) = (2 * length l)%nat.
Proof. unfold bytesOfSamples. induction l; cbn [flat_map length app]; lia. Qed.

Lemma bytesOfSamples_app (l1 l2 : list Z) :
  bytesOfSamples (l1 ++ l2) = bytesOfSamples l1 ++ bytesOfSamples l2.
Proof. unfold bytesOfSamples. apply flat_map_app. Qed.

(** X11. A packet that goes out whole puts on the connection, after
    what was sent before: the interleaved frame header, a dollar sign,
    channel 0 and the length [12 + 2 * numSamples] in network order; the
    RTP header of the state before the call; and the first [numSamples]
    samples of the buffer, each as two bytes in network order. *)
Theorem sendRTPPacket_wire_format :
  forall (ws audioData : list Z) (numSamples : Z) (st : State),
    packetSent ws audioData numSamples st ->
    0 <= numSamples <= Z.of_nat (length audioData) ->
    12 + 2 * numSamples < 65536 ->
    Forall (fun s => -32768 <= s <= 32767) audioData ->
    let st' := fst (fst (sendRTPPacket ws audioData numSamples st)) in
    txSent (rtspClient st')
    = txSent (rtspClient st)
      ++ [36; 0; (12 + 2 * numSamples) / 256; (12 + 2 * numSamples) mod 256]
      ++ rtpHeader st
      ++ flat_map bigEndianSample (take (Z.to_nat numSamples) audioData).
Proof.
  intros ws audioData numSamples st [Hc Hok] Hn Hsz Hr st'. subst st'.
  unfold sendRTPPacket. rewrite Hc. cbn [negb].
  destruct (writeSegments _ _ _ _ _) as [[ok ws'] c'] eqn:E.
  cbn [fst] in Hok. subst ok. cbn [negb fst]. sst.
  apply writeSegments_whole in E. rewrite E. do 2 f_equal.
  - unfold rtpInterleaved, rtpPacketSize, rtpPayloadSize, u16.
    rewrite (Z.mod_small (numSamples * 2)) by lia.
    rewrite Z.mod_small by lia.
    rewrite byte_of, byte_low by lia. change (2 ^ 8) with 256.
    replace (12 + numSamples * 2) with (12 + 2 * numSamples) by lia.
    do 2 f_equal. f_equal. rewrite Z.mod_small; [reflexivity|].
    Z.to_euclidean_division_equations. lia.
  - f_equal. unfold rtpPayload, swapSamples, rtpPayloadSize, u16.
    rewrite Z.mod_small by lia.
    rewrite bytesOfSamples_app, take_app_le.
    + rewrite take_ge.
      * apply bytesOfSamples_swapped. apply Forall_take. exact Hr.
      * rewrite bytesOfSamples_length, length_map, length_take. lia.
    + rewrite bytesOfSamples_length, length_map, length_take. lia.
Qed.

(** Two samples, 0x1234 and -2, sent whole from the playing state. *)
Lemma sendRTPPacket_wire_format_witness :
  let st' := fst (fst (sendRTPPacket [4; 12; 4] [4660; -2] 2 playingState)) in
  txSent (rtspClient st')
  = txSent (rtspClient playingState)
    ++ [36; 0; (12 + 2 * 2) / 256; (12 + 2 * 2) mod 256]
    ++ rtpHeader playingState
    ++ flat_map bigEndianSample (take (Z.to_nat 2) [4660; -2]).
Proof.
  apply (sendRTPPacket_wire_format [4; 12; 4] [4660; -2] 2 playingState).
  - split; vm_compute; reflexivity.
  - cbn. lia.
  - lia.
  - repeat constructor; lia.
Defined.

(** *** The thermal latch *)

(** X12. A valid reading at or above the limit, with the protection
    enabled, no lockout in force and no factory reset pending, trips the
    protection.  The reading and the time of the trip are recorded in
    RAM; the uptime stamp and the reason, worded with the reading and the
    limit, are recorded in RAM and, with the reading, in flash; the
    lockout and the persisted latch are set, the client is dropped,
    streaming ends and the server is disabled and closed. *)
Theorem checkTemperature_trips :
  forall (P : Platform) (now : Z) (temp : f32) (st : State),
    overheatProtectionEnabled st = true ->
    overheatLockoutActive st = false ->
    scheduledFactoryReset st = false ->
    isTemperatureValid temp = true ->
    (temp >=? overheatShutdownC st)%f32 = true ->
    let st' := checkTemperature now temp st in
    tripRecorded now temp st st' /\ overheatLockoutActive st' = true /\ latchedOff st'.
Proof.
  intros P now temp st.
  destruct_state st. sst_nz. intros Hp Hl Hf Hv Hge. subst. intros st'.
  remember st' as r eqn:E in |- *. subst st'. symmetry in E. revert r E.
  cbv beta delta [checkTemperature recordOverheatTrip persistOverheatNote].
  intros r.
  exec.
  all: unfold tripRecorded, latchedOff; sst_cbv.
  all: repeat split; simplify_map_eq; try reflexivity; try assumption.
  all: repeat match goal with
              | H : context [if ?b then _ else _] |- _ => destruct b; try discriminate
              end; reflexivity.
Qed.


(** The limit 80 of a fresh device, a client streaming, and a reading of
    82 degrees one minute after a reading of 70. *)
Lemma checkTemperature_trips_witness :
  let st := checkTemperature (P:=refPlatform) 61000 (F32.of_Z 70)
              (set_isStreaming true connectedState) in
  let st' := checkTemperature (P:=refPlatform) 121000 (F32.of_Z 82) st in
  tripRecorded (P:=refPlatform) 121000 (F32.of_Z 82) st st' /\
  overheatLockoutActive st' = true /\ latchedOff st'.
Proof.
  apply (checkTemperature_trips refPlatform 121000 (F32.of_Z 82)
           (checkTemperature (P:=refPlatform) 61000 (F32.of_Z 70)
              (set_isStreaming true connectedState)));
    vm_compute; reflexivity.
Defined.
(** *** Sequencing under an invariant

    The functions of the sketch are chains of assignments to the
    globals; an invariant is carried through a chain one [let] at a
    time. *)

Lemma inv_let (I J : State -> Prop) (e : State) (b : State -> State) :
  I e -> (forall x, I x -> J (b x)) -> J (let x := e in b x).
Proof. intros He Hb. exact (Hb e He). Qed.

Lemma inv_let_fst {C : Type} (I J : State -> Prop) (e : State) (b : State -> State * C) :
  I e -> (forall x, I x -> J (fst (b x))) -> J (fst (let x := e in b x)).
Proof. intros He Hb. exact (Hb e He). Qed.

Lemma inv_let_val {A : Type} (J : State -> Prop) (e : A) (b : A -> State) :
  (forall x, J (b x)) -> J (let x := e in b x).
Proof. intros Hb. exact (Hb e). Qed.

Lemma inv_let_val_fst {A C : Type} (J : State -> Prop) (e : A) (b : A -> State * C) :
  (forall x, J (fst (b x))) -> J (fst (let x := e in b x)).
Proof. intros Hb. exact (Hb e). Qed.

(** What is known about the conditions met so far settles [E]. *)
Ltac known_cond E :=
  repeat match goal with
         | F : ?c = true |- _ => tryif constr_eq F E then fail else rewrite F in E
         | F : ?c = false |- _ => tryif constr_eq F E then fail else rewrite F in E
         end;
  cbn [negb andb orb] in E; try discriminate E; try congruence.

(** The facts an invariant gives about a state. *)
Ltac inv_facts H :=
  let H' := fresh in pose proof H as H'; hnf in H'; decompose [and] H'; try clear H'.

Ltac inv_intro :=
  repeat match goal with s : State |- _ => clear dependent s end;
  let x := fresh "st" in let Hx := fresh "Hst" in
  intros x Hx; cbv beta; inv_facts Hx.

Ltac inv_step I callee leaf :=
  lazymatch goal with
  | |- I (fst (let x := ?e in @?b x)) =>
      lazymatch type of e with
      | State => apply (inv_let_fst I I e b); [|inv_intro]
      | _ => apply (inv_let_val_fst I e b); intro; cbv beta
      end
  | |- I (fst (?a, ?b)) => change (I a)
  | |- I (let x := ?e in @?b x) =>
      lazymatch type of e with
      | State => apply (inv_let I I e b); [|inv_intro]
      | _ => apply (inv_let_val I e b); intro; cbv beta
      end
  | |- I (if ?c then _ else _) =>
      let E := fresh "E" in destruct c eqn:E; known_cond E
  | |- I (match ?o with Some _ => _ | None => _ end) => destruct o eqn:?
  | |- I ?s => first [is_var s; assumption | callee | leaf]
  end.

(** One [let], with the invariant before it and the one after it. *)
Ltac inv_let_with I J :=
  lazymatch goal with
  | |- J (let x := ?e in @?b x) => apply (inv_let I J e b)
  end.

Ltac inv_run I callee leaf := repeat inv_step I callee leaf.

(** The same for a chain that can end in a restart. *)
Lemma call_let {A : Type} (I : State -> Prop) (K : Call A -> Prop) (e : State)
      (b : State -> Call A) :
  I e -> (forall x, I x -> K (b x)) -> K (let x := e in b x).
Proof. intros He Hb. exact (Hb e He). Qed.

Lemma call_let_val {A B : Type} (K : Call A -> Prop) (e : B) (b : B -> Call A) :
  (forall x, K (b x)) -> K (let x := e in b x).
Proof. intros Hb. exact (Hb e). Qed.

Lemma call_bind {A B : Type} (I : State -> Prop) (projA : A -> State) (projB : B -> State)
      (c : Call A) (k : A -> Call B) :
  callInv I projA c -> (forall a, I (projA a) -> callInv I projB (k a)) ->
  callInv I projB (callBind c k).
Proof. destruct c as [a|s]; cbn; intros Hc Hk; [exact (Hk a Hc)|exact Hc]. Qed.

Ltac call_step I callee ccallee leaf :=
  lazymatch goal with
  | |- callInv I ?p (let x := ?e in @?b x) =>
      lazymatch type of e with
      | State => apply (call_let I (callInv I p) e b); [|inv_intro]
      | _ => apply (call_let_val (callInv I p) e b); intro; cbv beta
      end
  | |- callInv I _ (if ?c then _ else _) =>
      let E := fresh "E" in destruct c eqn:E; known_cond E
  | |- callInv I _ (match ?o with Some _ => _ | None => _ end) => destruct o eqn:?
  | |- callInv I ?p (callBind ?c ?k) =>
      apply (call_bind I (fun s : State => s) p c k); [|inv_intro]
  | |- callInv I ?p (Returns ?a) => change (I (p a)); cbv beta; cbn [fst snd]
  | |- callInv I _ (Restarts ?s) => change (I s)
  | |- callInv I _ _ => ccallee
  | |- _ => inv_step I callee leaf
  end.

Ltac call_run I callee ccallee leaf := repeat call_step I callee ccallee leaf.

(** *** The thermal latch holds *)

Lemma latchedOff_view (st' st : State) :
  latchView st' = latchView st -> latchedOff st -> latchedOff st'.
Proof.
  unfold latchView, latchedOff. intros [= -> -> -> -> -> -> ->]. tauto.
Qed.

Lemma latchedOff_putPref (k : string) (v : PrefVal) (st : State) :
  k <> "ohLatched" -> latchedOff st -> latchedOff (putPref k v st).
Proof.
  intros Hk H. unfold latchedOff in *. unfold putPref.
  sst. rewrite lookup_insert_ne by exact Hk. exact H.
Qed.

Lemma latchedOff_putPref_latched (st : State) :
  latchedOff st -> latchedOff (putPref "ohLatched" (PBool (overheatLatched st)) st).
Proof.
  intros H. unfold latchedOff in *. unfold putPref.
  sst. rewrite lookup_insert. destruct H as (-> & H). tauto.
Qed.

(** A step that only assigns globals: the fields [latchedOff] reads are
    the same by computation, or are read off one by one. *)
Ltac latch_leaf :=
  idtac;
  lazymatch goal with
  | |- latchedOff (putPref "ohLatched" _ _) =>
      apply latchedOff_putPref_latched; assumption
  | |- latchedOff (putPref _ _ _) =>
      apply latchedOff_putPref; [discriminate|assumption]
  | _ =>
      first
        [ match goal with
          | H : latchedOff ?s |- latchedOff ?t =>
              let E := fresh in
              assert (E : latchView t = latchView s)
                by (unfold latchView; sst_nz;
                    lazymatch goal with |- ?a = ?a => reflexivity end);
              exact (latchedOff_view t s E H)
          end
        | repeat match goal with s : State |- _ => destruct_state s end;
          unfold latchedOff in *; sst_cbv;
          intuition (simplify_map_eq; try congruence) ]
  end.

Ltac latch_callee := fail.
Ltac latch := inv_run latchedOff ltac:(latch_callee) ltac:(latch_leaf).
Ltac latch_start :=
  match goal with H : latchedOff _ |- _ => inv_facts H end.

Lemma setup_i2s_driver_keeps_latch (st : State) :
  latchedOff st -> latchedOff (setup_i2s_driver st).
Proof. intros H. latch_start. cbv beta delta [setup_i2s_driver]. latch. Qed.

Lemma updateHighpassCoeffs_keeps_latch {P : Platform} (st : State) :
  latchedOff st -> latchedOff (updateHighpassCoeffs st).
Proof. intros H. latch_start. cbv beta delta [updateHighpassCoeffs]. latch. Qed.

Lemma applyWifiTxPower_keeps_latch (st : State) :
  latchedOff st -> latchedOff (applyWifiTxPower st).
Proof. intros H. latch_start. cbv beta delta [applyWifiTxPower]. latch. Qed.

Lemma persistOverheatNote_keeps_latch (st : State) :
  latchedOff st -> latchedOff (persistOverheatNote st).
Proof. intros H. latch_start. cbv beta delta [persistOverheatNote]. latch. Qed.

Lemma saveAudioSettings_keeps_latch (st : State) :
  latchedOff st -> latchedOff (saveAudioSettings st).
Proof.
  destruct_state st. unfold latchedOff. sst_cbv saveAudioSettings.
  intuition (simplify_map_eq; try congruence).
Qed.

Ltac latch_callee ::=
  idtac;
  lazymatch goal with
  | |- latchedOff (saveAudioSettings _) => apply saveAudioSettings_keeps_latch
  | |- latchedOff (setup_i2s_driver _) => apply setup_i2s_driver_keeps_latch
  | |- latchedOff (updateHighpassCoeffs _) => apply updateHighpassCoeffs_keeps_latch
  | |- latchedOff (applyWifiTxPower _) => apply applyWifiTxPower_keeps_latch
  | |- latchedOff (persistOverheatNote _) => apply persistOverheatNote_keeps_latch
  end.

Ltac latch_ccallee := fail.
Ltac call_latch :=
  call_run latchedOff ltac:(latch_callee) ltac:(latch_ccallee) ltac:(latch_leaf).

Lemma restartI2S_keeps_latch {P : Platform} (allocOk : bool) (st : State) :
  latchedOff st -> callInv latchedOff (fun s => s) (restartI2S allocOk st).
Proof.
  intros H. latch_start. destruct allocOk; cbv beta iota delta [restartI2S]; call_latch.
Qed.

Ltac latch_ccallee ::=
  idtac;
  lazymatch goal with
  | |- callInv latchedOff _ (restartI2S _ _) => apply restartI2S_keeps_latch
  end.

Lemma recordOverheatTrip_keeps_latch {P : Platform} (now : Z) (temp : f32) (st : State) :
  latchedOff st -> latchedOff (recordOverheatTrip now temp st).
Proof. intros H. latch_start. cbv beta delta [recordOverheatTrip]. latch. Qed.

Ltac latch_callee ::=
  idtac;
  lazymatch goal with
  | |- latchedOff (saveAudioSettings _) => apply saveAudioSettings_keeps_latch
  | |- latchedOff (setup_i2s_driver _) => apply setup_i2s_driver_keeps_latch
  | |- latchedOff (updateHighpassCoeffs _) => apply updateHighpassCoeffs_keeps_latch
  | |- latchedOff (applyWifiTxPower _) => apply applyWifiTxPower_keeps_latch
  | |- latchedOff (persistOverheatNote _) => apply persistOverheatNote_keeps_latch
  | |- latchedOff (recordOverheatTrip _ _ _) => apply recordOverheatTrip_keeps_latch
  end.

(** A temperature sample does not lift the latch. *)
Lemma checkTemperature_keeps_latch {P : Platform} (now : Z) (temp : f32) (st : State) :
  latchedOff st -> latchedOff (checkTemperature now temp st).
Proof. intros H. latch_start. cbv beta delta [checkTemperature]. latch. Qed.

(** Nor does a request to the setter. *)
Lemma httpSet_keeps_latch {P : Platform} (allocOk : bool) (key : string)
      (value : option string) (log : LogRing) (st : State) :
  latchedOff st ->
  callInv latchedOff (fun r => fst (fst r)) (httpSet allocOk key value log st).
Proof. intros H. latch_start. cbv beta delta [httpSet]. call_latch. Qed.
Ltac latch_callee ::=
  idtac;
  lazymatch goal with
  | |- latchedOff (saveAudioSettings _) => apply saveAudioSettings_keeps_latch
  | |- latchedOff (setup_i2s_driver _) => apply setup_i2s_driver_keeps_latch
  | |- latchedOff (updateHighpassCoeffs _) => apply updateHighpassCoeffs_keeps_latch
  | |- latchedOff (applyWifiTxPower _) => apply applyWifiTxPower_keeps_latch
  | |- latchedOff (persistOverheatNote _) => apply persistOverheatNote_keeps_latch
  | |- latchedOff (recordOverheatTrip _ _ _) => apply recordOverheatTrip_keeps_latch
  | |- latchedOff (checkTemperature _ _ _) => apply checkTemperature_keeps_latch
  end.

Lemma httpActionServerStart_keeps_latch (st : State) :
  latchedOff st -> latchedOff (fst (httpActionServerStart st)).
Proof.
  intros H. unfold httpActionServerStart.
  destruct H as (Hl & H). rewrite Hl. cbn [fst]. unfold latchedOff. tauto.
Qed.

Lemma httpActionServerStop_keeps_latch (st : State) :
  latchedOff st -> latchedOff (fst (httpActionServerStop st)).
Proof. intros H. latch_start. cbv beta delta [httpActionServerStop]. latch. Qed.

Lemma httpActionReboot_keeps_latch (now : Z) (st : State) :
  latchedOff st -> latchedOff (fst (httpActionReboot now st)).
Proof.
  intros H. latch_start. cbv beta delta [httpActionReboot scheduleReboot]. cbn [fst]. latch.
Qed.

(** The latch in flash brings the device up latched: [loadAudioSettings]
    reads it back and disables the server. *)
Lemma loadAudioSettings_latched (st : State) :
  poweredUpLatched st -> latchedOff (loadAudioSettings st).
Proof.
  destruct_state st. unfold poweredUpLatched, latchedOff. sst_cbv.
  intros (Hf & Hs & Hi & Hc & Hr). subst.
  match type of Hf with
  | ?m !! _ = _ =>
      assert (Hg : getBool "ohLatched" false m = true)
        by (unfold getBool; rewrite Hf; reflexivity);
      cbv beta delta [loadAudioSettings]; sst_cbv;
      destruct (getBool "thrAuto" true m); sst_cbv; rewrite Hg; sst_cbv;
      rewrite ?Hg; repeat split; assumption
  end.
Qed.

Lemma setup_latched {P : Platform} (now ssrc : Z) (initialTemp : f32) (st : State) :
  poweredUpLatched st -> latchedOff (setup now ssrc initialTemp st).
Proof.
  intros H. cbv beta delta [setup].
  inv_let_with poweredUpLatched latchedOff.
  { unfold poweredUpLatched in *. exact H. }
  clear st H. intros st H. cbv beta.
  inv_let_with poweredUpLatched latchedOff.
  { unfold poweredUpLatched in *. exact H. }
  clear st H. intros st H. cbv beta.
  inv_let_with latchedOff latchedOff.
  { apply loadAudioSettings_latched. exact H. }
  clear st H. intros st H. cbv beta. latch_start.
  latch.
Qed.
Lemma initialState_poweredUpLatched (flash : gmap string PrefVal) :
  flash !! "ohLatched" = Some (PBool true) -> poweredUpLatched (initialState flash).
Proof. intros H. unfold poweredUpLatched. cbn. tauto. Qed.

Lemma restart_latched {P : Platform} (now ssrc : Z) (initialTemp : f32) (st : State) :
  audioPrefs st !! "ohLatched" = Some (PBool true) ->
  latchedOff (restart now ssrc initialTemp st).
Proof.
  intros H. cbv beta delta [restart].
  inv_let_with latchedOff latchedOff.
  - apply setup_latched, initialState_poweredUpLatched, H.
  - intros x Hx. cbv beta. latch_leaf.
Qed.

Lemma restart_keeps_latch {P : Platform} (now ssrc : Z) (initialTemp : f32) (st : State) :
  latchedOff st -> latchedOff (restart now ssrc initialTemp st).
Proof. intros H. apply restart_latched. apply H. Qed.

Ltac latch_callee ::=
  idtac;
  lazymatch goal with
  | |- latchedOff (saveAudioSettings _) => apply saveAudioSettings_keeps_latch
  | |- latchedOff (setup_i2s_driver _) => apply setup_i2s_driver_keeps_latch
  | |- latchedOff (updateHighpassCoeffs _) => apply updateHighpassCoeffs_keeps_latch
  | |- latchedOff (applyWifiTxPower _) => apply applyWifiTxPower_keeps_latch
  | |- latchedOff (persistOverheatNote _) => apply persistOverheatNote_keeps_latch
  | |- latchedOff (recordOverheatTrip _ _ _) => apply recordOverheatTrip_keeps_latch
  | |- latchedOff (checkTemperature _ _ _) => apply checkTemperature_keeps_latch
  | |- latchedOff (restart _ _ _ _) => apply restart_keeps_latch
  end.

Lemma loopDeferredReboot_keeps_latch {P : Platform} (now ssrc : Z) (initialTemp : f32)
      (st : State) :
  latchedOff st -> latchedOff (loopDeferredReboot now ssrc initialTemp st).
Proof. intros H. latch_start. cbv beta delta [loopDeferredReboot]. latch. Qed.

Lemma checkPerformance_keeps_latch {P : Platform} (allocOk : bool)
      (now heap minFreeHeap : Z) (st : State) :
  latchedOff st ->
  callInv latchedOff fst (checkPerformance allocOk now heap minFreeHeap st).
Proof.
  intros H. latch_start. cbv beta delta [checkPerformance]. call_latch.
Qed.

Lemma httpActionResetI2S_keeps_latch {P : Platform} (allocOk : bool) (st : State) :
  latchedOff st -> callInv latchedOff fst (httpActionResetI2S allocOk st).
Proof.
  intros H. latch_start. cbv beta delta [httpActionResetI2S]. call_latch.
Qed.

(** A call that keeps the latch either way leaves a latched device,
    restarted or not. *)
Lemma afterCall_keeps_latch {P : Platform} {A : Type} (proj : A -> State)
      (bootNow ssrc : Z) (initialTemp : f32) (c : Call A) :
  callInv latchedOff proj c -> latchedOff (afterCall proj bootNow ssrc initialTemp c).
Proof.
  destruct c as [a|s]; cbn [callInv afterCall]; intros H;
    [exact H|apply restart_keeps_latch, H].
Qed.

Lemma checkScheduledReset_keeps_latch {P : Platform} (now bootNow ssrc : Z)
      (initialTemp : f32) (st : State) :
  latchedOff st -> latchedOff (checkScheduledReset now bootNow ssrc initialTemp st).
Proof. intros H. latch_start. cbv beta delta [checkScheduledReset]. latch. Qed.

(** With the server disabled and no client, the RTSP part of [loop()]
    does nothing. *)
Lemma loopRtsp_latched {P : Platform} (now : Z) (ip : string) (rnd : Z)
      (incoming : option WiFiClient) (arrived : list Z) (readOk : bool)
      (raw ws : list Z) (st : State) :
  latchedOff st ->
  step (EvRtsp now ip rnd incoming arrived readOk raw ws) st = Ok st.
Proof.
  destruct_state st. unfold latchedOff. sst_cbv.
  intros (_ & _ & He & _ & _ & Hc & _). subst.
  sst_cbv step loopRtsp. reflexivity.
Qed.

(** Every event but the acknowledgement and the factory reset leaves a
    latched device latched. *)
Lemma step_keeps_latch {P : Platform} (ev : Event) (st : State) :
  clearsLatch ev = false -> latchedOff st ->
  exists st', step ev st = Ok st' /\ latchedOff st'.
Proof.
  intros Hev H.
  destruct ev as [now temp|alloc key value log bootNow ssrc t| | |alloc bootNow ssrc t|
                  |now|now|now ssrc t|now ssrc t|
                  |alloc now heap low bootNow ssrc t|now bootNow ssrc t
                  |now ip rnd inc arr ok raw ws];
    try discriminate Hev.
  - eexists. split; [cbv beta iota delta [step]; reflexivity|].
    apply checkTemperature_keeps_latch, H.
  - eexists. split; [cbv beta iota delta [step]; reflexivity|].
    apply afterCall_keeps_latch, httpSet_keeps_latch, H.
  - eexists. split; [cbv beta iota delta [step]; reflexivity|].
    apply httpActionServerStart_keeps_latch, H.
  - eexists. split; [cbv beta iota delta [step]; reflexivity|].
    apply httpActionServerStop_keeps_latch, H.
  - eexists. split; [cbv beta iota delta [step]; reflexivity|].
    apply afterCall_keeps_latch, httpActionResetI2S_keeps_latch, H.
  - eexists. split; [cbv beta iota delta [step]; reflexivity|].
    apply httpActionReboot_keeps_latch, H.
  - eexists. split; [cbv beta iota delta [step]; reflexivity|].
    apply loopDeferredReboot_keeps_latch, H.
  - eexists. split; [cbv beta iota delta [step]; reflexivity|].
    apply restart_keeps_latch, H.
  - eexists. split; [cbv beta iota delta [step]; reflexivity|].
    apply applyWifiTxPower_keeps_latch, H.
  - eexists. split; [cbv beta iota delta [step]; reflexivity|].
    apply afterCall_keeps_latch, checkPerformance_keeps_latch, H.
  - eexists. split; [cbv beta iota delta [step]; reflexivity|].
    apply checkScheduledReset_keeps_latch, H.
  - exists st. split; [apply loopRtsp_latched, H|exact H].
Qed.

(** X13. Once the protection has tripped, nothing but the
    acknowledgement of the latch (and the factory reset) brings serving
    back.  From a state where the persisted latch is set and serving is
    off, every sequence of temperature samples, setter requests, server
    start, stop and capture reset requests, reboot requests, supervisor
    checks, RTSP polls with clients knocking, restarts and ends of
    [loop()] runs through and leaves the latch set in RAM and in flash,
    the server disabled and closed, nothing streaming and no client
    connected; so it is when an allocation fails on the way and the
    sketch restarts the device. *)
Theorem thermal_latch_holds_until_cleared :
  forall (P : Platform) (evs : list Event) (st : State),
    latchedOff st ->
    Forall (fun ev => clearsLatch ev = false) evs ->
    exists st', run evs st = Ok st' /\ latchedOff st'.
Proof.
  intros P evs. induction evs as [|ev evs IH]; intros st H Hevs.
  - exists st. split; [reflexivity|exact H].
  - inversion Hevs as [|? ? Hev Hrest]; subst.
    destruct (step_keeps_latch ev st Hev H) as (st1 & Hs & H1).
    destruct (IH st1 H1 Hrest) as (st2 & Hr & H2).
    exists st2. split; [|exact H2]. cbn [run]. rewrite Hs. exact Hr.
Qed.

(** After the trip at 82 degrees: a reading of 76, a reading of 74, a
    request to start the server, a change of the sample rate, a capture
    reset whose allocation fails, a client that tries to connect, and a
    restart. *)
Lemma thermal_latch_holds_witness :
  let tripped := checkTemperature (P:=refPlatform) 121000 (F32.of_Z 82)
                   (set_isStreaming true connectedState) in
  let evs := [EvTemperature 181000 (F32.of_Z 76); EvTemperature 241000 (F32.of_Z 74);
              EvServerStart;
              EvHttpSet true "rate" (Some "16000") emptyLog 1000 4242 (F32.of_Z 60);
              EvResetI2S false 300000 4242 (F32.of_Z 60);
              EvRtsp 250000 "10.0.0.2" 123456789
                     (Some {| connected := true; rxPending := []; txSent := [] |})
                     [] true [] [];
              EvRestart 1000 4242 (F32.of_Z 60)] in
  exists st', run (P:=refPlatform) evs tripped = Ok st' /\ latchedOff st'.
Proof.
  apply (thermal_latch_holds_until_cleared refPlatform).
  - repeat split; vm_compute; reflexivity.
  - repeat constructor.
Defined.
(** *** Readings that do not trip *)

(** X14. A reading that is not a number, is infinite, or lies
    outside -20..130 degrees is treated as a sensor fault and never
    trips the protection, however hot it claims to be: the fault is
    flagged, the last valid reading is kept, and the session, the
    server, the client, the lockout and the latch stay as they were. *)
Theorem checkTemperature_invalid_reading_never_trips :
  forall (P : Platform) (now : Z) (temp : f32) (st : State),
    isTemperatureValid temp = false ->
    let st' := checkTemperature now temp st in
    overheatSensorFault st' = true /\
    lastTemperatureValid st' = false /\
    lastTemperatureC st' = lastTemperatureC st /\
    maxTemperature st' = maxTemperature st /\
    session st' = session st /\
    rtspServer st' = rtspServer st /\
    rtspClient st' = rtspClient st /\
    overheatLockoutActive st' = overheatLockoutActive st /\
    overheatLatched st' = overheatLatched st /\
    audioPrefs st' !! "ohLatched"
    = (if overheatSensorFault st then audioPrefs st !! "ohLatched"
       else Some (PBool (overheatLatched st))).
Proof.
  intros P now temp st. destruct_state st. intros Hv st'.
  remember st' as r eqn:E in |- *. subst st'. symmetry in E. revert r E.
  cbv beta delta [checkTemperature persistOverheatNote].
  intros r. exec.
  all: sst_cbv;
    repeat match goal with
           | H : context [if ?b then _ else _] |- _ => destruct b; try discriminate
           end;
    repeat split; simplify_map_eq; reflexivity.
Qed.

(** A reading of 135 degrees on the booted device. *)
Lemma checkTemperature_invalid_reading_witness :
  let st' := checkTemperature (P:=refPlatform) 61000 (F32.of_Z 135) connectedState in
  overheatSensorFault st' = true /\
  lastTemperatureValid st' = false /\
  lastTemperatureC st' = lastTemperatureC connectedState /\
  maxTemperature st' = maxTemperature connectedState /\
  session st' = session connectedState /\
  rtspServer st' = rtspServer connectedState /\
  rtspClient st' = rtspClient connectedState /\
  overheatLockoutActive st' = overheatLockoutActive connectedState /\
  overheatLatched st' = overheatLatched connectedState /\
  audioPrefs st' !! "ohLatched"
  = (if overheatSensorFault connectedState then audioPrefs connectedState !! "ohLatched"
     else Some (PBool (overheatLatched connectedState))).
Proof.
  apply (checkTemperature_invalid_reading_never_trips refPlatform 61000 (F32.of_Z 135)
           connectedState).
  vm_compute. reflexivity.
Defined.

(** X15. While the lockout is in force a valid reading releases it
    exactly when it is at or below the limit less 5 degrees, and that is
    all cooling does: the server stays as it was, nothing starts to
    stream, and the latch in RAM and in flash is untouched. *)
Theorem checkTemperature_lockout_released_five_below :
  forall (P : Platform) (now : Z) (temp : f32) (st : State),
    isTemperatureValid temp = true ->
    overheatProtectionEnabled st = true ->
    overheatSensorFault st = false ->
    overheatLockoutActive st = true ->
    let st' := checkTemperature now temp st in
    overheatLockoutActive st'
    = negb (temp <=? overheatShutdownC st - F32.of_Z OVERHEAT_LIMIT_STEP_C)%f32 /\
    session st' = session st /\
    rtspServer st' = rtspServer st /\
    rtspClient st' = rtspClient st /\
    overheatLatched st' = overheatLatched st /\
    audioPrefs st' = audioPrefs st /\
    lastTemperatureC st' = temp.
Proof.
  intros P now temp st. destruct_state st. sst_nz. intros Hv Hp Hf Hl. subst. intros st'.
  remember st' as r eqn:E in |- *. subst st'. symmetry in E. revert r E.
  cbv beta delta [checkTemperature].
  intros r. exec.
  all: sst_cbv; repeat split;
    repeat match goal with
           | H : context [if ?b then _ else _] |- _ => destruct b; try discriminate
           end;
    try reflexivity; try congruence.
  all: match goal with H : _ = _ |- _ => rewrite H end; reflexivity.
Qed.

(** X16. The acknowledgement of a latched device clears the latch
    and the lockout in RAM and the latch, the trip temperature and the
    reason in flash, enables the server and opens it, and answers
    [ok:true]; the streaming flag and the client are not touched.  On a
    device that is not latched it changes nothing and answers
    [ok:false]. *)
Theorem httpThermalClear_reenables_serving :
  forall st : State,
    (latchedOff st ->
     let st' := fst (httpThermalClear st) in
     overheatLatched st' = false /\
     overheatLockoutActive st' = false /\
     audioPrefs st' !! "ohLatched" = Some (PBool false) /\
     audioPrefs st' !! "ohTripC" = Some (PFloat F32.zero) /\
     audioPrefs st' !! "ohReason" = Some (PString "Thermal latch cleared manually.") /\
     rtspServerEnabled st' = true /\
     rtspServer st' = true /\
     isStreaming st' = isStreaming st /\
     rtspClient st' = rtspClient st /\
     snd (httpThermalClear st) = JSON_OK_TRUE) /\
    (overheatLatched st = false -> httpThermalClear st = (st, JSON_OK_FALSE)).
Proof.
  intros st. split.
  - destruct_state st. unfold latchedOff. sst_cbv.
    intros (Hl & Hf & He & Hs & Hi & Hc & Hr). subst.
    sst_cbv httpThermalClear saveAudioSettings negb fst snd.
    repeat split;
      repeat first [rewrite lookup_insert | rewrite lookup_insert_ne by discriminate];
      reflexivity.
  - intros Hl. unfold httpThermalClear. rewrite Hl. reflexivity.
Qed.

(** The device tripped at 82 degrees with the limit at 80: a reading of
    74 releases the lockout and leaves the rest. *)
Lemma checkTemperature_lockout_released_witness :
  let st := checkTemperature (P:=refPlatform) 121000 (F32.of_Z 82)
              (set_isStreaming true connectedState) in
  let st' := checkTemperature (P:=refPlatform) 181000 (F32.of_Z 74) st in
  overheatLockoutActive st'
  = negb (F32.of_Z 74 <=? overheatShutdownC st - F32.of_Z OVERHEAT_LIMIT_STEP_C)%f32 /\
  session st' = session st /\
  rtspServer st' = rtspServer st /\
  rtspClient st' = rtspClient st /\
  overheatLatched st' = overheatLatched st /\
  audioPrefs st' = audioPrefs st /\
  lastTemperatureC st' = F32.of_Z 74.
Proof.
  apply (checkTemperature_lockout_released_five_below refPlatform 181000 (F32.of_Z 74)
           (checkTemperature (P:=refPlatform) 121000 (F32.of_Z 82)
              (set_isStreaming true connectedState)));
    vm_compute; reflexivity.
Defined.
(** *** Settings across a restart *)

Lemma quantizeOverheatLimit_clamped (x : Z) :
  quantizeOverheatLimit
    (let x := if x <? OVERHEAT_MIN_LIMIT_C then OVERHEAT_MIN_LIMIT_C else x in
     if OVERHEAT_MAX_LIMIT_C <? x then OVERHEAT_MAX_LIMIT_C else x)
  = quantizeOverheatLimit x.
Proof.
  unfold quantizeOverheatLimit, OVERHEAT_MIN_LIMIT_C, OVERHEAT_MAX_LIMIT_C. cbv zeta.
  destruct (Z.ltb_spec x 30); [reflexivity|].
  destruct (Z.ltb_spec 95 x); [reflexivity|].
  destruct (Z.ltb_spec x 30); [lia|].
  destruct (Z.ltb_spec 95 x); [lia|]. reflexivity.
Qed.

Ltac pref_lookup :=
  repeat first [rewrite lookup_insert | rewrite lookup_insert_ne by discriminate].

(** What the getters read from a flash written by [saveAudioSettings]. *)
Lemma saveAudioSettings_reads (st0 : State) :
  let m := audioPrefs (saveAudioSettings st0) in
  (forall d, getUInt "sampleRate" d m = currentSampleRate st0) /\
  (forall d, getFloat "gainFactor" d m = currentGainFactor st0) /\
  (forall d, getUShort "bufferSize" d m = currentBufferSize st0) /\
  (forall d, getUChar "shiftBits" d m = i2sShiftBits st0) /\
  (forall d, getBool "autoRecovery" d m = autoRecoveryEnabled st0) /\
  (forall d, getBool "schedReset" d m = scheduledResetEnabled st0) /\
  (forall d, getUInt "resetHours" d m = resetIntervalHours st0) /\
  (forall d, getUInt "minRate" d m = minAcceptableRate st0) /\
  (forall d, getUInt "checkInterval" d m = performanceCheckInterval st0) /\
  (forall d, getBool "thrAuto" d m = autoThresholdEnabled st0) /\
  (forall d, getUChar "cpuFreq" d m = cpuFrequencyMhz st0) /\
  (forall d, getFloat "wifiTxDbm" d m = wifiTxPowerDbm st0) /\
  (forall d, getBool "hpEnable" d m = highpassEnabled st0) /\
  (forall d, getUInt "hpCutoff" d m = highpassCutoffHz st0) /\
  (forall d, getBool "ohEnable" d m = overheatProtectionEnabled st0) /\
  (forall d, getUInt "ohThresh" d m
             = let x := u32 (F32.trunc (overheatShutdownC st0 + F32.of_ratio 1 2)%f32) in
               let x := if x <? OVERHEAT_MIN_LIMIT_C then OVERHEAT_MIN_LIMIT_C else x in
               if OVERHEAT_MAX_LIMIT_C <? x then OVERHEAT_MAX_LIMIT_C else x) /\
  (forall d, getString "ohReason" d m = overheatLastReason st0) /\
  (forall d, getString "ohStamp" d m = overheatLastTimestamp st0) /\
  (forall d, getFloat "ohTripC" d m = overheatTripTemp st0) /\
  (forall d, getBool "ohLatched" d m = overheatLatched st0).
Proof.
  destruct_state st0. sst_cbv saveAudioSettings.
  unfold getUInt, getUShort, getUChar, getFloat, getBool, getString.
  repeat split; intros d; pref_lookup; reflexivity.
Qed.

(** What [loadAudioSettings] makes of a flash written by
    [saveAudioSettings]. *)
Lemma loadAudioSettings_saved (st0 st : State) :
  0 <= highpassCutoffHz st0 < 2 ^ 16 ->
  flashSavedFrom st0 st ->
  hasSettings (savedSettings st0) (loadAudioSettings st) /\
  rtspServerEnabled (loadAudioSettings st)
  = (if overheatLatched st0 then false else rtspServerEnabled st) /\
  audioPrefs (loadAudioSettings st) = audioPrefs st /\
  rtspServer (loadAudioSettings st) = rtspServer st.
Proof.
  intros Hc Hf. unfold flashSavedFrom in Hf.
  pose proof (saveAudioSettings_reads st0) as R. cbv zeta in R.
  rewrite <- Hf in R. clear Hf.
  destruct R as (R1 & R2 & R3 & R4 & R5 & R6 & R7 & R8 & R9 & R10 & R11 & R12 & R13
                 & R14 & R15 & R16 & R17 & R18 & R19 & R20).
  unfold hasSettings, settingsView, savedSettings.
  cbv beta delta [loadAudioSettings]. cbv zeta.
  rewrite ?R1, ?R2, ?R3, ?R4, ?R5, ?R6, ?R7, ?R8, ?R9, ?R10, ?R11, ?R12, ?R13,
    ?R14, ?R15, ?R16, ?R17, ?R18, ?R19, ?R20.
  cbv zeta. rewrite ?quantizeOverheatLimit_clamped.
  unfold u16. rewrite ?Z.mod_small by exact Hc.
  destruct (autoThresholdEnabled st0), (overheatLatched st0); sst_nz; repeat split.
Qed.
Lemma applyWifiTxPower_bootView (st : State) :
  bootView (applyWifiTxPower st) = bootView st.
Proof. unfold applyWifiTxPower. cbv zeta. destruct (bool_decide _); reflexivity. Qed.

Lemma setup_i2s_driver_bootView (st : State) :
  bootView (setup_i2s_driver st) = bootView st.
Proof. reflexivity. Qed.

Lemma updateHighpassCoeffs_bootView {P : Platform} (st : State) :
  bootView (updateHighpassCoeffs st) = bootView st.
Proof.
  pose proof (updateHighpassCoeffs_frame st) as F. cbv zeta in F.
  destruct F as (F1 & F2 & F3 & F4 & F5 & F6 & F7 & F8 & F9 & _ & _ & F12 & F13).
  unfold bootView, settingsView.
  rewrite F1, F2, F3, F4, F5, F6, F7, F8, F9, F12, F13. reflexivity.
Qed.

Lemma persistOverheatNote_bootView (st : State) :
  bootView (persistOverheatNote st) = bootView st.
Proof. reflexivity. Qed.

Ltac boot_leaf :=
  idtac;
  match goal with
  | H : bootViewIs ?v ?s |- bootViewIs ?v ?t =>
      let E := fresh in
      assert (E : bootView t = bootView s)
        by (unfold bootView, settingsView; sst_nz;
            lazymatch goal with |- ?a = ?a => reflexivity end);
      unfold bootViewIs in *; rewrite E; exact H
  end.

Ltac boot_callee :=
  idtac;
  lazymatch goal with
  | |- bootViewIs _ (applyWifiTxPower _) =>
      unfold bootViewIs in *; rewrite applyWifiTxPower_bootView; assumption
  | |- bootViewIs _ (setup_i2s_driver _) =>
      unfold bootViewIs in *; rewrite setup_i2s_driver_bootView; assumption
  | |- bootViewIs _ (updateHighpassCoeffs _) =>
      unfold bootViewIs in *; rewrite updateHighpassCoeffs_bootView; assumption
  | |- bootViewIs _ (persistOverheatNote _) =>
      unfold bootViewIs in *; rewrite persistOverheatNote_bootView; assumption
  end.

Ltac boot := inv_run ltac:(constr:(bootViewIs)) ltac:(boot_callee) ltac:(boot_leaf).

Lemma settingsView_latched (st : State) :
  overheatLatched st = snd (settingsView st).
Proof. reflexivity. Qed.

(** [setup()] after the settings are loaded: the settings stay, and the
    server is enabled and opened exactly when the latch is clear. *)
Lemma setup_bootView {P : Platform} (now ssrc : Z) (initialTemp : f32) (st : State) :
  let st1 := loadAudioSettings (set_rtpSSRC (u32 ssrc) (set_bootTime now st)) in
  bootView (setup now ssrc initialTemp st)
  = (settingsView st1, negb (overheatLatched st1), negb (overheatLatched st1)).
Proof.
  cbv zeta. cbv beta delta [setup].
  set (tgt := (settingsView _, _, _)).
  lazymatch goal with |- bootView ?T = _ => change (bootViewIs tgt T) end.
  inv_let_with (eq (set_bootTime now st)) (bootViewIs tgt); [reflexivity|].
  intros x <-. cbv beta.
  inv_let_with (eq (set_rtpSSRC (u32 ssrc) (set_bootTime now st))) (bootViewIs tgt);
    [reflexivity|].
  intros x <-. cbv beta.
  inv_let_with (eq (loadAudioSettings (set_rtpSSRC (u32 ssrc) (set_bootTime now st))))
               (bootViewIs tgt); [reflexivity|].
  intros x Hx. cbv beta. subst tgt. rewrite Hx. clear Hx st.
  assert (H0 : bootViewIs (bootView x) x) by reflexivity.
  set (tgt := (settingsView x, _, _)).
  set (v0 := bootView x) in H0.
  assert (Hv : v0 = bootView x) by reflexivity.
  inv_let_with (bootViewIs v0) (bootViewIs tgt); [boot_leaf|].
  clear H0. intros s H0. cbv beta.
  inv_let_with (bootViewIs v0) (bootViewIs tgt); [boot_callee|].
  clear s H0. intros s H0. cbv beta.
  inv_let_with (bootViewIs v0) (bootViewIs tgt); [boot_callee|].
  clear s H0. intros s H0. cbv beta.
  inv_let_with (bootViewIs v0) (bootViewIs tgt); [boot_callee|].
  clear s H0. intros s H0. cbv beta.
  inv_let_with (bootViewIs tgt) (bootViewIs tgt).
  { unfold bootViewIs in *. subst v0 tgt.
    assert (Hs : settingsView s = settingsView x)
      by (exact (f_equal (fun v => fst (fst v)) H0)).
    assert (Hl : overheatLatched s = overheatLatched x)
      by (rewrite !settingsView_latched, Hs; reflexivity).
    unfold bootView. rewrite <- Hl, <- Hs.
    destruct (overheatLatched s); reflexivity. }
  clear. intros s Hs. cbv beta.
  inv_run (bootViewIs tgt) ltac:(boot_callee) ltac:(boot_leaf).
Qed.
Lemma restart_bootView {P : Platform} (now ssrc : Z) (initialTemp : f32) (st : State) :
  bootView (restart now ssrc initialTemp st)
  = bootView (setup now ssrc initialTemp (initialState (audioPrefs st))).
Proof. reflexivity. Qed.

Lemma limit_steps_all :
  allFrom 0 14
    (fun k => quantizeOverheatLimit
                (u32 (F32.trunc (F32.of_Z (30 + 5 * k) + F32.of_ratio 1 2)%f32))
              =? 30 + 5 * k) = true.
Proof. vm_compute. reflexivity. Qed.

Lemma audioPrefs_boot_start (now ssrc : Z) (flash : gmap string PrefVal) :
  audioPrefs (set_rtpSSRC (u32 ssrc) (set_bootTime now (initialState flash))) = flash.
Proof. reflexivity. Qed.

Lemma restart_saved_bootView {P : Platform} (now ssrc : Z) (initialTemp : f32) (st : State) :
  0 <= highpassCutoffHz st < 2 ^ 16 ->
  bootView (restart now ssrc initialTemp (saveAudioSettings st))
  = (savedSettings st, negb (overheatLatched st), negb (overheatLatched st)).
Proof.
  intros Hc.
  rewrite restart_bootView, setup_bootView. cbv zeta.
  match goal with
  | |- (settingsView (loadAudioSettings ?s0), _, _) = _ =>
      destruct (loadAudioSettings_saved st s0 Hc) as (Hs & _);
        [unfold flashSavedFrom; apply audioPrefs_boot_start|];
      unfold hasSettings in Hs;
      assert (Hl : overheatLatched (loadAudioSettings s0) = overheatLatched st)
        by (rewrite settingsView_latched, Hs; reflexivity);
      rewrite Hs, Hl
  end.
  reflexivity.
Qed.

(** X17. Settings that have been saved survive a restart.
    After [saveAudioSettings] and a restart the device has the sample
    rate, gain, buffer size, shift, recovery and reset options, check
    interval, threshold mode, CPU frequency, transmit power, filter
    options, protection switch and latch it had; the threshold is the one
    it had in manual mode and the recommended one in auto mode; the limit
    is the stored whole number of degrees, clamped to 30..95 and rounded
    down to a multiple of 5, so a limit that is such a multiple is kept;
    and the server is enabled and open exactly when the latch is
    clear. *)
Theorem restart_restores_saved_settings :
  forall (P : Platform) (now ssrc : Z) (initialTemp : f32) (st : State),
    0 <= highpassCutoffHz st < 2 ^ 16 ->
    let st' := restart now ssrc initialTemp (saveAudioSettings st) in
    settingsView st' = savedSettings st /\
    rtspServerEnabled st' = negb (overheatLatched st) /\
    rtspServer st' = negb (overheatLatched st) /\
    (forall k : Z, 0 <= k <= 13 -> overheatShutdownC st = F32.of_Z (30 + 5 * k) ->
                   overheatShutdownC st' = overheatShutdownC st).
Proof.
  intros P now ssrc initialTemp st Hc st'.
  pose proof (restart_saved_bootView now ssrc initialTemp st Hc) as Hb.
  fold st' in Hb. clearbody st'.
  assert (H1 : settingsView st' = savedSettings st)
    by (exact (f_equal (fun v => fst (fst v)) Hb)).
  split; [exact H1|].
  split; [exact (f_equal (fun v => snd (fst v)) Hb)|].
  split; [exact (f_equal snd Hb)|].
  intros k Hk Hlim.
  assert (H2 : overheatShutdownC st' = snd (fst (savedSettings st)))
    by (rewrite <- H1; reflexivity).
  rewrite H2. unfold savedSettings. cbn [fst snd]. rewrite Hlim. f_equal.
  pose proof (allFrom_spec _ _ _ k limit_steps_all) as Hq. cbn beta in Hq.
  apply Z.eqb_eq. apply Hq. lia.
Qed.

(** The booted device, saved and restarted. *)
Lemma restart_restores_saved_settings_witness :
  let st' := restart (P:=refPlatform) 1000 4242 (F32.of_Z 41) (saveAudioSettings bootState) in
  settingsView st' = savedSettings bootState /\
  rtspServerEnabled st' = negb (overheatLatched bootState) /\
  rtspServer st' = negb (overheatLatched bootState) /\
  (forall k : Z, 0 <= k <= 13 -> overheatShutdownC bootState = F32.of_Z (30 + 5 * k) ->
                 overheatShutdownC st' = overheatShutdownC bootState).
Proof.
  apply (restart_restores_saved_settings refPlatform 1000 4242 (F32.of_Z 41) bootState).
  vm_compute. split; [discriminate|reflexivity].
Defined.

(** The flash after a factory reset does not depend on what the device
    held before. *)
Lemma resetToDefaultSettings_flash (st : State) :
  audioPrefs (resetToDefaultSettings st)
  = audioPrefs (resetToDefaultSettings (initialState ∅)).
Proof.
  destruct_state st.
  sst_cbv resetToDefaultSettings saveAudioSettings initialState computeRecommendedMinRate.
  reflexivity.
Qed.

(** X18. A factory reset that is due at the end of [loop()]
    wipes the flash, restarts the device and brings it up with the default
    settings, whatever it held before: 48000 Hz, gain 1.2, 1024 samples,
    shift 12, automatic recovery and threshold (33 packets per second),
    no scheduled reset, transmit power 19.5 dBm, the filter on at 500 Hz,
    the protection on at 80 degrees.  The thermal latch is cleared too
    (the value is the one read back from flash by the boot), and the
    server is enabled and open. *)
Theorem factory_reset_restores_defaults :
  forall (P : Platform) (now ssrc : Z) (initialTemp : f32) (st : State),
    scheduledFactoryReset st = true ->
    scheduledRebootAt st <> 0 ->
    scheduledRebootAt st <= now ->
    let st' := loopDeferredReboot now ssrc initialTemp st in
    settingsView st' = defaultSettings /\
    rtspServerEnabled st' = true /\
    rtspServer st' = true.
Proof.
  intros P now ssrc initialTemp st Hf Hz Hd st'.
  assert (E : st' = restart now ssrc initialTemp (resetToDefaultSettings st)).
  { subst st'. unfold loopDeferredReboot.
    replace (scheduledRebootAt st =? 0) with false by (symmetry; apply Z.eqb_neq, Hz).
    replace (scheduledRebootAt st <=? now) with true by (symmetry; apply Z.leb_le, Hd).
    cbn [negb andb]. rewrite Hf. reflexivity. }
  rewrite E. clear E st'.
  pose proof (restart_bootView now ssrc initialTemp (resetToDefaultSettings st)) as Hb.
  rewrite setup_bootView in Hb. cbv zeta in Hb.
  rewrite resetToDefaultSettings_flash in Hb.
  match type of Hb with
  | _ = (settingsView ?s1, _, _) =>
      assert (Hs : settingsView s1 = defaultSettings) by (vm_compute; reflexivity);
      assert (Hl : overheatLatched s1 = false)
        by (rewrite settingsView_latched, Hs; reflexivity);
      rewrite Hs, Hl in Hb
  end.
  split; [exact (f_equal (fun v => fst (fst v)) Hb)|].
  split; [exact (f_equal (fun v => snd (fst v)) Hb)|].
  exact (f_equal snd Hb).
Qed.

(** A latched device, a factory reset requested at 5000 ms and the end
    of [loop()] at 5600 ms. *)
Lemma factory_reset_restores_defaults_witness :
  let tripped := checkTemperature (P:=refPlatform) 121000 (F32.of_Z 82)
                   (set_isStreaming true connectedState) in
  let st := fst (httpActionFactoryReset 5000 tripped) in
  let st' := loopDeferredReboot (P:=refPlatform) 5600 4242 (F32.of_Z 41) st in
  settingsView st' = defaultSettings /\
  rtspServerEnabled st' = true /\
  rtspServer st' = true.
Proof.
  apply (factory_reset_restores_defaults refPlatform 5600 4242 (F32.of_Z 41)
           (fst (httpActionFactoryReset 5000
                   (checkTemperature (P:=refPlatform) 121000 (F32.of_Z 82)
                      (set_isStreaming true connectedState))))).
  - vm_compute. reflexivity.
  - vm_compute. discriminate.
  - vm_compute. discriminate.
Defined.
(** *** The log ring of the web module *)

Lemma string_app_assoc (a b c : string) : (a +:+ b) +:+ c = a +:+ (b +:+ c).
Proof.
  induction a as [|x a IH]; [reflexivity|].
  change (String x ((a +:+ b) +:+ c) = String x (a +:+ (b +:+ c))). f_equal. exact IH.
Qed.

Lemma string_app_nil_r (a : string) : a +:+ EmptyString = a.
Proof.
  induction a as [|x a IH]; [reflexivity|].
  change (String x (a +:+ EmptyString) = String x a). f_equal. exact IH.
Qed.

Lemma string_app_nil_l (a : string) : EmptyString +:+ a = a.
Proof. reflexivity. Qed.

Lemma ringHolds_empty : ringHolds [] emptyLog.
Proof.
  unfold ringHolds, emptyLog, LOG_CAP. cbn [logBuffer logHead logCount length].
  split; [apply length_replicate|]. split; [reflexivity|]. split; [reflexivity|].
  intros j Hj. lia.
Qed.

Lemma ringHolds_push (lines : list string) (line : string) (r : LogRing) :
  ringHolds lines r -> ringHolds (lines ++ [line]) (webui_pushLog line r).
Proof.
  unfold ringHolds, webui_pushLog, LOG_CAP, u32.
  cbn [logBuffer logHead logCount]. intros (Hl & Hh & Hc & Hb).
  rewrite length_app. cbn [length]. rewrite length_insert.
  assert (Hh80 : 0 <= logHead r < 80) by (rewrite Hh; apply Z.mod_pos_bound; lia).
  split; [exact Hl|]. split; [|split].
  - rewrite (Z.mod_small (logHead r + 1)) by lia. rewrite Hh.
    Z.to_euclidean_division_equations. lia.
  - rewrite Hc. destruct (Z.ltb_spec (Z.min (Z.of_nat (length lines)) 80) 80).
    + rewrite Z.mod_small by lia. lia.
    + lia.
  - intros j Hj.
    destruct (decide (j = length lines)) as [->|Hne].
    + rewrite <- Hh. rewrite list_lookup_insert.
      destruct (decide _) as [_|Hn]; [|exfalso; apply Hn; split; [reflexivity|lia]].
      rewrite lookup_app_r by lia. now rewrite Nat.sub_diag.
    + rewrite list_lookup_insert_ne.
      * rewrite lookup_app_l by lia. apply Hb. lia.
      * rewrite Hh. intros E. apply Z2Nat.inj in E;
          [|apply Z.mod_pos_bound; lia|apply Z.mod_pos_bound; lia].
        revert E. Z.to_euclidean_division_equations. lia.
Qed.

Lemma ringHolds_pushAll (lines : list string) : forall (pre : list string) (r : LogRing),
  ringHolds pre r -> ringHolds (pre ++ lines) (pushAll lines r).
Proof.
  induction lines as [|l lines IH]; intros pre r H; cbn [pushAll fold_left].
  - now rewrite app_nil_r.
  - replace (pre ++ l :: lines) with ((pre ++ [l]) ++ lines) by now rewrite <- app_assoc.
    apply IH, ringHolds_push, H.
Qed.

Lemma httpLogsFrom_spec (lines : list string) (r : LogRing) :
  ringHolds lines r ->
  forall (n : nat) (i : Z) (out : string),
    0 <= i -> i + Z.of_nat n = logCount r ->
    httpLogsFrom r i n out
    = out +:+ renderLog (take n (drop (Z.to_nat (Z.of_nat (length lines) - logCount r + i))
                                      lines)).
Proof.
  intros (Hl & Hh & Hc & Hb).
  induction n as [|n IH]; intros i out Hi Hn.
  - cbn [httpLogsFrom take renderLog]. symmetry. apply string_app_nil_r.
  - cbn [httpLogsFrom]. cbv zeta.
    assert (Hc80 : 0 <= logCount r <= 80 /\ logCount r <= Z.of_nat (length lines))
      by (rewrite Hc; unfold LOG_CAP; lia).
    set (j := Z.to_nat (Z.of_nat (length lines) - logCount r + i)).
    assert (Hj : Z.of_nat j = Z.of_nat (length lines) - logCount r + i) by (subst j; lia).
    assert (Hidx : u32 (logHead r + LOG_CAP - logCount r + i) mod LOG_CAP
                   = Z.of_nat j mod LOG_CAP).
    { unfold u32, LOG_CAP in *.
      assert (0 <= logHead r < 80) by (rewrite Hh; apply Z.mod_pos_bound; lia).
      rewrite (Z.mod_small (logHead r + 80 - logCount r + i)) by lia.
      rewrite Hj, Hh. Z.to_euclidean_division_equations. lia. }
    rewrite Hidx, Hb by (unfold LOG_CAP in *; lia).
    destruct (lines !! j) as [l|] eqn:El.
    2:{ apply lookup_ge_None in El. lia. }
    cbn [default].
    rewrite IH by lia.
    replace (Z.to_nat (Z.of_nat (length lines) - logCount r + (i + 1))) with (S j) by lia.
    rewrite (drop_S _ _ _ El). cbn [take renderLog].
    rewrite !string_app_assoc. reflexivity.
Qed.

(** X19. The log ring keeps the last 80 lines: after any sequence
    of lines has been pushed, starting from the empty ring, [httpLogs]
    replies with the last 80 of them (all of them when there are fewer),
    oldest first, each followed by a line feed. *)
Theorem httpLogs_shows_last_lines :
  forall lines : list string,
    httpLogs (pushAll lines emptyLog)
    = renderLog (drop (length lines - Z.to_nat LOG_CAP) lines).
Proof.
  intros lines.
  pose proof (ringHolds_pushAll lines [] emptyLog ringHolds_empty) as H.
  rewrite app_nil_l in H.
  pose proof H as (_ & _ & Hc & _).
  unfold httpLogs. rewrite (httpLogsFrom_spec lines _ H) by (unfold LOG_CAP in Hc; lia).
  rewrite Hc. unfold LOG_CAP. rewrite string_app_nil_l.
  f_equal.
  destruct (Z.min_spec (Z.of_nat (length lines)) 80) as [[Hlt ->]|[Hge ->]].
  - replace (Z.to_nat (Z.of_nat (length lines) - Z.of_nat (length lines) + 0)) with 0%nat by lia.
    replace (length lines - Z.to_nat 80)%nat with 0%nat by lia.
    rewrite drop_0. apply take_ge. lia.
  - replace (Z.to_nat (Z.of_nat (length lines) - 80 + 0))
      with (length lines - Z.to_nat 80)%nat by lia.
    apply take_ge. rewrite length_drop. lia.
Qed.
(** *** Escaping for JSON *)

Lemma jsonEscapeFrom_app (s : string) : forall o : string,
  jsonEscapeFrom s o = o +:+ jsonEscape s.
Proof.
  unfold jsonEscape.
  induction s as [|c r IH]; intros o; cbn [jsonEscapeFrom].
  - symmetry. apply string_app_nil_r.
  - destruct (_ || _); [|destruct (Ascii.eqb c "010")];
      rewrite IH; symmetry; rewrite IH; rewrite ?string_app_nil_l, !string_app_assoc;
      reflexivity.
Qed.

Lemma jsonEscape_cons (c : ascii) (r : string) :
  jsonEscape (String c r)
  = if Ascii.eqb c "034" || Ascii.eqb c "092" then String "092" (String c (jsonEscape r))
    else if Ascii.eqb c "010" then String "092" (String "n" (jsonEscape r))
    else String c (jsonEscape r).
Proof.
  unfold jsonEscape at 1. cbn [jsonEscapeFrom].
  destruct (_ || _); [|destruct (Ascii.eqb c "010")]; rewrite jsonEscapeFrom_app; reflexivity.
Qed.

(** X20. [jsonEscape] loses nothing and leaves nothing bare: two
    different texts have different escaped forms, and the escaped form
    holds no line feed and no double quote other than behind a
    backslash. *)
Theorem jsonEscape_faithful :
  (forall s1 s2 : string, jsonEscape s1 = jsonEscape s2 -> s1 = s2) /\
  (forall s : string,
      quotesEscaped (jsonEscape s) = true /\ noLineFeed (jsonEscape s) = true).
Proof.
  split.
  - induction s1 as [|c1 r1 IH]; intros [|c2 r2] H; try reflexivity.
    + rewrite jsonEscape_cons in H. change (jsonEscape EmptyString) with EmptyString in H.
      destruct (_ || _); [|destruct (Ascii.eqb c2 "010")]; discriminate.
    + rewrite jsonEscape_cons in H. change (jsonEscape EmptyString) with EmptyString in H.
      destruct (_ || _); [|destruct (Ascii.eqb c1 "010")]; discriminate.
    + rewrite !jsonEscape_cons in H.
      destruct (Ascii.eqb_spec c1 "034"), (Ascii.eqb_spec c1 "092"),
        (Ascii.eqb_spec c1 "010"), (Ascii.eqb_spec c2 "034"),
        (Ascii.eqb_spec c2 "092"), (Ascii.eqb_spec c2 "010");
        cbn [orb] in H; subst; try discriminate;
        injection H; intros; subst; try congruence;
        f_equal; apply IH; assumption.
  - induction s as [|c r [IH1 IH2]]; [split; reflexivity|].
    rewrite jsonEscape_cons.
    destruct (Ascii.eqb_spec c "034"), (Ascii.eqb_spec c "092"), (Ascii.eqb_spec c "010");
      subst; try discriminate; cbn [orb quotesEscaped noLineFeed];
      repeat match goal with
             | H : ?a <> ?b |- context [Ascii.eqb ?a ?b] =>
                 rewrite (proj2 (Ascii.eqb_neq a b) H)
             end;
      cbn; split; assumption.
Qed.
(** *** The performance supervisor *)


(** *** What the flash can do to the overheat limit *)

Lemma quantizeOverheatLimit_grid (x : Z) :
  30 <= quantizeOverheatLimit x <= 95 /\ quantizeOverheatLimit x mod 5 = 0.
Proof.
  unfold quantizeOverheatLimit, OVERHEAT_MIN_LIMIT_C, OVERHEAT_MAX_LIMIT_C,
    OVERHEAT_LIMIT_STEP_C. cbv zeta.
  split.
  - destruct (Z.ltb_spec x 30).
    + change (95 <? 30) with false. cbv iota. change ((30 - 30) / 5 * 5) with 0. lia.
    + destruct (Z.ltb_spec 95 x).
      * change ((95 - 30) / 5 * 5) with 65. lia.
      * pose proof (Z.mul_div_le (x - 30) 5 ltac:(lia)).
        pose proof (Z.div_pos (x - 30) 5 ltac:(lia) ltac:(lia)). lia.
  - rewrite Z.mod_add by lia. reflexivity.
Qed.

(** X22. Whatever the flash holds (a value written by another
    version, a worn cell), [loadAudioSettings] brings the overheat limit
    up on the grid of the interface: a whole number of degrees between 30
    and 95, a multiple of 5. *)
Theorem loadAudioSettings_limit_on_grid (st : State) :
  exists k : Z,
    30 <= k <= 95 /\ k mod 5 = 0 /\
    overheatShutdownC (loadAudioSettings st) = F32.of_Z k.
Proof.
  exists (quantizeOverheatLimit (getUInt "ohThresh" DEFAULT_OVERHEAT_LIMIT_C (audioPrefs st))).
  split; [|split]; try apply quantizeOverheatLimit_grid.
  destruct_state st. cbv beta delta [loadAudioSettings]. sst_cbv.
  repeat (case_if; sst_cbv). all: reflexivity.
Qed.
(** *** Witnesses of the conditional parts *)

(** A request of 6 dBm: the level picked is 7 dBm, not below the request
    and not above the 8.5 dBm level. *)
Lemma pickWifiPowerLevel_least_level_witness :
  (F32.of_Z 6 <=? wifiPowerLevelToDbm (pickWifiPowerLevel (F32.of_Z 6)))%f32 = true /\
  (wifiPowerLevelToDbm (pickWifiPowerLevel (F32.of_Z 6))
   <=? wifiPowerLevelToDbm WIFI_POWER_8_5dBm)%f32 = true.
Proof.
  destruct (pickWifiPowerLevel_least_level_not_below (F32.of_Z 6)) as (H1 & H2 & _).
  split.
  - apply H1. vm_compute. reflexivity.
  - apply H2. vm_compute. reflexivity.
Defined.

(** The device that tripped at 82 degrees is acknowledged; the device as
    booted has nothing to acknowledge. *)
Lemma httpThermalClear_reenables_serving_witness :
  let tripped := checkTemperature (P:=refPlatform) 121000 (F32.of_Z 82)
                   (set_isStreaming true connectedState) in
  (overheatLatched (fst (httpThermalClear tripped)) = false /\
   rtspServerEnabled (fst (httpThermalClear tripped)) = true /\
   rtspServer (fst (httpThermalClear tripped)) = true /\
   snd (httpThermalClear tripped) = JSON_OK_TRUE) /\
  httpThermalClear bootState = (bootState, JSON_OK_FALSE).
Proof.
  cbv zeta. split.
  - destruct (httpThermalClear_reenables_serving
                (checkTemperature (P:=refPlatform) 121000 (F32.of_Z 82)
                   (set_isStreaming true connectedState))) as [H _].
    assert (L : latchedOff (checkTemperature (P:=refPlatform) 121000 (F32.of_Z 82)
                              (set_isStreaming true connectedState)))
      by (repeat split; vm_compute; reflexivity).
    destruct (H L) as (H1 & _ & _ & _ & _ & H6 & H7 & _ & _ & H10).
    repeat split; assumption.
  - destruct (httpThermalClear_reenables_serving bootState) as [_ H].
    apply H. vm_compute. reflexivity.
Defined.

(** A line with a quote, a backslash and a line feed. *)
Lemma jsonEscape_faithful_witness :
  let s := String "a" (String "034" (String "092" (String "010" EmptyString))) in
  (jsonEscape s = jsonEscape s -> s = s) /\
  quotesEscaped (jsonEscape s) = true /\ noLineFeed (jsonEscape s) = true.
Proof.
  cbv zeta. destruct jsonEscape_faithful as [H1 H2]. split.
  - apply H1.
  - apply H2.
Defined.
(** *** The threshold across a restart *)






